(** * atlas-quicklook: phase folding, phase binning and the light-curve reducer

    A shallow embedding of [atlas_ql/utils/timeseries.py], [bls.py] and the two
    copies of [io.py], and the properties of the specification proved on it.

    Numbers.  A numpy [float64] is modelled as an exact real number or one of
    the three special values [+inf], [-inf], [nan]; arithmetic on finite values
    is exact (no rounding, no overflow) and zero carries no sign (it behaves as
    [+0.0]).  Everything the source decides on a special value (comparisons
    with [nan], [np.isfinite], division by zero) is modelled; rounding is not.

    Where rounding decides what the code returns, [phase_fold] is evaluated a
    second time on IEEE-754 doubles (module [B64]). *)

From Stdlib Require Import Reals Lra Lia List String Ascii ZArith Bool.
From Stdlib Require Import Zfloor DecimalString Permutation.
From Stdlib Require Floats.
Import ListNotations.

Set Implicit Arguments.

(** ** Python exceptions and the result of a call *)

Module Py.

(** The exception classes the modelled code can raise; [ValueError] carries
    its message, [OtherError] stands for any class not named here (a parser
    error of [pd.read_csv], say). *)
Inductive exn : Type :=
| ValueError (msg : string)
| ZeroDivisionError
| IndexError
| FileNotFoundError
| EmptyDataError
| OtherError (name : string).

(** A call either raises or returns. *)
Inductive result (A : Type) : Type :=
| Raise (e : exn)
| Ok (a : A).
Arguments Raise {A} e.
Arguments Ok {A} a.

Definition bind {A B} (m : result A) (k : A -> result B) : result B :=
  match m with
  | Raise e => Raise e
  | Ok a => k a
  end.

Definition raises {A} (m : result A) : Prop :=
  match m with Raise _ => True | Ok _ => False end.

(** [str(n)] for a Python int. *)
Definition str_of_int (n : Z) : string := NilZero.string_of_int (Z.to_int n).

End Py.
Import Py.

Declare Scope py_scope.
Delimit Scope py_scope with py.
Notation "x <- m ;; k" := (Py.bind m (fun x => k))
  (at level 61, m at next level, right associativity) : py_scope.
Open Scope py_scope.

(** ** float64 values *)

Module F64.
Open Scope R_scope.

Inductive float : Type :=
| Fin (r : R)
| PInf
| NInf
| NaN.

Definition Rleb (x y : R) : bool := if Rle_dec x y then true else false.
Definition Rltb (x y : R) : bool := if Rlt_dec x y then true else false.
Definition Reqb (x y : R) : bool := if Req_dec_T x y then true else false.

Definition isfinite (x : float) : bool :=
  match x with Fin _ => true | _ => false end.

(** Comparisons: every comparison with [nan] is false. *)
Definition fle (x y : float) : bool :=
  match x, y with
  | NaN, _ | _, NaN => false
  | NInf, _ => true
  | _, PInf => true
  | Fin a, Fin b => Rleb a b
  | _, _ => false
  end.

Definition flt (x y : float) : bool :=
  match x, y with
  | NaN, _ | _, NaN => false
  | PInf, _ => false
  | _, NInf => false
  | Fin a, Fin b => Rltb a b
  | _, _ => true
  end.

Definition fge (x y : float) : bool := fle y x.
Definition fgt (x y : float) : bool := flt y x.

Definition fneg (x : float) : float :=
  match x with
  | Fin a => Fin (- a)
  | PInf => NInf
  | NInf => PInf
  | NaN => NaN
  end.

Definition fadd (x y : float) : float :=
  match x, y with
  | NaN, _ | _, NaN => NaN
  | PInf, NInf | NInf, PInf => NaN
  | PInf, _ | _, PInf => PInf
  | NInf, _ | _, NInf => NInf
  | Fin a, Fin b => Fin (a + b)
  end.

Definition fsub (x y : float) : float := fadd x (fneg y).

(** The infinity with the sign of [a * s], [s] the sign of the infinity;
    [0 * inf] is [nan]. *)
Definition inf_times (positive : bool) (a : R) : float :=
  if Reqb a 0 then NaN
  else if Bool.eqb positive (Rltb 0 a) then PInf else NInf.

Definition fmul (x y : float) : float :=
  match x, y with
  | NaN, _ | _, NaN => NaN
  | Fin a, Fin b => Fin (a * b)
  | Fin a, PInf | PInf, Fin a => inf_times true a
  | Fin a, NInf | NInf, Fin a => inf_times false a
  | PInf, PInf | NInf, NInf => PInf
  | PInf, NInf | NInf, PInf => NInf
  end.

(** numpy true division: [x / 0] is an infinity ([nan] for [0 / 0]), never
    an exception. *)
Definition fdiv (x y : float) : float :=
  match x, y with
  | NaN, _ | _, NaN => NaN
  | Fin a, Fin b =>
      if Reqb b 0 then
        if Reqb a 0 then NaN else if Rltb 0 a then PInf else NInf
      else Fin (a / b)
  | Fin _, _ => Fin 0
  | PInf, Fin b => if Rltb b 0 then NInf else PInf
  | NInf, Fin b => if Rltb b 0 then PInf else NInf
  | _, _ => NaN
  end.

(** [x ** 2]. *)
Definition fsquare (x : float) : float := fmul x x.

(** [np.mod] / the [%] of arrays: the remainder has the sign of the divisor
    (floored division); [x % 0] and [inf % y] are [nan]. *)
Definition fmod (x y : float) : float :=
  match x, y with
  | NaN, _ | _, NaN => NaN
  | PInf, _ | NInf, _ => NaN
  | Fin a, Fin b =>
      if Reqb b 0 then NaN else Fin (a - IZR (Zfloor (a / b)) * b)
  | Fin a, PInf => if Rltb a 0 then PInf else Fin a
  | Fin a, NInf => if Rltb 0 a then NInf else Fin a
  end.

Definition fsqrt (x : float) : float :=
  match x with
  | Fin a => if Rltb a 0 then NaN else Fin (sqrt a)
  | PInf => PInf
  | _ => NaN
  end.

(** [np.minimum] and [np.maximum]: a [nan] operand wins. *)
Definition fminimum (x y : float) : float :=
  match x, y with
  | NaN, _ | _, NaN => NaN
  | _, _ => if fle x y then x else y
  end.

Definition fmaximum (x y : float) : float :=
  match x, y with
  | NaN, _ | _, NaN => NaN
  | _, _ => if fle x y then y else x
  end.

(** A scalar argument is a Python number or a numpy [float64]: the two differ
    in what division by zero does. *)
Inductive scalar : Type :=
| PyFloat (x : float)
| NpFloat64 (x : float).

Definition value (s : scalar) : float :=
  match s with PyFloat x | NpFloat64 x => x end.

Definition scalar_mul (a b : scalar) : scalar :=
  match a, b with
  | PyFloat x, PyFloat y => PyFloat (fmul x y)
  | _, _ => NpFloat64 (fmul (value a) (value b))
  end.

(** [a / b] on two scalars: Python raises on a zero divisor, numpy does not. *)
Definition scalar_truediv (a b : scalar) : result scalar :=
  match a, b with
  | PyFloat x, PyFloat y =>
      match y with
      | Fin r => if Reqb r 0 then Raise ZeroDivisionError
                 else Ok (PyFloat (fdiv x y))
      | _ => Ok (PyFloat (fdiv x y))
      end
  | _, _ => Ok (NpFloat64 (fdiv (value a) (value b)))
  end.

End F64.
Import F64.

(** ** numpy array operations (one-dimensional arrays are lists) *)

Module Np.

Definition any (mask : list bool) : bool := existsb (fun b => b) mask.

(** [np.sum]. *)
Definition sum (a : list float) : float := fold_left fadd a (Fin 0).

Definition empty_min_msg : string :=
  "zero-size array to reduction operation minimum which has no identity".
Definition empty_max_msg : string :=
  "zero-size array to reduction operation maximum which has no identity".

(** [np.min], [np.max]: an empty array raises [ValueError]. *)
Definition min (a : list float) : result float :=
  match a with
  | [] => Raise (ValueError empty_min_msg)
  | x :: a' => Ok (fold_left fminimum a' x)
  end.

Definition max (a : list float) : result float :=
  match a with
  | [] => Raise (ValueError empty_max_msg)
  | x :: a' => Ok (fold_left fmaximum a' x)
  end.

(** [np.mean] of a non-empty array. *)
Definition mean (a : list float) : float :=
  fdiv (sum a) (Fin (INR (List.length a))).

Fixpoint insert_sorted (x : float) (s : list float) : list float :=
  match s with
  | [] => [x]
  | y :: s' => if fle x y then x :: s else y :: insert_sorted x s'
  end.

Definition sort (a : list float) : list float :=
  fold_right insert_sorted [] a.

(** [np.median] of an array of finite values: the middle element of the
    sorted array, or the mean of the two middle ones. *)
Definition median (a : list float) : float :=
  let s := sort a in
  let n := List.length a in
  if Nat.even n
  then fdiv (fadd (nth (n / 2 - 1) s NaN) (nth (n / 2) s NaN)) (Fin 2)
  else nth (n / 2) s NaN.

(** The elements of [a] where [mask] is true. *)
Fixpoint compress {A} (mask : list bool) (a : list A) : list A :=
  match mask, a with
  | b :: mask', x :: a' =>
      if b then x :: compress mask' a' else compress mask' a'
  | _, _ => []
  end.

(** [a[mask]]: a boolean index of another length raises [IndexError]. *)
Definition getitem_mask {A} (a : list A) (mask : list bool) : result (list A) :=
  if Nat.eqb (List.length a) (List.length mask) then Ok (compress mask a)
  else Raise IndexError.

Definition negative_samples_msg (num : Z) : string :=
  "Number of samples, " ++ str_of_int num ++ ", must be non-negative.".

(** [np.linspace(0, 1, num)]: [num] points from 0 to 1, both ends included;
    a negative [num] raises [ValueError]. *)
Definition linspace01 (num : Z) : result (list float) :=
  if (num <? 0)%Z then Raise (ValueError (negative_samples_msg num))
  else Ok (map (fun i => Fin (INR i / IZR (num - 1))) (seq 0 (Z.to_nat num))).

(** Elementwise binary operation on two arrays of one length. *)
Fixpoint zip_with {A B C} (f : A -> B -> C) (a : list A) (b : list B) : list C :=
  match a, b with
  | x :: a', y :: b' => f x y :: zip_with f a' b'
  | _, _ => []
  end.

(** [enumerate(a)]. *)
Definition enumerate {A} (a : list A) : list (nat * A) :=
  combine (seq 0 (List.length a)) a.

(** A [for] loop that appends one value per iteration and stops at the first
    exception. *)
Fixpoint for_each {A B} (body : A -> result B) (l : list A) : result (list B) :=
  match l with
  | [] => Ok []
  | x :: l' =>
      y <- body x ;;
      ys <- for_each body l' ;;
      Ok (y :: ys)
  end.

End Np.

(** ** [timeseries.py] *)

Module timeseries.

(** [phase_fold(time, period, period_derivative=0, reference_epoch=None)] *)
Definition phase_fold (time : list float) (period period_derivative : scalar)
    (reference_epoch : option float) : result (list float) :=
  reference_epoch <-
    match reference_epoch with
    | None => Np.min time
    | Some e => Ok e
    end ;;
  let dt := map (fun t => fsub t reference_epoch) time in
  c <- scalar_truediv (scalar_mul (PyFloat (Fin 0.5)) period_derivative) period ;;
  Ok (map (fun d =>
             fdiv (fmod (fsub d (fmul (value c) (fsquare d))) (value period))
                  (value period))
          dt).

(** A row [[phase_center, flux, flux_err]] of the two-dimensional array
    [binned_lc]. *)
Definition row : Type := (float * float * float)%type.
Definition col0 (r : row) : float := fst (fst r).
Definition col1 (r : row) : float := snd (fst r).
Definition col2 (r : row) : float := snd r.

(** [a[:, k]] for [a = np.array(rows)]: with no rows the array has one
    dimension only and the index raises [IndexError]. *)
Definition column (k : row -> float) (a : list row) : result (list float) :=
  match a with
  | [] => Raise IndexError
  | _ => Ok (map k a)
  end.

(** [a[:, 0] -= d] and [a[:, 0] += d], in place on the copy [a]. *)
Definition phase_isub (d : float) (a : list row) : result (list row) :=
  match a with
  | [] => Raise IndexError
  | _ => Ok (map (fun r => (fsub (col0 r) d, col1 r, col2 r)) a)
  end.

Definition phase_iadd (d : float) (a : list row) : result (list row) :=
  match a with
  | [] => Raise IndexError
  | _ => Ok (map (fun r => (fadd (col0 r) d, col1 r, col2 r)) a)
  end.

(** The [normalization] argument: [False] or a string. *)
Inductive norm_arg : Type :=
| PyFalse
| PyStr (s : string).

(** [if normalization:] -- [False] and the empty string are falsy. *)
Definition truthy (normalization : norm_arg) : bool :=
  match normalization with
  | PyFalse => false
  | PyStr s => negb (String.eqb s "")
  end.

Definition lower_ascii (c : ascii) : ascii :=
  let n := nat_of_ascii c in
  if (65 <=? n)%nat && (n <=? 90)%nat then ascii_of_nat (n + 32) else c.

(** [s.lower()]. *)
Fixpoint lower (s : string) : string :=
  match s with
  | EmptyString => EmptyString
  | String c s' => String (lower_ascii c) (lower s')
  end.

(** The dictionary [norm_methods]. *)
Definition norm_methods (key : string) : option (list float -> result float) :=
  if String.eqb key "median" then Some (fun a => Ok (Np.median a))
  else if String.eqb key "min" then Some Np.min
  else if String.eqb key "max" then Some Np.max
  else if String.eqb key "mean" then Some (fun a => Ok (Np.mean a))
  else None.

Definition no_valid_flux_msg : string :=
  "No valid flux values for normalization".
Definition unknown_normalization_msg (normalization : string) : string :=
  "Unknown normalization method: " ++ normalization ++
  ". Choose from ['median', 'min', 'max', 'mean']".
Definition num_cycles_msg (num_cycles : Z) : string :=
  "num_cycles must be 1, 2, or 3, got " ++ str_of_int num_cycles.

(** [(phases >= phase_min) & (phases < phase_max)] *)
Definition bin_mask (phases : list float) (phase_min phase_max : float)
    : list bool :=
  map (fun p => fge p phase_min && flt p phase_max) phases.

(** [(bin_flux_err > 0) & np.isfinite(bin_flux_err) & np.isfinite(bin_flux)] *)
Definition valid_mask (bin_flux bin_flux_err : list float) : list bool :=
  Np.zip_with (fun e f => fgt e (Fin 0) && isfinite e && isfinite f)
              bin_flux_err bin_flux.

(** The body of the loop over the bins, for bin [i] with centre
    [phase_center]. *)
Definition bin_body (phases flux flux_err bin_edges : list float)
    (ic : nat * float) : result row :=
  let '(i, phase_center) := ic in
  let phase_min := nth i bin_edges NaN in
  let phase_max := nth (i + 1) bin_edges NaN in
  let mask := bin_mask phases phase_min phase_max in
  if negb (Np.any mask) then Ok (phase_center, NaN, NaN)
  else
    bin_flux <- Np.getitem_mask flux mask ;;
    bin_flux_err <- Np.getitem_mask flux_err mask ;;
    let valid := valid_mask bin_flux bin_flux_err in
    if negb (Np.any valid) then Ok (phase_center, NaN, NaN)
    else
      let bin_flux := Np.compress valid bin_flux in
      let bin_flux_err := Np.compress valid bin_flux_err in
      let weights := map (fun e => fdiv (Fin 1) (fsquare e)) bin_flux_err in
      let weighted_mean :=
        fdiv (Np.sum (Np.zip_with fmul bin_flux weights)) (Np.sum weights) in
      let weighted_error := fsqrt (fdiv (Fin 1) (Np.sum weights)) in
      Ok (phase_center, weighted_mean, weighted_error).

(** Bin edges, bin centres and the loop: [binned_lc] before normalization. *)
Definition bin_loop (phases flux flux_err : list float) (num_bins : Z)
    : result (list row) :=
  bin_edges <- Np.linspace01 (num_bins + 1) ;;
  let bin_centers :=
    map (fmul (Fin 0.5))
        (Np.zip_with fadd (removelast bin_edges) (tl bin_edges)) in
  Np.for_each (bin_body phases flux flux_err bin_edges)
              (Np.enumerate bin_centers).

(** [if normalization: ...] *)
Definition apply_normalization (normalization : norm_arg)
    (binned_lc : list row) : result (list row) :=
  if truthy normalization then
    flux_col <- column col1 binned_lc ;;
    let valid_flux := filter isfinite flux_col in
    if Nat.eqb (List.length valid_flux) 0
    then Raise (ValueError no_valid_flux_msg)
    else
      let name := match normalization with PyStr s => s | PyFalse => EmptyString end in
      let norm_method := lower name in
      match norm_methods norm_method with
      | None => Raise (ValueError (unknown_normalization_msg name))
      | Some method =>
          norm_factor <- method valid_flux ;;
          Ok (map (fun r => (col0 r, fdiv (col1 r) norm_factor,
                             fdiv (col2 r) norm_factor)) binned_lc)
      end
  else Ok binned_lc.

(** [if num_cycles == 1: ... elif ... else: raise] *)
Definition replicate_cycles (num_cycles : Z) (binned_lc : list row)
    : result (list row) :=
  if (num_cycles =? 1)%Z then Ok binned_lc
  else if (num_cycles =? 2)%Z then
    cycle_prev <- phase_isub (Fin 1) binned_lc ;;
    Ok (cycle_prev ++ binned_lc)
  else if (num_cycles =? 3)%Z then
    cycle_prev <- phase_isub (Fin 1) binned_lc ;;
    cycle_next <- phase_iadd (Fin 1) binned_lc ;;
    Ok (cycle_prev ++ binned_lc ++ cycle_next)
  else Raise (ValueError (num_cycles_msg num_cycles)).

(** The returned dictionary. *)
Record binned_curve : Type := {
  phase : list float;
  flux : list float;
  flux_err : list float
}.

Definition as_dict (binned_lc : list row) : result binned_curve :=
  p <- column col0 binned_lc ;;
  f <- column col1 binned_lc ;;
  e <- column col2 binned_lc ;;
  Ok {| phase := p; flux := f; flux_err := e |}.

(** [bin_phase_folded_data(time, flux, flux_err, period, period_derivative=0,
    reference_epoch=None, num_bins=500, num_cycles=3, normalization=False)] *)
Definition bin_phase_folded_data (time flux flux_err : list float)
    (period period_derivative : scalar) (reference_epoch : option float)
    (num_bins num_cycles : Z) (normalization : norm_arg)
    : result binned_curve :=
  phases <- phase_fold time period period_derivative reference_epoch ;;
  binned_lc <- bin_loop phases flux flux_err num_bins ;;
  binned_lc <- apply_normalization normalization binned_lc ;;
  binned_lc <- replicate_cycles num_cycles binned_lc ;;
  as_dict binned_lc.

End timeseries.

(** ** [bls.py] *)

Module bls.

(** One line of a [.result] file, with the fields of [COLUMNS]. *)
Record row : Type := {
  gid : Z;
  pow : float;
  snr : float;
  wid : float;
  per_day : float;
  per_min : float;
  q : float;
  phi0 : float;
  dphi : float;
  epo : float
}.

(** The catalog: the rows in file order, indexed by [gid] (an index may
    hold a label more than once). *)
Definition DataFrame : Type := list row.

(** [df['per_day'] = column], row by row. *)
Definition set_per_day (r : row) (v : float) : row :=
  {| gid := gid r; pow := pow r; snr := snr r; wid := wid r;
     per_day := v; per_min := per_min r; q := q r; phi0 := phi0 r;
     dphi := dphi r; epo := epo r |}.

Definition no_objects_msg : string := "No objects to concatenate".

(** [pd.concat(dfs, ignore_index=True)]. *)
Definition concat (dfs : list DataFrame) : result DataFrame :=
  match dfs with
  | [] => Raise (ValueError no_objects_msg)
  | _ => Ok (List.concat dfs)
  end.

(** [df.loc[label]]: a [Series] when the label is in the index once, a
    [DataFrame] of the matching rows when it is there several times. *)
Inductive loc_result : Type :=
| Series (r : row)
| Frame (rows : list row).

Definition has_gid (source_id : Z) (r : row) : bool := (gid r =? source_id)%Z.

(** [source_id in df.index] *)
Definition in_index (source_id : Z) (df : DataFrame) : bool :=
  existsb (has_gid source_id) df.

Definition loc (df : DataFrame) (source_id : Z) : loc_result :=
  match filter (has_gid source_id) df with
  | [r] => Series r
  | rows => Frame rows
  end.

Section Catalog.

(** The files: what [sorted(bls_path().glob("*.result"))] gives (or
    raises), and for each file what [pd.read_csv] gives (or raises). *)
Variable result_files : result (list (result DataFrame)).

Definition load_catalog : result DataFrame :=
  files <- result_files ;;
  dfs <- Np.for_each (fun read_csv => read_csv) files ;;
  df <- concat dfs ;;
  Ok (map (fun r => set_per_day r (fdiv (per_min r) (Fin 1440))) df).

(** The module-level cache [_catalog] is threaded through the calls. *)
Definition get_catalog (_catalog : option DataFrame)
    : result DataFrame * option DataFrame :=
  match _catalog with
  | None =>
      match load_catalog with
      | Ok df => (Ok df, Some df)
      | Raise e => (Raise e, None)
      end
  | Some df => (Ok df, _catalog)
  end.

Definition get_bls_stats (source_id : Z) (_catalog : option DataFrame)
    : result (option loc_result) * option DataFrame :=
  match get_catalog _catalog with
  | (Raise e, _catalog) => (Raise e, _catalog)
  | (Ok df, _catalog) =>
      if in_index source_id df then (Ok (Some (loc df source_id)), _catalog)
      else (Ok None, _catalog)
  end.

Definition get_period (source_id : Z) (_catalog : option DataFrame)
    : result (option (list float)) * option DataFrame :=
  match get_catalog _catalog with
  | (Raise e, _catalog) => (Raise e, _catalog)
  | (Ok df, _catalog) =>
      if in_index source_id df
      then (Ok (Some (map per_min (filter (has_gid source_id) df))), _catalog)
      else (Ok None, _catalog)
  end.

End Catalog.

End bls.

(** ** The light-curve record shared by the two copies of [io.py] *)

Module lightcurve.

(** The dictionary returned by [read_lightcurve]. *)
Record lc_data : Type := {
  time : list float;
  flux : list float;
  flux_err : list float;
  filter : list string;
  ra : float;
  dec : float
}.

(** [a == label], elementwise. *)
Definition eq_mask (a : list string) (label : string) : list bool :=
  map (fun s => String.eqb s label) a.

End lightcurve.

(** ** [io.py] *)

Module io.
Import timeseries.

Section Files.

(** The table [pd.read_csv] parses from a light-curve file. *)
Variable Table : Type.
(** [pd.read_csv(lc_path(source_id), ...)]: the table, or the exception
    raised (a missing file raises [FileNotFoundError]). *)
Variable read_csv : Z -> result Table.
(** The rest of [read_lightcurve]: the columns of the table and the
    barycentric correction [bjd_convert] (astropy). *)
Variable extract : Table -> result lightcurve.lc_data.
(** The catalog files, see [bls.load_catalog]. *)
Variable result_files : result (list (result bls.DataFrame)).
(** What the binning does when [bls_data] is a [DataFrame] (several catalog
    rows for the source): pandas then passes whole columns as period and
    epoch, which is not modelled. *)
Variable frame_case :
  lightcurve.lc_data -> list bls.row -> Z -> Z -> norm_arg -> result binned_curve.

Definition read_lightcurve (source_id : Z) : result (option lightcurve.lc_data) :=
  df <- read_csv source_id ;;
  lc <- extract df ;;
  Ok (Some lc).

(** [read_bin_lightcurve(source_id, num_bins=500, num_cycles=3,
    normalization=False)] *)
Definition read_bin_lightcurve (source_id : Z) (num_bins num_cycles : Z)
    (normalization : norm_arg) (_catalog : option bls.DataFrame)
    : result (option binned_curve) * option bls.DataFrame :=
  match read_lightcurve source_id with
  | Raise e => (Raise e, _catalog)
  | Ok None => (Ok None, _catalog)
  | Ok (Some lc_data) =>
      match bls.get_bls_stats result_files source_id _catalog with
      | (Raise e, _catalog) => (Raise e, _catalog)
      | (Ok None, _catalog) => (Ok None, _catalog)
      | (Ok (Some (bls.Series bls_data)), _catalog) =>
          (binned_data <-
             bin_phase_folded_data
               (lightcurve.time lc_data) (lightcurve.flux lc_data)
               (lightcurve.flux_err lc_data)
               (NpFloat64 (bls.per_day bls_data)) (PyFloat (Fin 0))
               (Some (bls.epo bls_data))
               num_bins num_cycles normalization ;;
           Ok (Some binned_data), _catalog)
      | (Ok (Some (bls.Frame rows)), _catalog) =>
          (binned_data <-
             frame_case lc_data rows num_bins num_cycles normalization ;;
           Ok (Some binned_data), _catalog)
      end
  end.

End Files.

End io.

(** ** [.ipynb_checkpoints/io-checkpoint.py] *)

Module io_checkpoint.
Import timeseries.

Section Files.

Variable Table : Type.
Variable read_csv : Z -> result Table.
Variable extract : Table -> result lightcurve.lc_data.
Variable result_files : result (list (result bls.DataFrame)).
(** As in [io]: the two binning calls when [bls_data] is a [DataFrame]. *)
Variable frame_case :
  lightcurve.lc_data -> list bls.row -> Z -> Z -> norm_arg ->
  result (list (string * binned_curve)).

(** [try: df = pd.read_csv(...) except (FileNotFoundError,
    pd.errors.EmptyDataError): return None] *)
Definition read_lightcurve (source_id : Z) : result (option lightcurve.lc_data) :=
  match read_csv source_id with
  | Raise FileNotFoundError | Raise EmptyDataError => Ok None
  | Raise e => Raise e
  | Ok df =>
      lc <- extract df ;;
      Ok (Some lc)
  end.

(** The two calls of [bin_phase_folded_data], on the observations of
    filter [c] and of filter [o], and the returned dictionary. *)
Definition bin_bands (lc_data : lightcurve.lc_data) (period : scalar)
    (reference_epoch : option float) (num_bins num_cycles : Z)
    (normalization : norm_arg) : result (list (string * binned_curve)) :=
  let c_mask := lightcurve.eq_mask (lightcurve.filter lc_data) "c" in
  let o_mask := lightcurve.eq_mask (lightcurve.filter lc_data) "o" in
  time_c <- Np.getitem_mask (lightcurve.time lc_data) c_mask ;;
  flux_c <- Np.getitem_mask (lightcurve.flux lc_data) c_mask ;;
  flux_err_c <- Np.getitem_mask (lightcurve.flux_err lc_data) c_mask ;;
  binned_c <-
    bin_phase_folded_data time_c flux_c flux_err_c period (PyFloat (Fin 0))
                          reference_epoch num_bins num_cycles normalization ;;
  time_o <- Np.getitem_mask (lightcurve.time lc_data) o_mask ;;
  flux_o <- Np.getitem_mask (lightcurve.flux lc_data) o_mask ;;
  flux_err_o <- Np.getitem_mask (lightcurve.flux_err lc_data) o_mask ;;
  binned_o <-
    bin_phase_folded_data time_o flux_o flux_err_o period (PyFloat (Fin 0))
                          reference_epoch num_bins num_cycles normalization ;;
  Ok [("c"%string, binned_c); ("o"%string, binned_o)].

(** [read_bin_lightcurve(source_id, num_bins=500, num_cycles=3,
    normalization=False, period=None, reference_epoch=None)]; the
    [print] of the catalog period is left out. *)
Definition read_bin_lightcurve (source_id : Z) (num_bins num_cycles : Z)
    (normalization : norm_arg) (period : option scalar)
    (reference_epoch : option float) (_catalog : option bls.DataFrame)
    : result (option (list (string * binned_curve))) * option bls.DataFrame :=
  match read_lightcurve source_id with
  | Raise e => (Raise e, _catalog)
  | Ok None => (Ok None, _catalog)
  | Ok (Some lc_data) =>
      match bls.get_bls_stats result_files source_id _catalog with
      | (Raise e, _catalog) => (Raise e, _catalog)
      | (Ok bls_data, _catalog) =>
          match bls_data, period with
          | None, None => (Ok None, _catalog)
          | None, Some period =>
              (d <- bin_bands lc_data period reference_epoch
                              num_bins num_cycles normalization ;;
               Ok (Some d), _catalog)
          | Some (bls.Series bls_data), _ =>
              (d <- bin_bands lc_data (NpFloat64 (bls.per_day bls_data))
                              (Some (bls.epo bls_data))
                              num_bins num_cycles normalization ;;
               Ok (Some d), _catalog)
          | Some (bls.Frame rows), _ =>
              (d <- frame_case lc_data rows num_bins num_cycles normalization ;;
               Ok (Some d), _catalog)
          end
      end
  end.

End Files.

End io_checkpoint.

(** ** [paths.py] and [.ipynb_checkpoints/paths-checkpoint.py] *)

Module paths.

Section Host.

(** [pathlib.Path] is kept abstract: [of_string s] is [Path(s)] and
    [joinpath base parts] is [base.joinpath( *parts)]. *)
Variable Path : Type.
Variable of_string : string -> Path.
Variable joinpath : Path -> list string -> Path.
(** [Path(__file__).parent.parent.parent] *)
Variable repo_root : Path.
(** [socket.gethostname()] *)
Variable hostname : string.

Definition get_repo_root : Path := repo_root.

Definition p (parts : list string) : Path := joinpath get_repo_root parts.

Definition plots_path (parts : list string) : Path :=
  p ("plots"%string :: parts).

Definition not_recognized_msg : string :=
  "hostname " ++ hostname ++ " not recognized".

(** [data_path( *parts)]: the path, or [None] after printing a message; the
    second component holds the lines printed. *)
Definition data_path (parts : list string) : option Path * list string :=
  if String.eqb hostname "hypernova"
  then (Some (joinpath (of_string "/data2/ATLAS/WDs/") parts), [])
  else (None, [not_recognized_msg]).

Definition bls_path (parts : list string) : option Path * list string :=
  if String.eqb hostname "hypernova"
  then (Some (joinpath (of_string "/data/Bulk_BLS_ATLAS/") parts), [])
  else (None, [not_recognized_msg]).

Definition lc_path (source_id : Z) : option Path * list string :=
  data_path [str_of_int source_id].

End Host.

End paths.

Module paths_checkpoint.

Section Host.

Variable Path : Type.
Variable of_string : string -> Path.
Variable joinpath : Path -> list string -> Path.
Variable repo_root : Path.
Variable hostname : string.

Definition get_repo_root : Path := repo_root.

Definition p (parts : list string) : Path := joinpath get_repo_root parts.

Definition plots_path (parts : list string) : Path :=
  p ("plots"%string :: parts).

Definition _get_hostname : string := hostname.

(** The [RuntimeError] raised for an unknown host. *)
Definition RuntimeError : exn := OtherError "RuntimeError".

Definition data_path (parts : list string) : result Path :=
  let hostname := _get_hostname in
  base <-
    (if String.eqb hostname "hypernova"
     then Ok (of_string "/data2/ATLAS/WDs/")
     else if String.prefix "node" hostname
     then Ok (of_string "/orcd/data/kburdge/001/ATLAS/ATLAS_Lightcurves/")
     else Raise RuntimeError) ;;
  Ok (joinpath base parts).

Definition bls_path (parts : list string) : result Path :=
  let hostname := _get_hostname in
  base <-
    (if String.eqb hostname "hypernova"
     then Ok (of_string "/data/Bulk_BLS_ATLAS/")
     else if String.prefix "node" hostname
     then Ok (of_string "/orcd/data/kburdge/001/ATLAS/ATLAS_BLS/")
     else Raise RuntimeError) ;;
  Ok (joinpath base parts).

Definition lc_path (source_id : Z) : result Path :=
  data_path [str_of_int source_id].

End Host.

End paths_checkpoint.

(** ** [phase_fold] on IEEE-754 doubles

    The same function with the arithmetic of the machine: every value is a
    binary64 number (the kernel's primitive floats) and every operation rounds
    to nearest, ties to even, as numpy and Python do.  It is used where the
    rounding decides what the code returns. *)

Module B64.

Definition float : Type := PrimFloat.float.

Definition zero : float := PrimFloat.zero.
Definition one : float := PrimFloat.one.
Definition half : float := PrimFloat.div PrimFloat.one PrimFloat.two.
Definition opp (x : float) : float := PrimFloat.opp x.
(** [2.0 ** e] *)
Definition pow2 (e : Z) : float := FloatOps.Z.ldexp PrimFloat.one e.

(** C's [fmod(x, y)]: [x - n * y] for [n] the quotient truncated toward zero,
    computed exactly, with the sign of [x]. *)
Definition c_fmod (x y : float) : float :=
  match FloatOps.Prim2SF x, FloatOps.Prim2SF y with
  | SpecFloat.S754_nan, _ | _, SpecFloat.S754_nan => PrimFloat.nan
  | SpecFloat.S754_infinity _, _ | _, SpecFloat.S754_zero _ => PrimFloat.nan
  | SpecFloat.S754_zero _, _ | _, SpecFloat.S754_infinity _ => x
  | SpecFloat.S754_finite sx mx ex, SpecFloat.S754_finite _ my ey =>
      let e := Z.min ex ey in
      match ((Z.pos mx * 2 ^ (ex - e)) mod (Z.pos my * 2 ^ (ey - e)))%Z with
      | Z.pos m => FloatOps.SF2Prim (SpecFloat.S754_finite sx m e)
      | _ => FloatOps.SF2Prim (SpecFloat.S754_zero sx)
      end
  end.

(** [np.remainder] on [float64] (numpy's [npy_divmod]): [r = fmod(a, b)];
    for [b == 0] that is the result; a non-zero [r] whose sign differs from
    the sign of [b] becomes [r + b], a rounded addition; a zero [r] takes
    the sign of [b]. *)
Definition np_mod (a b : float) : float :=
  let r := c_fmod a b in
  if PrimFloat.is_zero b then r
  else if PrimFloat.is_zero r
  then (if PrimFloat.get_sign b then PrimFloat.neg_zero else PrimFloat.zero)
  else if xorb (PrimFloat.ltb b PrimFloat.zero) (PrimFloat.ltb r PrimFloat.zero)
  then PrimFloat.add r b
  else r.

(** [np.minimum]: [in1] when [in1 < in2] or [in1] is [nan], else [in2]. *)
Definition fminimum (x y : float) : float :=
  if PrimFloat.ltb x y || PrimFloat.is_nan x then x else y.

(** [np.min]: an empty array raises [ValueError]. *)
Definition min (a : list float) : result float :=
  match a with
  | [] => Raise (ValueError Np.empty_min_msg)
  | x :: a' => Ok (fold_left fminimum a' x)
  end.

Inductive scalar : Type :=
| PyFloat (x : float)
| NpFloat64 (x : float).

Definition value (s : scalar) : float :=
  match s with PyFloat x | NpFloat64 x => x end.

Definition scalar_mul (a b : scalar) : scalar :=
  match a, b with
  | PyFloat x, PyFloat y => PyFloat (PrimFloat.mul x y)
  | _, _ => NpFloat64 (PrimFloat.mul (value a) (value b))
  end.

(** [a / b]: Python raises on a zero divisor ([0.0] or [-0.0]), numpy does
    not. *)
Definition scalar_truediv (a b : scalar) : result scalar :=
  match a, b with
  | PyFloat x, PyFloat y =>
      if PrimFloat.is_zero y then Raise ZeroDivisionError
      else Ok (PyFloat (PrimFloat.div x y))
  | _, _ => Ok (NpFloat64 (PrimFloat.div (value a) (value b)))
  end.

(** [phase_fold(time, period, period_derivative=0, reference_epoch=None)];
    [dt**2] is numpy's square, the rounded product [dt * dt]. *)
Definition phase_fold (time : list float) (period period_derivative : scalar)
    (reference_epoch : option float) : result (list float) :=
  reference_epoch <-
    match reference_epoch with
    | None => min time
    | Some e => Ok e
    end ;;
  let dt := map (fun t => PrimFloat.sub t reference_epoch) time in
  c <- scalar_truediv (scalar_mul (PyFloat half) period_derivative) period ;;
  Ok (map (fun d =>
             PrimFloat.div
               (np_mod (PrimFloat.sub d (PrimFloat.mul (value c)
                                                       (PrimFloat.mul d d)))
                       (value period))
               (value period))
          dt).

End B64.

(** ** Reference definitions

    The quantities of the specification in closed form over the reals; the
    properties below compare the code with them. *)

Module Ref.
Open Scope R_scope.

(** The phase of a real time offset [d] for a real period [p]: the floored
    remainder of [d] by [p], over [p]. *)
Definition folded_phase (p d : R) : R := (d - IZR (Zfloor (d / p)) * p) / p.

(** An observation that has been folded: phase, flux and flux error. *)
Definition obs : Type := (float * (float * float))%type.
Definition obs_phase (o : obs) : float := fst o.
Definition obs_flux (o : obs) : float := fst (snd o).
Definition obs_err (o : obs) : float := snd (snd o).

(** The observations of three parallel arrays. *)
Definition observations (phases flux flux_err : list float) : list obs :=
  combine phases (combine flux flux_err).

(** The phase lies in the half-open interval [[phase_min, phase_max)]. *)
Definition in_bin (phase_min phase_max : float) (o : obs) : bool :=
  fle phase_min (obs_phase o) && flt (obs_phase o) phase_max.

(** The error is positive and finite and the flux is finite. *)
Definition valid (o : obs) : bool :=
  flt (Fin 0) (obs_err o) && isfinite (obs_err o) && isfinite (obs_flux o).

(** The observations that contribute to a bin. *)
Definition members (phase_min phase_max : float) (l : list obs) : list obs :=
  List.filter (fun o => in_bin phase_min phase_max o && valid o) l.

Definition real (x : float) : R :=
  match x with Fin r => r | _ => 0 end.

(** [w = 1 / err^2] *)
Definition weight (o : obs) : R := 1 / (real (obs_err o) * real (obs_err o)).

Definition Rsum (l : list R) : R := fold_right Rplus 0 l.

(** [sum(flux * w) / sum(w)] and [sqrt(1 / sum(w))]. *)
Definition weighted_mean (m : list obs) : R :=
  Rsum (map (fun o => real (obs_flux o) * weight o) m) / Rsum (map weight m).

Definition weighted_error (m : list obs) : R :=
  sqrt (1 / Rsum (map weight m)).

(** The row of one bin: [nan] statistics when nothing contributes. *)
Definition bin_stat (phase_min phase_max phase_center : float) (l : list obs)
    : timeseries.row :=
  match members phase_min phase_max l with
  | [] => (phase_center, NaN, NaN)
  | m => (phase_center, Fin (weighted_mean m), Fin (weighted_error m))
  end.

(** Edge [i] and the midpoint of bin [i] of [n] equal bins of [[0, 1)]. *)
Definition edge (n i : nat) : R := INR i / INR n.
Definition midpoint (n i : nat) : R := (edge n i + edge n (S i)) / 2.

(** The binned curve before normalization and replication. *)
Definition binned (n : nat) (l : list obs) : list timeseries.row :=
  map (fun i => bin_stat (Fin (edge n i)) (Fin (edge n (S i)))
                         (Fin (midpoint n i)) l)
      (seq 0 n).

(** The three columns of an array of rows, as the returned dictionary. *)
Definition curve (rows : list timeseries.row) : timeseries.binned_curve :=
  {| timeseries.phase := map timeseries.col0 rows;
     timeseries.flux := map timeseries.col1 rows;
     timeseries.flux_err := map timeseries.col2 rows |}.

(** The cache [_catalog] is empty or holds what [load_catalog] once
    returned. *)
Definition loaded (_catalog : option bls.DataFrame) : Prop :=
  match _catalog with
  | None => True
  | Some df => exists files, bls.load_catalog files = Ok df
  end.

(** The same files with other values [g r] stored in the [per_day] column. *)
Definition overwrite_per_day (g : bls.row -> float)
    (files : result (list (result bls.DataFrame)))
    : result (list (result bls.DataFrame)) :=
  match files with
  | Raise e => Raise e
  | Ok fs =>
      Ok (map (fun f => match f with
                        | Raise e => Raise e
                        | Ok df => Ok (map (fun r => bls.set_per_day r (g r)) df)
                        end) fs)
  end.

End Ref.
Import Ref.

(** ** Closed forms used by the further properties *)

Module Closed.
Open Scope R_scope.

(** The phases of a curve of [n] bins and [num_cycles] cycles: the uniform
    grid of step [1 / n] that starts at [1 / (2 n)], one cycle earlier when
    there are several cycles. *)
Definition phase_grid (n : nat) (num_cycles : Z) : list float :=
  map (fun j => Fin ((2 * INR j + 1) / (2 * INR n)
                     - (if (num_cycles =? 1)%Z then 0 else 1)))
      (seq 0 (Z.to_nat num_cycles * n)).

(** The finite values of an array, as reals. *)
Definition finite_values (a : list float) : list R :=
  map real (List.filter isfinite a).

(** The arithmetic mean of a list of reals. *)
Definition Rmean (l : list R) : R := Rsum l / INR (List.length l).

(** The filter labels that the reducer of [io-checkpoint.py] selects. *)
Definition known_band (s : string) : bool :=
  String.eqb s "c" || String.eqb s "o".

(** A light curve without the observations of any other filter label. *)
Definition only_known_bands (lc : lightcurve.lc_data) : lightcurve.lc_data :=
  let keep := map known_band (lightcurve.filter lc) in
  {| lightcurve.time := Np.compress keep (lightcurve.time lc);
     lightcurve.flux := Np.compress keep (lightcurve.flux lc);
     lightcurve.flux_err := Np.compress keep (lightcurve.flux_err lc);
     lightcurve.filter := List.filter known_band (lightcurve.filter lc);
     lightcurve.ra := lightcurve.ra lc;
     lightcurve.dec := lightcurve.dec lc |}.

End Closed.
Import Closed.

(** * Properties *)

(** ** Reals: decisions, floor and the floored remainder *)

Section RealFacts.
Open Scope R_scope.

Lemma Rleb_true (x y : R) : Rleb x y = true <-> x <= y.
Proof. unfold Rleb; destruct (Rle_dec x y); split; intros; try easy. Qed.

Lemma Rleb_false (x y : R) : Rleb x y = false <-> y < x.
Proof.
  unfold Rleb; destruct (Rle_dec x y); split; intros; try easy; lra.
Qed.

Lemma Rltb_true (x y : R) : Rltb x y = true <-> x < y.
Proof. unfold Rltb; destruct (Rlt_dec x y); split; intros; try easy. Qed.

Lemma Rltb_false (x y : R) : Rltb x y = false <-> y <= x.
Proof.
  unfold Rltb; destruct (Rlt_dec x y); split; intros; try easy; lra.
Qed.

Lemma Reqb_true (x y : R) : Reqb x y = true <-> x = y.
Proof. unfold Reqb; destruct (Req_dec_T x y); split; intros; try easy. Qed.

Lemma Reqb_false (x y : R) : Reqb x y = false <-> x <> y.
Proof. unfold Reqb; destruct (Req_dec_T x y); split; intros; try easy. Qed.

Lemma Reqb_refl (x : R) : Reqb x x = true.
Proof. now apply Reqb_true. Qed.

Lemma Reqb_neq (x y : R) : x <> y -> Reqb x y = false.
Proof. apply Reqb_false. Qed.

(** The floored remainder by a positive divisor lies in [[0, p)]. *)
Lemma floored_rem_pos (x p : R) :
  0 < p -> 0 <= x - IZR (Zfloor (x / p)) * p < p.
Proof.
  intros Hp.
  destruct (Zfloor_bound (x / p)) as [Hlo Hhi].
  assert (Hx : x = x / p * p) by (field; lra).
  split.
  - apply Rmult_le_compat_r with (r := p) in Hlo; lra.
  - apply Rmult_lt_compat_r with (r := p) in Hhi; lra.
Qed.

(** By a negative divisor it lies in [(p, 0]]. *)
Lemma floored_rem_neg (x p : R) :
  p < 0 -> p < x - IZR (Zfloor (x / p)) * p <= 0.
Proof.
  intros Hp.
  destruct (Zfloor_bound (x / p)) as [Hlo Hhi].
  assert (Hx : x = x / p * p) by (field; lra).
  split.
  - apply Rmult_lt_gt_compat_neg_l with (r := p) in Hhi; lra.
  - apply Rmult_le_compat_neg_l with (r := p) in Hlo; lra.
Qed.

(** The remainder of [k * p + r], [0 <= r < p]. *)
Lemma floored_rem_eq (x p r : R) (k : Z) :
  0 < p -> 0 <= r < p -> x = IZR k * p + r ->
  x - IZR (Zfloor (x / p)) * p = r.
Proof.
  intros Hp Hr ->.
  assert (Hk : Zfloor ((IZR k * p + r) / p) = k).
  { apply Zfloor_eq.
    replace ((IZR k * p + r) / p) with (IZR k + r / p) by (field; lra).
    assert (0 <= r / p < 1); [| lra].
    split.
    - apply Rmult_le_reg_r with p; [lra |].
      replace (r / p * p) with r by (field; lra). lra.
    - apply Rmult_lt_reg_r with p; [lra |].
      replace (r / p * p) with r by (field; lra). lra. }
  rewrite Hk. lra.
Qed.

End RealFacts.


(** ** Phase folding *)

Section PhaseFold.
Open Scope R_scope.
Import timeseries.

Lemma folded_phase_pos_range (p d : R) : 0 < p -> 0 <= folded_phase p d < 1.
Proof.
  intros Hp. unfold folded_phase.
  destruct (floored_rem_pos d Hp) as [Hlo Hhi].
  split.
  - apply Rmult_le_reg_r with p; [lra |].
    replace ((d - IZR (Zfloor (d / p)) * p) / p * p)
      with (d - IZR (Zfloor (d / p)) * p) by (field; lra).
    lra.
  - apply Rmult_lt_reg_r with p; [lra |].
    replace ((d - IZR (Zfloor (d / p)) * p) / p * p)
      with (d - IZR (Zfloor (d / p)) * p) by (field; lra).
    lra.
Qed.

Lemma folded_phase_neg_range (p d : R) : p < 0 -> 0 <= folded_phase p d < 1.
Proof.
  intros Hp. unfold folded_phase.
  destruct (floored_rem_neg d Hp) as [Hlo Hhi].
  set (m := d - IZR (Zfloor (d / p)) * p) in *.
  assert (Hm : m / p = (- m) / (- p)) by (field; lra).
  rewrite Hm. split.
  - apply Rmult_le_reg_r with (- p); [lra |].
    replace (- m / - p * - p) with (- m) by (field; lra). lra.
  - apply Rmult_lt_reg_r with (- p); [lra |].
    replace (- m / - p * - p) with (- m) by (field; lra). lra.
Qed.

Lemma folded_phase_0 (p : R) : p <> 0 -> folded_phase p 0 = 0.
Proof.
  intros Hp. unfold folded_phase.
  replace (0 / p) with (IZR 0) by (unfold Rdiv; lra).
  rewrite ZfloorZ. unfold Rdiv. lra.
Qed.

(** Just before the epoch the phase wraps to just below one. *)
Lemma folded_phase_wrap (p eps : R) :
  0 < eps < p -> folded_phase p (- eps) = 1 - eps / p.
Proof.
  intros [He Hp]. unfold folded_phase.
  rewrite (@floored_rem_eq (- eps) p (p - eps) (-1)); try lra.
  field; lra.
Qed.

Lemma fminimum_Fin (a b : R) : fminimum (Fin a) (Fin b) = Fin (Rmin a b).
Proof.
  unfold fminimum, fle, Rleb, Rmin. now destruct (Rle_dec a b).
Qed.

Lemma fold_fminimum_Fin (ts : list R) (t : R) :
  fold_left fminimum (map Fin ts) (Fin t) = Fin (fold_left Rmin ts t).
Proof.
  revert t. induction ts as [| u ts IH]; intros t; cbn [fold_left map];
    [reflexivity |].
  now rewrite fminimum_Fin, IH.
Qed.

Lemma fold_Rmin_le_init (ts : list R) (t : R) : fold_left Rmin ts t <= t.
Proof.
  revert t. induction ts as [| u ts IH]; intros t; simpl; [lra |].
  eapply Rle_trans; [apply IH | apply Rmin_l].
Qed.

Lemma fold_Rmin_lower (ts : list R) (t u : R) :
  In u (t :: ts) -> fold_left Rmin ts t <= u.
Proof.
  revert t. induction ts as [| v ts IH]; intros t [<- | Hin]; simpl.
  - lra.
  - destruct Hin.
  - eapply Rle_trans; [apply fold_Rmin_le_init | apply Rmin_l].
  - destruct Hin as [<- | Hin].
    + eapply Rle_trans; [apply fold_Rmin_le_init | apply Rmin_r].
    + apply IH. now right.
Qed.

Lemma fold_Rmin_In (ts : list R) (t : R) : In (fold_left Rmin ts t) (t :: ts).
Proof.
  revert t. induction ts as [| v ts IH]; intros t; simpl; [now left |].
  destruct (IH (Rmin t v)) as [H | H].
  - unfold Rmin in H at 1. destruct (Rle_dec t v); [left | right; left]; exact H.
  - right; right; exact H.
Qed.

(** The constant [0.5 * period_derivative / period] for a zero derivative and
    a non-zero period. *)
Lemma half_pdot_over_p (period period_derivative : scalar) (p : R) :
  value period = Fin p -> p <> 0 -> value period_derivative = Fin 0 ->
  exists c, scalar_truediv (scalar_mul (PyFloat (Fin 0.5)) period_derivative) period
            = Ok c /\ value c = Fin 0.
Proof.
  intros Hp Hp0 Hd.
  destruct period as [x | x], period_derivative as [y | y];
    simpl in Hp, Hd; subst x y; simpl; rewrite (Reqb_neq Hp0);
    eexists; (split; [reflexivity |]); simpl; f_equal; unfold Rdiv; lra.
Qed.

(** With a known epoch, zero derivative and a non-zero finite period, every
    finite time gets the phase [folded_phase]. *)
Lemma phase_fold_finite (time : list R) (period period_derivative : scalar)
    (p t0 : R) :
  value period = Fin p -> p <> 0 -> value period_derivative = Fin 0 ->
  phase_fold (map Fin time) period period_derivative (Some (Fin t0))
  = Ok (map (fun t => Fin (folded_phase p (t - t0))) time).
Proof.
  intros Hp Hp0 Hd. unfold phase_fold. cbn [bind].
  destruct (half_pdot_over_p period period_derivative Hp Hp0 Hd) as [c [-> Hc]].
  cbn [bind]. rewrite Hc, Hp. f_equal. rewrite !map_map.
  apply map_ext. intros t. simpl. rewrite (Reqb_neq Hp0).
  unfold folded_phase.
  replace (t + - t0 + - (0 * ((t + - t0) * (t + - t0)))) with (t - t0) by lra.
  simpl. now rewrite (Reqb_neq Hp0).
Qed.

(** Without an epoch an empty array has no minimum: [np.min] raises. *)
Lemma phase_fold_empty_no_epoch (period period_derivative : scalar) :
  phase_fold [] period period_derivative None
  = Raise (ValueError Np.empty_min_msg).
Proof. reflexivity. Qed.

Lemma phase_fold_default_epoch (time : list float) (t : float)
    (period period_derivative : scalar) :
  phase_fold (t :: time) period period_derivative None
  = phase_fold (t :: time) period period_derivative
               (Some (fold_left fminimum time t)).
Proof. reflexivity. Qed.

End PhaseFold.

(** The range in exact arithmetic.  For a non-empty array of finite times, a
    period [p > 0] and a zero period derivative, the exact-arithmetic
    [phase_fold] returns one phase per time, each in [[0, 1)].  The epoch
    [t0] is the given one, or the minimum of the times when none is given; a
    time equal to [t0] has phase exactly 0, and a time [t0 - eps] with
    [0 < eps < p] has phase [1 - eps / p], strictly between 0 and 1.  On
    doubles the upper bound is lost (module [B64]). *)
Lemma phase_fold_range_exact (time : list R) (period period_derivative : scalar)
    (p : R) (reference_epoch : option R) :
  value period = Fin p -> (0 < p)%R ->
  value period_derivative = Fin 0 ->
  time <> [] ->
  exists t0 : R,
    match reference_epoch with
    | Some e => t0 = e
    | None => In t0 time /\ forall t, In t time -> (t0 <= t)%R
    end /\
    timeseries.phase_fold (map Fin time) period period_derivative
                          (option_map Fin reference_epoch)
    = Ok (map (fun t => Fin (folded_phase p (t - t0))) time) /\
    (forall t, 0 <= folded_phase p (t - t0) < 1)%R /\
    folded_phase p (t0 - t0) = 0%R /\
    (forall eps, (0 < eps < p)%R ->
       folded_phase p ((t0 - eps) - t0) = (1 - eps / p)%R /\
       (0 < 1 - eps / p < 1)%R).
Proof.
  intros Hp Hpos Hd Hne.
  assert (Hp0 : p <> 0%R) by lra.
  assert (Hrest : forall t0 : R,
    (forall t, 0 <= folded_phase p (t - t0) < 1)%R /\
    folded_phase p (t0 - t0) = 0%R /\
    (forall eps, (0 < eps < p)%R ->
       folded_phase p ((t0 - eps) - t0) = (1 - eps / p)%R /\
       (0 < 1 - eps / p < 1)%R)).
  { intros t0. split; [| split].
    - intros t. now apply folded_phase_pos_range.
    - rewrite Rminus_diag. now apply folded_phase_0.
    - intros eps Heps.
      replace (t0 - eps - t0)%R with (- eps)%R by lra.
      rewrite (folded_phase_wrap Heps).
      split; [reflexivity |].
      assert (0 < eps / p < 1)%R; [| lra].
      split; [apply Rdiv_lt_0_compat; lra |].
      apply Rmult_lt_reg_r with p; [lra |].
      replace (eps / p * p)%R with eps by (field; lra). lra. }
  destruct reference_epoch as [e |].
  - exists e. split; [reflexivity |]. split; [| apply Hrest].
    now apply phase_fold_finite.
  - destruct time as [| t ts]; [contradiction |].
    exists (fold_left Rmin ts t). split; [| split; [| apply Hrest]].
    + split; [apply fold_Rmin_In | intros u; apply fold_Rmin_lower].
    + cbn [option_map map]. rewrite phase_fold_default_epoch, fold_fminimum_Fin.
      now apply (@phase_fold_finite (t :: ts)).
Qed.

Lemma phase_fold_range_exact_example :
  exists t0 : R,
    (In t0 [3; 1; 2.5] /\ forall t, In t [3; 1; 2.5] -> (t0 <= t))%R /\
    timeseries.phase_fold (map Fin [3; 1; 2.5]%R) (NpFloat64 (Fin 2))
                          (PyFloat (Fin 0)) None
    = Ok (map (fun t => Fin (folded_phase 2 (t - t0))) [3; 1; 2.5]%R) /\
    (forall t, 0 <= folded_phase 2 (t - t0) < 1)%R /\
    folded_phase 2 (t0 - t0) = 0%R /\
    (forall eps, (0 < eps < 2)%R ->
       folded_phase 2 ((t0 - eps) - t0) = (1 - eps / 2)%R /\
       (0 < 1 - eps / 2 < 1)%R).
Proof.
  apply (@phase_fold_range_exact [3; 1; 2.5]%R (NpFloat64 (Fin 2))
           (PyFloat (Fin 0)) 2%R None);
    [reflexivity | lra | reflexivity | discriminate].
Qed.

(** C1 at the failing input, on doubles.  With [reference_epoch = 0.0],
    [period = 1.0] and the default [period_derivative], the time [0.0] has
    phase [0.0], and the time [-2**-60], just before the epoch, has phase
    exactly [1.0]: [fmod] gives [-2**-60], [np.remainder] adds the period, and
    [1 - 2**-60] rounds to [1.0].  The phase is not negative, but it is not
    below 1 either: the returned array is not in [[0, 1)]. *)
Theorem C1_phase_fold_returns_one :
  let eps := B64.pow2 (-60) in
  PrimFloat.ltb B64.zero eps = true /\
  B64.phase_fold [B64.zero; B64.opp eps] (B64.PyFloat B64.one)
                 (B64.PyFloat B64.zero) (Some B64.zero)
  = Ok [B64.zero; B64.one] /\
  PrimFloat.ltb B64.one B64.one = false.
Proof. vm_compute. repeat split. Qed.

(** Two more effects of rounding, on doubles.  A negative period reaches
    [1.0] in the same way: the time [2**-60] with [period = -1.0] has phase
    [1.0].  And times one period apart need not get the same phase: with
    [reference_epoch = 2**-54] and [period = 1.0] the time [0.0] has phase
    [1.0] and the time [1.0] has phase [0.0], because [1.0 - 2**-54] rounds
    to [1.0]. *)
Remark phase_fold_rounding_examples :
  B64.phase_fold [B64.pow2 (-60)] (B64.PyFloat (B64.opp B64.one))
                 (B64.PyFloat B64.zero) (Some B64.zero)
  = Ok [B64.one] /\
  B64.phase_fold [B64.zero; B64.one] (B64.PyFloat B64.one)
                 (B64.PyFloat B64.zero) (Some (B64.pow2 (-54)))
  = Ok [B64.one; B64.zero].
Proof. vm_compute. split; reflexivity. Qed.

Lemma fmod_zero (x : float) : fmod x (Fin 0) = NaN.
Proof. destruct x; simpl; try reflexivity. now rewrite Reqb_refl. Qed.

Lemma folded_phase_half_minus_one : folded_phase (-1) 0.5 = 0.5%R.
Proof.
  unfold folded_phase.
  assert (H : Zfloor (0.5 / -1) = (-1)%Z) by (apply Zfloor_eq; lra).
  rewrite H. lra.
Qed.

(** A zero period: Python scalars raise [ZeroDivisionError], a numpy scalar
    gives [nan] phases. *)
Lemma phase_fold_zero_period (time : list float) (period period_derivative : scalar)
    (e : float) :
  value period = Fin 0 -> value period_derivative = Fin 0 ->
  timeseries.phase_fold time period period_derivative (Some e)
  = match period, period_derivative with
    | PyFloat _, PyFloat _ => Raise ZeroDivisionError
    | _, _ => Ok (map (fun _ => NaN) time)
    end.
Proof.
  intros Hp Hd. unfold timeseries.phase_fold. cbn [bind].
  destruct period as [x | x], period_derivative as [y | y];
    simpl in Hp, Hd; subst x y; cbn [scalar_mul scalar_truediv value bind];
    rewrite ?Reqb_refl; try reflexivity;
    f_equal; rewrite map_map; apply map_ext; intros t;
    rewrite fmod_zero; reflexivity.
Qed.

(** Counterexample to C5: with period [-1.0] the call returns. *)
Lemma C5_negative_period_returns :
  fle (Fin (-1)) (Fin 0) = true /\
  timeseries.phase_fold [Fin 0.5] (PyFloat (Fin (-1))) (PyFloat (Fin 0))
                        (Some (Fin 0))
  = Ok [Fin 0.5].
Proof.
  split.
  - apply Rleb_true. lra.
  - change [Fin 0.5] with (map Fin [0.5%R]) at 1.
    rewrite (@phase_fold_finite [0.5%R] (PyFloat (Fin (-1))) (PyFloat (Fin 0))
               (-1)%R 0%R); try reflexivity; try lra.
    cbn [map]. rewrite Rminus_0_r, folded_phase_half_minus_one. reflexivity.
Qed.

(** C5, as the code has it.  [phase_fold] does not validate the period.  For
    finite times, an available epoch [t0] (the given one, or the minimum of
    the times) and a zero period derivative: a negative period returns one
    phase per time, by the same expression as a positive one, the floored
    remainder of [t - t0] by the period over the period; a zero period raises
    [ZeroDivisionError] when period and derivative are both Python numbers and
    otherwise gives a [nan] phase for every time; and whatever [phase_fold]
    raises, [bin_phase_folded_data] raises as well. *)
Theorem C5_period_not_validated (time : list R) (period period_derivative : scalar)
    (p : R) (reference_epoch : option R) :
  value period = Fin p -> (p <= 0)%R ->
  value period_derivative = Fin 0 ->
  (reference_epoch = None -> time <> []) ->
  let r := timeseries.phase_fold (map Fin time) period period_derivative
                                 (option_map Fin reference_epoch) in
  ((p < 0)%R ->
     exists t0 : R,
       match reference_epoch with
       | Some e => t0 = e
       | None => In t0 time /\ forall t, In t time -> (t0 <= t)%R
       end /\
       r = Ok (map (fun t => Fin (folded_phase p (t - t0))) time)) /\
  (p = 0%R ->
     r = match period, period_derivative with
         | PyFloat _, PyFloat _ => Raise ZeroDivisionError
         | _, _ => Ok (map (fun _ => NaN) (map Fin time))
         end) /\
  (forall flux flux_err num_bins num_cycles normalization e,
     r = Raise e ->
     timeseries.bin_phase_folded_data (map Fin time) flux flux_err period
       period_derivative (option_map Fin reference_epoch)
       num_bins num_cycles normalization = Raise e).
Proof.
  intros Hp Hle Hd Href r.
  assert (Hr : exists t0 : R,
            match reference_epoch with
            | Some e => t0 = e
            | None => In t0 time /\ forall t, In t time -> (t0 <= t)%R
            end /\
            r = timeseries.phase_fold (map Fin time) period
                  period_derivative (Some (Fin t0))).
  { destruct reference_epoch as [e |]; [now exists e |].
    destruct time as [| t ts]; [now contradiction Href |].
    exists (fold_left Rmin ts t). split.
    - split; [apply fold_Rmin_In | intros u; apply fold_Rmin_lower].
    - subst r. cbn [option_map map].
      now rewrite phase_fold_default_epoch, fold_fminimum_Fin. }
  destruct Hr as (t0 & Ht0 & Hr).
  split; [| split].
  - intros Hneg. exists t0. split; [exact Ht0 |].
    rewrite Hr. apply phase_fold_finite; trivial. lra.
  - intros ->. rewrite Hr. now apply phase_fold_zero_period.
  - intros flux flux_err num_bins num_cycles normalization e He.
    unfold timeseries.bin_phase_folded_data. fold r. now rewrite He.
Qed.

Lemma C5_period_not_validated_witness :
  (exists t0 : R,
     t0 = 0%R /\
     timeseries.phase_fold (map Fin [0.5%R; 2%R]) (PyFloat (Fin (-1)))
                           (PyFloat (Fin 0)) (Some (Fin 0))
     = Ok (map (fun t => Fin (folded_phase (-1) (t - t0))) [0.5%R; 2%R])) /\
  timeseries.phase_fold (map Fin [0.5%R; 2%R]) (PyFloat (Fin 0))
                        (PyFloat (Fin 0)) (Some (Fin 0))
  = Raise ZeroDivisionError /\
  timeseries.phase_fold (map Fin [0.5%R; 2%R]) (NpFloat64 (Fin 0))
                        (PyFloat (Fin 0)) (Some (Fin 0))
  = Ok [NaN; NaN] /\
  (forall flux flux_err num_bins num_cycles normalization,
     timeseries.bin_phase_folded_data (map Fin [0.5%R; 2%R]) flux flux_err
       (PyFloat (Fin 0)) (PyFloat (Fin 0)) (Some (Fin 0))
       num_bins num_cycles normalization = Raise ZeroDivisionError).
Proof.
  pose proof (@C5_period_not_validated [0.5%R; 2%R] (PyFloat (Fin (-1)))
                (PyFloat (Fin 0)) (-1)%R (Some 0%R) eq_refl
                ltac:(lra) eq_refl ltac:(discriminate)) as Hneg.
  pose proof (@C5_period_not_validated [0.5%R; 2%R] (PyFloat (Fin 0))
                (PyFloat (Fin 0)) 0%R (Some 0%R) eq_refl
                ltac:(lra) eq_refl ltac:(discriminate)) as Hpy.
  pose proof (@C5_period_not_validated [0.5%R; 2%R] (NpFloat64 (Fin 0))
                (PyFloat (Fin 0)) 0%R (Some 0%R) eq_refl
                ltac:(lra) eq_refl ltac:(discriminate)) as Hnp.
  cbv zeta in Hneg, Hpy, Hnp.
  destruct Hneg as (Hneg & _ & _), Hpy as (_ & Hpy & Hbin),
           Hnp as (_ & Hnp & _).
  split; [| split; [| split]].
  - apply Hneg. lra.
  - exact (Hpy eq_refl).
  - exact (Hnp eq_refl).
  - intros flux flux_err num_bins num_cycles normalization.
    apply Hbin. exact (Hpy eq_refl).
Defined.

(** ** Lists: masks, loops and sums *)

Section ListFacts.
Variables A B C : Type.

Lemma compress_map (f : A -> bool) (g : A -> B) (l : list A) :
  Np.compress (map f l) (map g l) = map g (List.filter f l).
Proof.
  induction l as [| x l IH]; simpl; [reflexivity |].
  destruct (f x); simpl; now rewrite IH.
Qed.

Lemma zip_with_map (h : A -> B -> C) (D : Type) (a : D -> A) (b : D -> B)
    (l : list D) :
  Np.zip_with h (map a l) (map b l) = map (fun x => h (a x) (b x)) l.
Proof. induction l as [| x l IH]; simpl; [reflexivity | now rewrite IH]. Qed.

Lemma any_map (f : A -> bool) (l : list A) : Np.any (map f l) = existsb f l.
Proof.
  unfold Np.any. induction l as [| x l IH]; simpl; [reflexivity | now rewrite IH].
Qed.

Lemma existsb_false_filter (f : A -> bool) (l : list A) :
  existsb f l = false -> List.filter f l = [].
Proof.
  induction l as [| x l IH]; simpl; [reflexivity |].
  destruct (f x); simpl; [discriminate | exact IH].
Qed.

Lemma existsb_true_filter (f : A -> bool) (l : list A) :
  existsb f l = true -> List.filter f l <> [].
Proof.
  induction l as [| x l IH]; simpl; [discriminate |].
  destruct (f x); simpl; [discriminate | exact IH].
Qed.

Lemma filter_filter (f g : A -> bool) (l : list A) :
  List.filter g (List.filter f l) = List.filter (fun x => f x && g x) l.
Proof.
  induction l as [| x l IH]; simpl; [reflexivity |].
  destruct (f x); simpl; [destruct (g x) |]; now rewrite IH.
Qed.

Lemma getitem_mask_map (f : A -> bool) (g : A -> B) (l : list A) :
  Np.getitem_mask (map g l) (map f l) = Ok (map g (List.filter f l)).
Proof.
  unfold Np.getitem_mask. rewrite !length_map, Nat.eqb_refl.
  now rewrite compress_map.
Qed.

Lemma for_each_ok (body : A -> result B) (g : A -> B) (l : list A) :
  (forall x, In x l -> body x = Ok (g x)) ->
  Np.for_each body l = Ok (map g l).
Proof.
  induction l as [| x l IH]; intros H; simpl; [reflexivity |].
  rewrite (H x (or_introl eq_refl)). simpl.
  rewrite IH by (intros y Hy; apply H; now right). reflexivity.
Qed.

Lemma combine_map_r (g : A -> B) (l : list A) :
  combine l (map g l) = map (fun x => (x, g x)) l.
Proof. induction l as [| x l IH]; simpl; [reflexivity | now rewrite IH]. Qed.

Lemma nth_map_seq (E : nat -> A) (m i : nat) (d : A) :
  (i < m)%nat -> nth i (map E (seq 0 m)) d = E i.
Proof.
  intros Hi. rewrite (nth_indep _ d (E 0%nat)) by (now rewrite length_map, length_seq).
  rewrite map_nth, seq_nth by exact Hi. reflexivity.
Qed.

End ListFacts.

Lemma observations_split (phases flux flux_err : list float) :
  List.length flux = List.length phases ->
  List.length flux_err = List.length phases ->
  phases = map obs_phase (observations phases flux flux_err) /\
  flux = map obs_flux (observations phases flux flux_err) /\
  flux_err = map obs_err (observations phases flux flux_err).
Proof.
  unfold observations.
  revert flux flux_err.
  induction phases as [| p phases IH]; intros [| f flux] [| e flux_err];
    simpl; intros Hf He; try discriminate; [now repeat split |].
  injection Hf as Hf. injection He as He.
  destruct (IH flux flux_err Hf He) as [H1 [H2 H3]].
  unfold obs_phase, obs_flux, obs_err in *. simpl.
  repeat split; f_equal; assumption.
Qed.

Lemma sum_Fin_from (l : list R) (a : R) :
  fold_left fadd (map Fin l) (Fin a) = Fin (a + Rsum l).
Proof.
  revert a. induction l as [| x l IH]; intros a; simpl.
  - f_equal. lra.
  - rewrite IH. f_equal. lra.
Qed.

Lemma sum_Fin (l : list R) : Np.sum (map Fin l) = Fin (Rsum l).
Proof. unfold Np.sum. rewrite sum_Fin_from. f_equal. lra. Qed.

(** ** One bin *)

Section OneBin.
Open Scope R_scope.
Import timeseries.

(** A valid observation has a finite flux and a finite positive error. *)
Lemma valid_inv (o : obs) :
  valid o = true ->
  exists p f e, o = (p, (Fin f, Fin e)) /\ 0 < e.
Proof.
  destruct o as [p [f e]]. unfold valid, obs_err, obs_flux. simpl.
  destruct e as [e | | |], f as [f | | |]; simpl;
    rewrite ?andb_false_r; try discriminate.
  rewrite !andb_true_r. intros H%Rltb_true. now exists p, f, e.
Qed.

Lemma weight_pos (o : obs) : valid o = true -> 0 < weight o.
Proof.
  intros (p & f & e & -> & He)%valid_inv. unfold weight, obs_err. simpl.
  apply Rdiv_lt_0_compat; [lra | nra].
Qed.

Lemma code_weight (o : obs) :
  valid o = true ->
  fdiv (Fin 1) (fsquare (obs_err o)) = Fin (weight o).
Proof.
  intros (p & f & e & -> & He)%valid_inv. unfold weight, obs_err. simpl.
  rewrite Reqb_neq by nra. reflexivity.
Qed.

Lemma code_weighted_flux (o : obs) :
  valid o = true ->
  fmul (obs_flux o) (fdiv (Fin 1) (fsquare (obs_err o)))
  = Fin (real (obs_flux o) * weight o).
Proof.
  intros Hv. rewrite (code_weight o Hv).
  destruct (valid_inv o Hv) as (p & f & e & -> & He). reflexivity.
Qed.

Lemma Rsum_weight_pos (m : list obs) :
  m <> [] -> Forall (fun o => valid o = true) m -> 0 < Rsum (map weight m).
Proof.
  intros Hne Hall.
  assert (H0 : forall l, Forall (fun o => valid o = true) l ->
                         0 <= Rsum (map weight l)).
  { induction 1 as [| o l Ho _ IH]; simpl; [lra |].
    pose proof (weight_pos o Ho). lra. }
  destruct m as [| o l]; [contradiction |].
  inversion Hall as [| ? ? Ho Hl]; subst. simpl.
  pose proof (weight_pos o Ho). pose proof (H0 l Hl). lra.
Qed.

Lemma members_valid (lo hi : float) (l : list obs) :
  Forall (fun o => valid o = true) (members lo hi l).
Proof.
  apply Forall_forall. intros o Ho. unfold members in Ho.
  apply filter_In in Ho as [_ Ho]. now apply andb_true_iff in Ho as [_ Ho].
Qed.

(** The statistics the code computes from the contributing observations. *)
Lemma code_statistics (m : list obs) :
  m <> [] -> Forall (fun o => valid o = true) m ->
  let weights := map (fun e => fdiv (Fin 1) (fsquare e)) (map obs_err m) in
  fdiv (Np.sum (Np.zip_with fmul (map obs_flux m) weights)) (Np.sum weights)
  = Fin (weighted_mean m) /\
  fsqrt (fdiv (Fin 1) (Np.sum weights)) = Fin (weighted_error m).
Proof.
  intros Hne Hall weights.
  pose proof (Rsum_weight_pos Hne Hall) as HW.
  assert (Hw : weights = map Fin (map weight m)).
  { subst weights. rewrite !map_map. apply map_ext_in. intros o Ho.
    apply code_weight. rewrite Forall_forall in Hall. now apply Hall. }
  assert (Hfw : Np.zip_with fmul (map obs_flux m) weights
                = map Fin (map (fun o => real (obs_flux o) * weight o) m)).
  { subst weights. rewrite map_map, zip_with_map, map_map.
    apply map_ext_in. intros o Ho.
    apply code_weighted_flux. rewrite Forall_forall in Hall. now apply Hall. }
  rewrite Hfw, Hw, !sum_Fin. unfold weighted_mean, weighted_error.
  set (W := Rsum (map weight m)) in *.
  split.
  - simpl. rewrite Reqb_neq by lra. reflexivity.
  - simpl. rewrite Reqb_neq by lra. simpl.
    assert (H1 : Rltb (1 / W) 0 = false).
    { apply Rltb_false. left. apply Rdiv_lt_0_compat; lra. }
    now rewrite H1.
Qed.

(** The loop body computes [bin_stat] of the observations. *)
Lemma bin_body_spec (l : list obs) (bin_edges : list float) (i : nat)
    (phase_center : float) :
  bin_body (map obs_phase l) (map obs_flux l) (map obs_err l) bin_edges
           (i, phase_center)
  = Ok (bin_stat (nth i bin_edges NaN) (nth (i + 1) bin_edges NaN)
                 phase_center l).
Proof.
  unfold bin_body, bin_stat, members.
  set (lo := nth i bin_edges NaN). set (hi := nth (i + 1) bin_edges NaN).
  assert (Hmask : bin_mask (map obs_phase l) lo hi = map (in_bin lo hi) l).
  { unfold bin_mask. rewrite map_map. reflexivity. }
  rewrite Hmask, any_map, <- filter_filter.
  destruct (existsb (in_bin lo hi) l) eqn:Hany; cbn [negb].
  2:{ now rewrite (existsb_false_filter _ _ Hany). }
  rewrite !getitem_mask_map. cbn [bind].
  set (l1 := List.filter (in_bin lo hi) l).
  assert (Hvalid : valid_mask (map obs_flux l1) (map obs_err l1) = map valid l1).
  { unfold valid_mask. rewrite zip_with_map. reflexivity. }
  rewrite Hvalid, any_map.
  destruct (existsb valid l1) eqn:Hany1; cbn [negb].
  2:{ now rewrite (existsb_false_filter _ _ Hany1). }
  rewrite !compress_map.
  pose proof (existsb_true_filter _ _ Hany1) as Hne.
  assert (Hall : Forall (fun o => valid o = true) (List.filter valid l1)).
  { apply Forall_forall. intros o Ho. now apply filter_In in Ho as [_ Ho]. }
  destruct (code_statistics Hne Hall) as [-> ->].
  destruct (List.filter valid l1); [contradiction | reflexivity].
Qed.

End OneBin.

(** ** The loop over the bins *)

Section BinLoop.
Open Scope R_scope.
Import timeseries.

Lemma linspace_edges (num_bins : Z) :
  (0 <= num_bins)%Z ->
  Np.linspace01 (num_bins + 1)
  = Ok (map (fun i => Fin (edge (Z.to_nat num_bins) i))
            (seq 0 (S (Z.to_nat num_bins)))).
Proof.
  intros Hn. unfold Np.linspace01.
  destruct (Z.ltb_spec (num_bins + 1) 0) as [Hlt | _]; [lia |].
  replace (Z.to_nat (num_bins + 1)) with (S (Z.to_nat num_bins)) by lia.
  f_equal. apply map_ext. intros i. unfold edge.
  replace (num_bins + 1 - 1)%Z with num_bins by lia.
  now rewrite (INR_IZR_INZ (Z.to_nat num_bins)), Z2Nat.id.
Qed.

Lemma centers_of_edges (n : nat) :
  let bin_edges := map (fun i => Fin (edge n i)) (seq 0 (S n)) in
  map (fmul (Fin 0.5)) (Np.zip_with fadd (removelast bin_edges) (tl bin_edges))
  = map (fun i => Fin (midpoint n i)) (seq 0 n).
Proof.
  intros bin_edges.
  assert (H1 : removelast bin_edges = map (fun i => Fin (edge n i)) (seq 0 n)).
  { subst bin_edges. rewrite seq_S, map_app. simpl. apply removelast_last. }
  assert (H2 : tl bin_edges = map (fun i => Fin (edge n (S i))) (seq 0 n)).
  { subst bin_edges. simpl. now rewrite <- seq_shift, map_map. }
  rewrite H1, H2, zip_with_map, map_map.
  apply map_ext. intros i. simpl. f_equal. unfold midpoint. lra.
Qed.

(** On observations with aligned arrays the loop gives [binned]. *)
Lemma bin_loop_obs (l : list obs) (num_bins : Z) :
  (0 <= num_bins)%Z ->
  bin_loop (map obs_phase l) (map obs_flux l) (map obs_err l) num_bins
  = Ok (binned (Z.to_nat num_bins) l).
Proof.
  intros Hn. unfold bin_loop. rewrite (linspace_edges Hn). cbn [bind].
  set (n := Z.to_nat num_bins).
  rewrite (centers_of_edges n).
  unfold Np.enumerate. rewrite length_map, length_seq, combine_map_r.
  unfold binned.
  rewrite (@for_each_ok _ _ _
             (fun ic => bin_stat (Fin (edge n (fst ic))) (Fin (edge n (S (fst ic))))
                                 (snd ic) l)).
  - now rewrite map_map.
  - intros [i c] Hin. apply in_map_iff in Hin as (j & Hj & Hin).
    injection Hj as <- <-. apply in_seq in Hin as [_ Hlt]. simpl in Hlt.
    rewrite bin_body_spec. cbn [fst snd].
    rewrite !nth_map_seq by lia. now rewrite Nat.add_1_r.
Qed.

Lemma bin_loop_spec (phases flux flux_err : list float) (num_bins : Z) :
  List.length flux = List.length phases ->
  List.length flux_err = List.length phases ->
  (0 <= num_bins)%Z ->
  bin_loop phases flux flux_err num_bins
  = Ok (binned (Z.to_nat num_bins) (observations phases flux flux_err)).
Proof.
  intros Hf He Hn.
  destruct (observations_split phases flux flux_err Hf He) as (H1 & H2 & H3).
  pose proof (bin_loop_obs (observations phases flux flux_err) Hn) as H.
  now rewrite <- H1, <- H2, <- H3 in H.
Qed.

(** Without bins the loop does not look at the data. *)
Lemma bin_loop_no_bins (phases flux flux_err : list float) (num_bins : Z) :
  (num_bins <= 0)%Z ->
  bin_loop phases flux flux_err num_bins
  = if (num_bins + 1 <? 0)%Z
    then Raise (ValueError (Np.negative_samples_msg (num_bins + 1)))
    else Ok [].
Proof.
  intros Hn. unfold bin_loop, Np.linspace01.
  destruct (Z.ltb_spec (num_bins + 1) 0) as [Hlt | Hge]; [reflexivity |].
  assert (H : num_bins = 0%Z \/ num_bins = (-1)%Z) by lia.
  destruct H as [-> | ->]; reflexivity.
Qed.

Lemma binned_length (n : nat) (l : list obs) : List.length (binned n l) = n.
Proof. unfold binned. now rewrite length_map, length_seq. Qed.

Lemma binned_nth (n i : nat) (l : list obs) (d : row) :
  (i < n)%nat ->
  nth i (binned n l) d
  = bin_stat (Fin (edge n i)) (Fin (edge n (S i))) (Fin (midpoint n i)) l.
Proof. intros Hi. unfold binned. now rewrite nth_map_seq. Qed.

End BinLoop.

(** ** The stages after the loop *)

Section Stages.
Import timeseries.

Lemma as_dict_curve (rows : list row) :
  rows <> [] -> as_dict rows = Ok (curve rows).
Proof. destruct rows; [contradiction | reflexivity]. Qed.

Lemma as_dict_nil : as_dict [] = Raise IndexError.
Proof. reflexivity. Qed.

Lemma binned_nonempty (n : nat) (l : list obs) : (0 < n)%nat -> binned n l <> [].
Proof.
  intros Hn H. apply (f_equal (@List.length row)) in H.
  rewrite binned_length in H. simpl in H. lia.
Qed.

Lemma phase_fold_length (time : list float) (period period_derivative : scalar)
    (reference_epoch : option float) (phases : list float) :
  phase_fold time period period_derivative reference_epoch = Ok phases ->
  List.length phases = List.length time.
Proof.
  unfold phase_fold. intros H.
  destruct (match reference_epoch with None => Np.min time | Some e => Ok e end);
    cbn [bind] in H; [discriminate |].
  destruct (scalar_truediv _ period); cbn [bind] in H; [discriminate |].
  injection H as <-. now rewrite !length_map.
Qed.

(** One cycle without normalization returns the rows of the loop. *)
Lemma bin_phase_folded_data_plain (time flux flux_err : list float)
    (period period_derivative : scalar) (reference_epoch : option float)
    (num_bins : Z) (phases : list float) (rows : list row) :
  phase_fold time period period_derivative reference_epoch = Ok phases ->
  bin_loop phases flux flux_err num_bins = Ok rows ->
  rows <> [] ->
  bin_phase_folded_data time flux flux_err period period_derivative
                        reference_epoch num_bins 1 PyFalse
  = Ok (curve rows).
Proof.
  intros Hp Hl Hne. unfold bin_phase_folded_data.
  rewrite Hp. cbn [bind]. rewrite Hl. cbn [bind apply_normalization truthy].
  unfold replicate_cycles. cbn [Z.eqb Pos.eqb bind]. now apply as_dict_curve.
Qed.

End Stages.

(** ** Weighted statistics of a bin (C2) *)

Lemma valid_iff (o : obs) :
  valid o = true <->
  exists f e, obs_flux o = Fin f /\ obs_err o = Fin e /\ (0 < e)%R.
Proof.
  split.
  - intros (p & f & e & -> & He)%valid_inv. now exists f, e.
  - destruct o as [p [f' e']]. unfold valid, obs_flux, obs_err. simpl.
    intros (f & e & -> & -> & He). simpl.
    now rewrite (proj2 (Rltb_true 0 e) He).
Qed.

Lemma members_iff (lo hi : float) (l : list obs) (o : obs) :
  In o (members lo hi l) <->
  In o l /\ in_bin lo hi o = true /\
  exists f e, obs_flux o = Fin f /\ obs_err o = Fin e /\ (0 < e)%R.
Proof.
  unfold members. rewrite filter_In, andb_true_iff, valid_iff. tauto.
Qed.

Lemma bin_stat_members (lo hi c : float) (l : list obs) :
  members lo hi l <> [] ->
  bin_stat lo hi c l
  = (c, Fin (weighted_mean (members lo hi l)),
        Fin (weighted_error (members lo hi l))).
Proof.
  unfold bin_stat. destruct (members lo hi l); [contradiction | reflexivity].
Qed.

Lemma weighted_mean_two (p1 p2 : float) (f1 e1 f2 e2 : R) :
  weighted_mean [(p1, (Fin f1, Fin e1)); (p2, (Fin f2, Fin e2))]
  = ((f1 / (e1 * e1) + f2 / (e2 * e2)) / (1 / (e1 * e1) + 1 / (e2 * e2)))%R.
Proof.
  unfold weighted_mean, weight, obs_flux, obs_err. simpl.
  rewrite !Rplus_0_r. unfold Rdiv. ring.
Qed.

Lemma weighted_error_two (p1 p2 : float) (f1 e1 f2 e2 : R) :
  weighted_error [(p1, (Fin f1, Fin e1)); (p2, (Fin f2, Fin e2))]
  = (1 / sqrt (1 / (e1 * e1) + 1 / (e2 * e2)))%R.
Proof.
  unfold weighted_error, weight, obs_err. simpl.
  rewrite !Rplus_0_r. unfold Rdiv at 1 4. now rewrite !Rmult_1_l, sqrt_inv.
Qed.

(** C2.  In every bin the code keeps the observations of the bin whose error
    is finite and positive and whose flux is finite, and from them sets the
    flux of the bin to [sum(flux * w) / sum(w)] with [w = 1 / err^2] and its
    error to [sqrt(1 / sum(w))]; with exactly two such observations these are
    [(f1/e1^2 + f2/e2^2) / (1/e1^2 + 1/e2^2)] and
    [1 / sqrt(1/e1^2 + 1/e2^2)].  The rows are what [bin_phase_folded_data]
    returns for one cycle without normalization. *)
Theorem C2_inverse_variance_mean (phases flux flux_err : list float)
    (num_bins : Z) :
  List.length flux = List.length phases ->
  List.length flux_err = List.length phases ->
  (0 < num_bins)%Z ->
  let n := Z.to_nat num_bins in
  let l := observations phases flux flux_err in
  exists rows : list timeseries.row,
    timeseries.bin_loop phases flux flux_err num_bins = Ok rows /\
    (forall time period period_derivative reference_epoch,
       timeseries.phase_fold time period period_derivative reference_epoch
       = Ok phases ->
       timeseries.bin_phase_folded_data time flux flux_err period
         period_derivative reference_epoch num_bins 1 timeseries.PyFalse
       = Ok (curve rows)) /\
    forall i, (i < n)%nat ->
      let m := members (Fin (edge n i)) (Fin (edge n (S i))) l in
      let r := nth i rows (NaN, NaN, NaN) in
      (forall o, In o m <->
         In o l /\ in_bin (Fin (edge n i)) (Fin (edge n (S i))) o = true /\
         exists f e, obs_flux o = Fin f /\ obs_err o = Fin e /\ (0 < e)%R) /\
      (m <> [] ->
         timeseries.col1 r = Fin (weighted_mean m) /\
         timeseries.col2 r = Fin (weighted_error m)) /\
      (forall p1 f1 e1 p2 f2 e2,
         m = [(p1, (Fin f1, Fin e1)); (p2, (Fin f2, Fin e2))] ->
         timeseries.col1 r
         = Fin ((f1 / (e1 * e1) + f2 / (e2 * e2))
                / (1 / (e1 * e1) + 1 / (e2 * e2))) /\
         timeseries.col2 r
         = Fin (1 / sqrt (1 / (e1 * e1) + 1 / (e2 * e2)))).
Proof.
  intros Hf He Hn n l.
  exists (binned n l). split; [| split].
  - apply bin_loop_spec; trivial. lia.
  - intros time period period_derivative reference_epoch Hp.
    apply bin_phase_folded_data_plain with (phases := phases); trivial.
    + apply bin_loop_spec; trivial. lia.
    + apply binned_nonempty. lia.
  - intros i Hi m r.
    assert (Hr : m <> [] ->
                 r = (Fin (midpoint n i), Fin (weighted_mean m),
                      Fin (weighted_error m))).
    { intros Hm. subst r. rewrite binned_nth by exact Hi.
      now apply bin_stat_members. }
    split; [| split].
    + intros o. apply members_iff.
    + intros Hm. now rewrite (Hr Hm).
    + intros p1 f1 e1 p2 f2 e2 Hm.
      rewrite Hr by (rewrite Hm; discriminate).
      rewrite Hm, weighted_mean_two, weighted_error_two. now split.
Qed.

(** Decides the comparisons of concrete reals in the goal. *)
Ltac Rdecide :=
  repeat match goal with
    | |- context [Rleb ?a ?b] =>
        first [ rewrite (proj2 (Rleb_true a b)) by lra
              | rewrite (proj2 (Rleb_false a b)) by lra ]
    | |- context [Rltb ?a ?b] =>
        first [ rewrite (proj2 (Rltb_true a b)) by lra
              | rewrite (proj2 (Rltb_false a b)) by lra ]
    | |- context [Reqb ?a ?b] =>
        first [ rewrite (proj2 (Reqb_true a b)) by lra
              | rewrite (proj2 (Reqb_false a b)) by lra ]
    end.

Lemma C2_inverse_variance_mean_witness :
  exists rows : list timeseries.row,
    timeseries.bin_loop [Fin 0.1; Fin 0.2] [Fin 10; Fin 20] [Fin 1; Fin 2] 1
    = Ok rows /\
    timeseries.col1 (nth 0 rows (NaN, NaN, NaN))
    = Fin ((10 / (1 * 1) + 20 / (2 * 2)) / (1 / (1 * 1) + 1 / (2 * 2))) /\
    timeseries.col2 (nth 0 rows (NaN, NaN, NaN))
    = Fin (1 / sqrt (1 / (1 * 1) + 1 / (2 * 2))).
Proof.
  destruct (@C2_inverse_variance_mean [Fin 0.1; Fin 0.2] [Fin 10; Fin 20]
              [Fin 1; Fin 2] 1 eq_refl eq_refl eq_refl)
    as (rows & Hrows & _ & Hbins).
  exists rows. split; [exact Hrows |].
  destruct (Hbins 0%nat (Nat.lt_0_succ 0)) as (_ & _ & Htwo).
  apply (Htwo (Fin 0.1) 10%R 1%R (Fin 0.2) 20%R 2%R).
  unfold members, observations, in_bin, valid, edge, obs_phase, obs_flux, obs_err.
  simpl. Rdecide. reflexivity.
Defined.

(** ** Empty bins and the grid of phase centres (C3) *)

Section Grid.
Open Scope R_scope.
Import timeseries.

Lemma midpoint_formula (n i : nat) :
  (0 < n)%nat -> midpoint n i = (2 * INR i + 1) / (2 * INR n).
Proof.
  intros Hn. unfold midpoint, edge. rewrite S_INR.
  assert (0 < INR n) by (apply lt_0_INR; lia).
  field. lra.
Qed.

Lemma midpoint_step (n i : nat) :
  (0 < n)%nat -> midpoint n (S i) = midpoint n i + 1 / INR n /\ 0 < 1 / INR n.
Proof.
  intros Hn. rewrite !midpoint_formula by exact Hn. rewrite S_INR.
  assert (0 < INR n) by (apply lt_0_INR; lia).
  split; [field; lra | apply Rdiv_lt_0_compat; lra].
Qed.

Lemma bin_stat_center (lo hi c : float) (l : list obs) :
  col0 (bin_stat lo hi c l) = c.
Proof. unfold bin_stat. now destruct (members lo hi l). Qed.

Lemma bin_stat_empty (lo hi c : float) (l : list obs) :
  members lo hi l = [] -> bin_stat lo hi c l = (c, NaN, NaN).
Proof. unfold bin_stat. now intros ->. Qed.

Lemma members_nan_errors (lo hi : float) (l : list obs) :
  (forall o, In o l -> obs_err o = NaN) -> members lo hi l = [].
Proof.
  intros H. unfold members.
  induction l as [| o l IH]; simpl; [reflexivity |].
  assert (Hv : valid o = false).
  { unfold valid. rewrite (H o (or_introl eq_refl)). reflexivity. }
  rewrite Hv, andb_false_r. apply IH. intros o' Ho'. apply H. now right.
Qed.

Lemma observations_err_in (phases flux flux_err : list float) (o : obs) :
  In o (observations phases flux flux_err) -> In (obs_err o) flux_err.
Proof.
  unfold observations. destruct o as [p [f e]]. intros H.
  apply in_combine_r in H. now apply in_combine_r in H.
Qed.

(** Normalization leaves the rows alone or divides the two statistics of
    every row by one factor. *)
Lemma apply_normalization_shape (normalization : norm_arg)
    (rows rows' : list row) :
  apply_normalization normalization rows = Ok rows' ->
  rows' = rows \/
  exists norm_factor,
    rows' = map (fun r => (col0 r, fdiv (col1 r) norm_factor,
                           fdiv (col2 r) norm_factor)) rows.
Proof.
  unfold apply_normalization.
  destruct (truthy normalization); [| intros [= <-]; now left].
  destruct (column col1 rows) as [e | flux_col]; cbn [bind]; [discriminate |].
  destruct (Nat.eqb _ 0); [discriminate |].
  destruct (norm_methods _) as [method |]; [| discriminate].
  destruct (method _) as [e | norm_factor]; cbn [bind]; [discriminate |].
  intros [= <-]. right. now exists norm_factor.
Qed.

End Grid.

(** C3.  The loop emits one row per bin, in order: [num_bins] rows whose
    phase centres are the midpoints [(2 i + 1) / (2 num_bins)] of the bins,
    uniformly spaced by [1 / num_bins] and ascending.  A bin to which no valid
    observation contributes has [nan] flux and [nan] error (every bin, when
    all errors are [nan]) and keeps its centre.  Normalization, when it
    returns, changes neither the centres nor the [nan]s, and one cycle
    without normalization returns exactly these rows. *)
Theorem C3_empty_bins_are_nan (phases flux flux_err : list float)
    (num_bins : Z) :
  List.length flux = List.length phases ->
  List.length flux_err = List.length phases ->
  (0 < num_bins)%Z ->
  let n := Z.to_nat num_bins in
  let l := observations phases flux flux_err in
  let d := (NaN, NaN, NaN) in
  exists rows : list timeseries.row,
    timeseries.bin_loop phases flux flux_err num_bins = Ok rows /\
    List.length rows = n /\
    map timeseries.col0 rows
    = map (fun i => Fin ((2 * INR i + 1) / (2 * INR n))) (seq 0 n) /\
    (forall i, (i < n)%nat ->
       timeseries.col0 (nth i rows d) = Fin ((edge n i + edge n (S i)) / 2) /\
       (midpoint n (S i) = midpoint n i + 1 / INR n)%R /\
       (0 < 1 / INR n)%R /\
       (members (Fin (edge n i)) (Fin (edge n (S i))) l = [] ->
        nth i rows d = (Fin (midpoint n i), NaN, NaN))) /\
    ((forall e, In e flux_err -> e = NaN) ->
     forall i, (i < n)%nat -> nth i rows d = (Fin (midpoint n i), NaN, NaN)) /\
    (forall normalization rows',
       timeseries.apply_normalization normalization rows = Ok rows' ->
       map timeseries.col0 rows' = map timeseries.col0 rows /\
       forall i, (i < n)%nat ->
         members (Fin (edge n i)) (Fin (edge n (S i))) l = [] ->
         nth i rows' d = (Fin (midpoint n i), NaN, NaN)) /\
    (forall time period period_derivative reference_epoch,
       timeseries.phase_fold time period period_derivative reference_epoch
       = Ok phases ->
       timeseries.bin_phase_folded_data time flux flux_err period
         period_derivative reference_epoch num_bins 1 timeseries.PyFalse
       = Ok (curve rows)).
Proof.
  intros Hf He Hn n l d.
  assert (Hn' : (0 < n)%nat) by lia.
  assert (Hloop : timeseries.bin_loop phases flux flux_err num_bins
                  = Ok (binned n l)) by (apply bin_loop_spec; trivial; lia).
  assert (Hempty : forall i, (i < n)%nat ->
            members (Fin (edge n i)) (Fin (edge n (S i))) l = [] ->
            nth i (binned n l) d = (Fin (midpoint n i), NaN, NaN)).
  { intros i Hi Hm. rewrite binned_nth by exact Hi. now apply bin_stat_empty. }
  exists (binned n l). repeat split.
  - exact Hloop.
  - apply binned_length.
  - unfold binned. rewrite map_map. apply map_ext_in. intros i _.
    now rewrite bin_stat_center, midpoint_formula.
  - rewrite binned_nth by assumption. now rewrite bin_stat_center.
  - now apply midpoint_step.
  - now apply midpoint_step.
  - now apply Hempty.
  - intros Hnan i Hi. apply Hempty; [exact Hi |].
    apply members_nan_errors. intros o Ho.
    apply Hnan. eapply observations_err_in. exact Ho.
  - destruct (apply_normalization_shape _ _ H) as [-> | [nf ->]];
      [reflexivity |].
    rewrite map_map. reflexivity.
  - intros i Hi Hm.
    destruct (apply_normalization_shape _ _ H) as [-> | [nf ->]];
      [now apply Hempty |].
    change d with ((fun r => (timeseries.col0 r,
                              fdiv (timeseries.col1 r) nf,
                              fdiv (timeseries.col2 r) nf)) d).
    rewrite map_nth. now rewrite (Hempty i Hi Hm).
  - intros time period period_derivative reference_epoch Hp.
    apply bin_phase_folded_data_plain with (phases := phases); trivial.
    apply binned_nonempty. lia.
Qed.

Lemma C3_empty_bins_are_nan_witness :
  exists rows : list timeseries.row,
    timeseries.bin_loop [Fin 0.1; Fin 0.2] [Fin 10; Fin 20] [NaN; NaN] 2
    = Ok rows /\
    List.length rows = 2%nat /\
    nth 0 rows (NaN, NaN, NaN) = (Fin (midpoint 2 0), NaN, NaN) /\
    nth 1 rows (NaN, NaN, NaN) = (Fin (midpoint 2 1), NaN, NaN).
Proof.
  destruct (@C3_empty_bins_are_nan [Fin 0.1; Fin 0.2] [Fin 10; Fin 20]
              [NaN; NaN] 2 eq_refl eq_refl eq_refl)
    as (rows & Hrows & Hlen & _ & _ & Hnan & _).
  exists rows. split; [exact Hrows |]. split; [exact Hlen |].
  assert (Hall : forall e, In e [NaN; NaN] -> e = NaN).
  { intros e [<- | [<- | []]]; reflexivity. }
  split; apply (Hnan Hall); simpl; lia.
Defined.

(** ** A phase of exactly one (C9) *)

Section PhaseOne.
Open Scope R_scope.
Import timeseries.

Lemma edge_le_1 (n i : nat) : (0 < n)%nat -> (i <= n)%nat -> edge n i <= 1.
Proof.
  intros Hn Hi. unfold edge.
  assert (0 < INR n) by (apply lt_0_INR; lia).
  apply Rmult_le_reg_r with (INR n); [assumption |].
  replace (INR i / INR n * INR n) with (INR i) by (field; lra).
  rewrite Rmult_1_l. now apply le_INR.
Qed.

(** No bin of the grid contains the phase one. *)
Lemma in_bin_phase_one (n i : nat) (f e : float) :
  (i < n)%nat ->
  in_bin (Fin (edge n i)) (Fin (edge n (S i))) (Fin 1, (f, e)) = false.
Proof.
  intros Hi. unfold in_bin, obs_phase. simpl.
  assert (H : Rltb 1 (edge n (S i)) = false).
  { apply Rltb_false. apply edge_le_1; lia. }
  rewrite H. apply andb_false_r.
Qed.

Lemma combine_app_same (A B : Type) (a1 a2 : list A) (b1 b2 : list B) :
  List.length b1 = List.length a1 ->
  combine (a1 ++ a2) (b1 ++ b2) = combine a1 b1 ++ combine a2 b2.
Proof.
  revert b1. induction a1 as [| x a1 IH]; intros [| y b1]; simpl;
    intros H; try discriminate; [reflexivity |].
  injection H as H. now rewrite IH.
Qed.

Lemma observations_app (p1 p2 f1 f2 e1 e2 : list float) :
  List.length f1 = List.length p1 ->
  List.length e1 = List.length p1 ->
  observations (p1 ++ p2) (f1 ++ f2) (e1 ++ e2)
  = observations p1 f1 e1 ++ observations p2 f2 e2.
Proof.
  intros Hf He. unfold observations.
  rewrite (@combine_app_same _ _ f1 f2 e1 e2) by congruence.
  apply combine_app_same. rewrite length_combine. lia.
Qed.

Lemma binned_without_phase_one (n : nat) (l1 l2 : list obs) (f e : float) :
  binned n (l1 ++ (Fin 1, (f, e)) :: l2) = binned n (l1 ++ l2).
Proof.
  unfold binned. apply map_ext_in. intros i Hi.
  apply in_seq in Hi as [_ Hi]. simpl in Hi.
  unfold bin_stat, members.
  rewrite !filter_app. cbn [List.filter].
  now rewrite (in_bin_phase_one f e Hi).
Qed.

End PhaseOne.

(** C9.  An observation whose phase is exactly 1.0 fails the test
    [phase_min <= phase < phase_max] of every bin, the last one included, since
    no edge exceeds 1; the rows of the loop are those of the data without that
    observation, so it contributes to no bin. *)
Theorem C9_phase_one_dropped (p1 p2 f1 f2 e1 e2 : list float) (f e : float)
    (num_bins : Z) :
  List.length f1 = List.length p1 ->
  List.length e1 = List.length p1 ->
  List.length f2 = List.length p2 ->
  List.length e2 = List.length p2 ->
  let phases := p1 ++ Fin 1 :: p2 in
  (forall bin_edges i,
     Np.linspace01 (num_bins + 1) = Ok bin_edges ->
     (i < Z.to_nat num_bins)%nat ->
     nth_error (timeseries.bin_mask phases (nth i bin_edges NaN)
                                    (nth (i + 1) bin_edges NaN))
               (List.length p1)
     = Some false) /\
  timeseries.bin_loop phases (f1 ++ f :: f2) (e1 ++ e :: e2) num_bins
  = timeseries.bin_loop (p1 ++ p2) (f1 ++ f2) (e1 ++ e2) num_bins.
Proof.
  intros Hf1 He1 Hf2 He2 phases. split.
  - intros bin_edges i Hedges Hi.
    rewrite linspace_edges in Hedges by lia.
    assert (Hedges' : bin_edges
                      = map (fun j => Fin (edge (Z.to_nat num_bins) j))
                            (seq 0 (S (Z.to_nat num_bins)))) by congruence.
    rewrite Hedges'. clear Hedges Hedges'.
    rewrite !nth_map_seq by lia. rewrite Nat.add_1_r.
    unfold timeseries.bin_mask, phases.
    rewrite map_app, nth_error_app2 by (rewrite length_map; lia).
    rewrite length_map, Nat.sub_diag. cbn [map nth_error]. f_equal.
    apply (in_bin_phase_one (Fin 0) (Fin 0) Hi).
  - destruct (Z.le_gt_cases 0 num_bins) as [Hn | Hn].
    + rewrite (@bin_loop_spec phases) by
        (trivial; unfold phases; rewrite !length_app; cbn [List.length]; lia).
      rewrite (@bin_loop_spec (p1 ++ p2)) by
        (trivial; rewrite !length_app; lia).
      unfold phases.
      rewrite (@observations_app p1 (Fin 1 :: p2) f1 (f :: f2) e1 (e :: e2))
        by assumption.
      rewrite (@observations_app p1 p2 f1 f2 e1 e2) by assumption.
      f_equal. apply binned_without_phase_one.
    + rewrite !bin_loop_no_bins by lia. reflexivity.
Qed.

Lemma C9_phase_one_dropped_witness :
  timeseries.bin_loop ([Fin 0.1] ++ Fin 1 :: [Fin 0.2])
                      ([Fin 10] ++ Fin 99 :: [Fin 20])
                      ([Fin 1] ++ Fin 1 :: [Fin 2]) 4
  = timeseries.bin_loop ([Fin 0.1] ++ [Fin 0.2]) ([Fin 10] ++ [Fin 20])
                        ([Fin 1] ++ [Fin 2]) 4.
Proof.
  apply (@C9_phase_one_dropped [Fin 0.1] [Fin 0.2] [Fin 10] [Fin 20]
           [Fin 1] [Fin 2] (Fin 99) (Fin 1) 4 eq_refl eq_refl eq_refl eq_refl).
Defined.

(** ** Replication of cycles (C4) *)

Section Cycles.
Import timeseries.

Lemma for_each_length (A B : Type) (body : A -> result B) (l : list A)
    (r : list B) :
  Np.for_each body l = Ok r -> List.length r = List.length l.
Proof.
  revert r. induction l as [| x l IH]; simpl; intros r H.
  - now injection H as <-.
  - destruct (body x); cbn [bind] in H; [discriminate |].
    destruct (Np.for_each body l); cbn [bind] in H; [discriminate |].
    injection H as <-. simpl. f_equal. now apply IH.
Qed.

Lemma bin_loop_length (phases flux flux_err : list float) (num_bins : Z)
    (rows : list row) :
  bin_loop phases flux flux_err num_bins = Ok rows ->
  List.length rows = Z.to_nat num_bins.
Proof.
  destruct (Z.le_gt_cases 0 num_bins) as [Hn | Hn].
  - unfold bin_loop. rewrite (linspace_edges Hn). cbn [bind].
    rewrite (centers_of_edges (Z.to_nat num_bins)).
    intros H%for_each_length. rewrite H. unfold Np.enumerate.
    now rewrite length_combine, !length_map, !length_seq, Nat.min_id.
  - rewrite bin_loop_no_bins by lia.
    destruct (num_bins + 1 <? 0)%Z; [discriminate |].
    intros [= <-]. simpl. lia.
Qed.

Lemma apply_normalization_length (normalization : norm_arg)
    (rows rows' : list row) :
  apply_normalization normalization rows = Ok rows' ->
  List.length rows' = List.length rows.
Proof.
  intros H. destruct (apply_normalization_shape _ _ H) as [-> | [nf ->]];
    [reflexivity | apply length_map].
Qed.

(** Either a stage before the replication raises, whatever [num_cycles] is,
    or the call is the replication of the rows [binned_lc] those stages
    produce. *)
Lemma bin_phase_folded_data_cases (time flux flux_err : list float)
    (period period_derivative : scalar) (reference_epoch : option float)
    (num_bins : Z) (normalization : norm_arg) :
  (exists e, forall num_cycles,
     bin_phase_folded_data time flux flux_err period period_derivative
       reference_epoch num_bins num_cycles normalization = Raise e) \/
  (exists binned_lc,
     List.length binned_lc = Z.to_nat num_bins /\
     forall num_cycles,
       bin_phase_folded_data time flux flux_err period period_derivative
         reference_epoch num_bins num_cycles normalization
       = (replicated <- replicate_cycles num_cycles binned_lc ;;
          as_dict replicated)).
Proof.
  unfold bin_phase_folded_data.
  destruct (phase_fold time period period_derivative reference_epoch)
    as [e | phases]; cbn [bind]; [left; now exists e |].
  destruct (bin_loop phases flux flux_err num_bins) as [e | rows] eqn:Hloop;
    cbn [bind]; [left; now exists e |].
  destruct (apply_normalization normalization rows) as [e | rows'] eqn:Hnorm;
    cbn [bind]; [left; now exists e |].
  right. exists rows'. split; [| reflexivity].
  rewrite (apply_normalization_length _ _ Hnorm). exact (bin_loop_length _ _ _ _ Hloop).
Qed.

Lemma replicate_cycles_other (num_cycles : Z) (binned_lc : list row) :
  num_cycles <> 1%Z -> num_cycles <> 2%Z -> num_cycles <> 3%Z ->
  replicate_cycles num_cycles binned_lc
  = Raise (ValueError (num_cycles_msg num_cycles)).
Proof.
  intros H1 H2 H3. unfold replicate_cycles.
  now rewrite (proj2 (Z.eqb_neq _ _) H1), (proj2 (Z.eqb_neq _ _) H2),
    (proj2 (Z.eqb_neq _ _) H3).
Qed.

(** [phase_fold] returns unless [np.min] has nothing to reduce or Python
    divides by a zero period. *)
Lemma phase_fold_returns (time : list float) (period period_derivative : scalar)
    (reference_epoch : option float) :
  (reference_epoch = None -> time <> []) ->
  (forall x, period_derivative = PyFloat x -> period <> PyFloat (Fin 0)) ->
  exists phases,
    phase_fold time period period_derivative reference_epoch = Ok phases.
Proof.
  intros Href Hp.
  assert (He : exists e,
            match reference_epoch with
            | None => Np.min time
            | Some e => Ok e
            end = Ok e).
  { destruct reference_epoch as [e |]; [now exists e |].
    destruct time as [| t ts]; [now contradiction Href |].
    eexists. reflexivity. }
  assert (Hc : exists c,
            scalar_truediv (scalar_mul (PyFloat (Fin 0.5)) period_derivative)
                           period = Ok c).
  { destruct period_derivative as [x | x]; [| eexists; reflexivity].
    specialize (Hp x eq_refl).
    destruct period as [y | y]; [| eexists; reflexivity].
    cbn [scalar_mul scalar_truediv].
    destruct y as [r | | |]; try (eexists; reflexivity).
    destruct (Reqb r 0) eqn:Hr; [| eexists; reflexivity].
    apply Reqb_true in Hr. now subst r. }
  destruct He as [e He], Hc as [c Hc].
  unfold phase_fold. rewrite He. cbn [bind]. rewrite Hc. cbn [bind].
  eexists. reflexivity.
Qed.

(** With aligned arrays, at least one bin and no normalization, the call
    with one cycle returns whenever the fold does. *)
Lemma one_cycle_returns (time flux flux_err : list float)
    (period period_derivative : scalar) (reference_epoch : option float)
    (num_bins : Z) (normalization : norm_arg) :
  List.length flux = List.length time ->
  List.length flux_err = List.length time ->
  (0 < num_bins)%Z ->
  truthy normalization = false ->
  (reference_epoch = None -> time <> []) ->
  (forall x, period_derivative = PyFloat x -> period <> PyFloat (Fin 0)) ->
  exists c,
    bin_phase_folded_data time flux flux_err period period_derivative
      reference_epoch num_bins 1 normalization = Ok c.
Proof.
  intros Hf He Hn Hnorm Href Hp.
  destruct (phase_fold_returns Href Hp) as [phases Hph].
  pose proof (phase_fold_length _ _ _ _ Hph) as Hlen.
  unfold bin_phase_folded_data. rewrite Hph. cbn [bind].
  rewrite bin_loop_spec by lia. cbn [bind].
  unfold apply_normalization. rewrite Hnorm. cbn [bind].
  unfold replicate_cycles. cbn [Z.eqb Pos.eqb bind].
  rewrite as_dict_curve by (apply binned_nonempty; lia).
  eexists. reflexivity.
Qed.

End Cycles.

(** C4.  The call with [num_cycles = 1] returns a binned curve [c] -- it
    does so for aligned arrays, at least one bin, no normalization, an epoch
    that is given or can be taken from the times, and a period that Python
    does not refuse to divide by.  Whenever it returns [c], the call with 2
    returns the copy of [c] with phases minus one followed by [c]; the call
    with 3 returns that copy, [c], and the copy with phases plus one, in this
    order; flux and flux error are copied unchanged.  The arrays have
    [num_bins * num_cycles] elements.  When the call with one cycle raises,
    the calls with 2 and 3 raise the same exception, and every other
    [num_cycles] raises: the [ValueError] on [num_cycles] whenever the call
    with one cycle returns. *)
Theorem C4_cycle_replication (time flux flux_err : list float)
    (period period_derivative : scalar) (reference_epoch : option float)
    (num_bins : Z) (normalization : timeseries.norm_arg) :
  let run := fun num_cycles =>
    timeseries.bin_phase_folded_data time flux flux_err period
      period_derivative reference_epoch num_bins num_cycles normalization in
  let minus1 := map (fun p => fsub p (Fin 1)) in
  let plus1 := map (fun p => fadd p (Fin 1)) in
  (List.length flux = List.length time ->
   List.length flux_err = List.length time ->
   (0 < num_bins)%Z ->
   timeseries.truthy normalization = false ->
   (reference_epoch = None -> time <> []) ->
   (forall x, period_derivative = PyFloat x -> period <> PyFloat (Fin 0)) ->
   exists c, run 1%Z = Ok c) /\
  (forall c, run 1%Z = Ok c ->
     run 2%Z
     = Ok {| timeseries.phase := minus1 (timeseries.phase c) ++ timeseries.phase c;
             timeseries.flux := timeseries.flux c ++ timeseries.flux c;
             timeseries.flux_err :=
               timeseries.flux_err c ++ timeseries.flux_err c |} /\
     run 3%Z
     = Ok {| timeseries.phase :=
               minus1 (timeseries.phase c) ++ timeseries.phase c
               ++ plus1 (timeseries.phase c);
             timeseries.flux :=
               timeseries.flux c ++ timeseries.flux c ++ timeseries.flux c;
             timeseries.flux_err :=
               timeseries.flux_err c ++ timeseries.flux_err c
               ++ timeseries.flux_err c |} /\
     (forall num_cycles,
        num_cycles <> 1%Z -> num_cycles <> 2%Z -> num_cycles <> 3%Z ->
        run num_cycles
        = Raise (ValueError (timeseries.num_cycles_msg num_cycles)))) /\
  (forall num_cycles out, run num_cycles = Ok out ->
     (num_cycles = 1 \/ num_cycles = 2 \/ num_cycles = 3)%Z /\
     Z.of_nat (List.length (timeseries.phase out)) = (num_bins * num_cycles)%Z /\
     List.length (timeseries.flux out) = List.length (timeseries.phase out) /\
     List.length (timeseries.flux_err out)
     = List.length (timeseries.phase out)) /\
  (forall e, run 1%Z = Raise e -> run 2%Z = Raise e /\ run 3%Z = Raise e) /\
  (forall num_cycles,
     num_cycles <> 1%Z -> num_cycles <> 2%Z -> num_cycles <> 3%Z ->
     raises (run num_cycles)).
Proof.
  intros run minus1 plus1.
  split; [intros Hf He Hn Hnorm Href Hp; now apply one_cycle_returns |].
  destruct (bin_phase_folded_data_cases time flux flux_err period
              period_derivative reference_epoch num_bins normalization)
    as [[e0 Hraise] | [rows [Hlen Hrun]]].
  - (* a stage before the replication raises *)
    assert (Hr : forall k, run k = Raise e0) by (intros k; apply Hraise).
    clearbody run.
    split; [| split; [| split]].
    + intros c Hc. rewrite Hr in Hc. discriminate.
    + intros k out Hout. rewrite Hr in Hout. discriminate.
    + intros e He. rewrite Hr in He. rewrite !Hr. now split.
    + intros k _ _ _. now rewrite Hr.
  - destruct rows as [| r rows].
    + (* no rows: every index of a column raises *)
      assert (H1 : run 1%Z = Raise IndexError) by (unfold run; now rewrite Hrun).
      assert (H2 : run 2%Z = Raise IndexError) by (unfold run; now rewrite Hrun).
      assert (H3 : run 3%Z = Raise IndexError) by (unfold run; now rewrite Hrun).
      assert (Hr : forall k, raises (run k)).
      { intros k. unfold run. rewrite Hrun.
        unfold timeseries.replicate_cycles.
        destruct (k =? 1)%Z; [exact I |].
        destruct (k =? 2)%Z; [exact I |].
        destruct (k =? 3)%Z; exact I. }
      clearbody run.
      split; [| split; [| split]].
      * intros c Hc. rewrite H1 in Hc. discriminate.
      * intros k out Hout. specialize (Hr k). rewrite Hout in Hr. destruct Hr.
      * intros e He. rewrite H1 in He. rewrite H2, H3. now split.
      * intros k _ _ _. apply Hr.
    + set (rs := r :: rows) in *.
      assert (Hne : rs <> []) by discriminate.
      assert (Hnb : Z.of_nat (List.length rs) = num_bins).
      { rewrite Hlen. subst rs. simpl in Hlen. lia. }
      assert (H1 : run 1%Z = Ok (curve rs)) by (unfold run; now rewrite Hrun).
      assert (H2 : run 2%Z
                   = Ok (curve (map (fun x => (fsub (timeseries.col0 x) (Fin 1),
                                               timeseries.col1 x,
                                               timeseries.col2 x)) rs ++ rs)))
        by (unfold run; now rewrite Hrun).
      assert (H3 : run 3%Z
                   = Ok (curve (map (fun x => (fsub (timeseries.col0 x) (Fin 1),
                                               timeseries.col1 x,
                                               timeseries.col2 x)) rs ++ rs
                                ++ map (fun x => (fadd (timeseries.col0 x) (Fin 1),
                                                  timeseries.col1 x,
                                                  timeseries.col2 x)) rs)))
        by (unfold run; now rewrite Hrun).
      assert (Hother : forall num_cycles,
                num_cycles <> 1%Z -> num_cycles <> 2%Z -> num_cycles <> 3%Z ->
                run num_cycles
                = Raise (ValueError (timeseries.num_cycles_msg num_cycles))).
      { intros k K1 K2 K3. unfold run.
        now rewrite Hrun, replicate_cycles_other. }
      clearbody run rs.
      split; [| split; [| split]].
      * intros c Hc. rewrite H1 in Hc. injection Hc as <-.
        split; [| split]; [rewrite H2 | rewrite H3 | exact Hother];
          unfold curve, minus1, plus1; cbn [timeseries.phase timeseries.flux
                                            timeseries.flux_err];
          rewrite !map_app, !map_map; reflexivity.
      * intros k out Hout.
        destruct (Z.eq_dec k 1) as [-> | K1];
          [| destruct (Z.eq_dec k 2) as [-> | K2];
             [| destruct (Z.eq_dec k 3) as [-> | K3]]].
        -- rewrite H1 in Hout. injection Hout as <-.
           unfold curve; cbn [timeseries.phase timeseries.flux
                              timeseries.flux_err].
           rewrite !length_map. repeat split; try tauto. unfold timeseries.row in *. lia.
        -- rewrite H2 in Hout. injection Hout as <-.
           unfold curve; cbn [timeseries.phase timeseries.flux
                              timeseries.flux_err].
           rewrite !length_map, !length_app, !length_map.
           repeat split; try tauto. unfold timeseries.row in *. lia.
        -- rewrite H3 in Hout. injection Hout as <-.
           unfold curve; cbn [timeseries.phase timeseries.flux
                              timeseries.flux_err].
           rewrite !length_map, !length_app, !length_map.
           repeat split; try tauto. unfold timeseries.row in *. lia.
        -- rewrite (Hother k K1 K2 K3) in Hout. discriminate.
      * intros e He. rewrite H1 in He. discriminate.
      * intros k K1 K2 K3. now rewrite (Hother k K1 K2 K3).
Qed.

Lemma C4_cycle_replication_witness :
  let run := fun num_cycles =>
    timeseries.bin_phase_folded_data [Fin 0.1; Fin 0.7] [Fin 10; Fin 20]
      [Fin 1; Fin 2] (NpFloat64 (Fin 1)) (PyFloat (Fin 0)) (Some (Fin 0))
      2 num_cycles timeseries.PyFalse in
  exists c,
    run 1%Z = Ok c /\
    List.length (timeseries.phase c) = 2%nat /\
    run 2%Z
    = Ok {| timeseries.phase :=
              map (fun p => fsub p (Fin 1)) (timeseries.phase c)
              ++ timeseries.phase c;
            timeseries.flux := timeseries.flux c ++ timeseries.flux c;
            timeseries.flux_err :=
              timeseries.flux_err c ++ timeseries.flux_err c |} /\
    run 3%Z
    = Ok {| timeseries.phase :=
              map (fun p => fsub p (Fin 1)) (timeseries.phase c)
              ++ timeseries.phase c
              ++ map (fun p => fadd p (Fin 1)) (timeseries.phase c);
            timeseries.flux :=
              timeseries.flux c ++ timeseries.flux c ++ timeseries.flux c;
            timeseries.flux_err :=
              timeseries.flux_err c ++ timeseries.flux_err c
              ++ timeseries.flux_err c |} /\
    run 4%Z = Raise (ValueError (timeseries.num_cycles_msg 4)).
Proof.
  intros run.
  pose proof (@C4_cycle_replication [Fin 0.1; Fin 0.7] [Fin 10; Fin 20]
                [Fin 1; Fin 2] (NpFloat64 (Fin 1)) (PyFloat (Fin 0))
                (Some (Fin 0)) 2 timeseries.PyFalse) as H.
  cbv zeta in H. destruct H as (Hret & Hrep & Hlen & _).
  destruct Hret as [c Hc];
    [reflexivity | reflexivity | lia | reflexivity | discriminate
    | discriminate |].
  destruct (Hrep c Hc) as (H2 & H3 & Hother).
  destruct (Hlen 1%Z c Hc) as (_ & Hn & _).
  exists c. split; [exact Hc |]. split; [lia |].
  split; [exact H2 |]. split; [exact H3 |].
  apply Hother; discriminate.
Defined.

(** ** Normalization (C6) *)

Section Normalization.
Import timeseries.

(** The rows with flux and flux error divided by [norm_factor]. *)
Lemma apply_normalization_truthy (s : string) (binned_lc : list row) :
  s <> EmptyString -> binned_lc <> [] ->
  apply_normalization (PyStr s) binned_lc
  = match List.filter isfinite (map col1 binned_lc) with
    | [] => Raise (ValueError no_valid_flux_msg)
    | valid_flux =>
        match norm_methods (lower s) with
        | None => Raise (ValueError (unknown_normalization_msg s))
        | Some method =>
            norm_factor <- method valid_flux ;;
            Ok (map (fun r => (col0 r, fdiv (col1 r) norm_factor,
                               fdiv (col2 r) norm_factor)) binned_lc)
        end
    end.
Proof.
  intros Hs Hne. unfold apply_normalization, truthy.
  rewrite (proj2 (String.eqb_neq s EmptyString) Hs). cbn [negb].
  destruct binned_lc as [| r rows]; [contradiction |].
  cbn [column bind].
  now destruct (List.filter isfinite (map col1 (r :: rows))).
Qed.

Lemma norm_methods_none (key : string) :
  norm_methods key = None <->
  key <> "median"%string /\ key <> "min"%string /\
  key <> "max"%string /\ key <> "mean"%string.
Proof.
  unfold norm_methods.
  destruct (String.eqb_spec key "median");
    [split; [discriminate | tauto] |].
  destruct (String.eqb_spec key "min"); [split; [discriminate | tauto] |].
  destruct (String.eqb_spec key "max"); [split; [discriminate | tauto] |].
  destruct (String.eqb_spec key "mean"); [split; [discriminate | tauto] |].
  tauto.
Qed.

Lemma norm_min_nonempty (a : list float) :
  a <> [] -> exists m, Np.min a = Ok m.
Proof. destruct a; [contradiction | intros _; eexists; reflexivity]. Qed.

Lemma norm_max_nonempty (a : list float) :
  a <> [] -> exists m, Np.max a = Ok m.
Proof. destruct a; [contradiction | intros _; eexists; reflexivity]. Qed.

End Normalization.

(** C6, as the code has it.  For a truthy [normalization] (a non-empty
    string) and at least one bin: when no binned flux is finite the call
    raises the [ValueError] "No valid flux values for normalization", whatever
    the key; otherwise a key that is not one of median, min, max, mean after
    lowercasing raises the [ValueError] "Unknown normalization method";
    otherwise the flux and flux error of every bin are divided by the
    statistic of the finite fluxes, and the factor is not examined: nothing
    rejects a zero factor.  The exceptions of the stage are those of
    [bin_phase_folded_data]. *)
Theorem C6_normalization_factor_unchecked (s : string)
    (binned_lc : list timeseries.row) :
  s <> EmptyString -> binned_lc <> [] ->
  let valid_flux := List.filter isfinite (map timeseries.col1 binned_lc) in
  let key := timeseries.lower s in
  let r := timeseries.apply_normalization (timeseries.PyStr s) binned_lc in
  let divided := fun norm_factor =>
    map (fun row => (timeseries.col0 row,
                     fdiv (timeseries.col1 row) norm_factor,
                     fdiv (timeseries.col2 row) norm_factor)) binned_lc in
  (valid_flux = [] -> r = Raise (ValueError timeseries.no_valid_flux_msg)) /\
  (valid_flux <> [] ->
     (key <> "median"%string /\ key <> "min"%string /\
      key <> "max"%string /\ key <> "mean"%string ->
      r = Raise (ValueError (timeseries.unknown_normalization_msg s))) /\
     (key = "median"%string -> r = Ok (divided (Np.median valid_flux))) /\
     (key = "min"%string ->
      exists m, Np.min valid_flux = Ok m /\ r = Ok (divided m)) /\
     (key = "max"%string ->
      exists m, Np.max valid_flux = Ok m /\ r = Ok (divided m)) /\
     (key = "mean"%string -> r = Ok (divided (Np.mean valid_flux)))) /\
  (forall time flux flux_err period period_derivative reference_epoch
          num_bins num_cycles phases,
     timeseries.phase_fold time period period_derivative reference_epoch
     = Ok phases ->
     timeseries.bin_loop phases flux flux_err num_bins = Ok binned_lc ->
     timeseries.bin_phase_folded_data time flux flux_err period
       period_derivative reference_epoch num_bins num_cycles
       (timeseries.PyStr s)
     = (normalized <- r ;;
        replicated <- timeseries.replicate_cycles num_cycles normalized ;;
        timeseries.as_dict replicated)).
Proof.
  intros Hs Hne valid_flux key r divided.
  assert (Hr : r = match valid_flux with
                   | [] => Raise (ValueError timeseries.no_valid_flux_msg)
                   | _ :: _ =>
                       match timeseries.norm_methods key with
                       | None =>
                           Raise (ValueError
                                    (timeseries.unknown_normalization_msg s))
                       | Some method =>
                           norm_factor <- method valid_flux ;;
                           Ok (divided norm_factor)
                       end
                   end).
  { unfold r. rewrite apply_normalization_truthy by assumption.
    unfold valid_flux.
    destruct (List.filter isfinite (map timeseries.col1 binned_lc));
      reflexivity. }
  split; [| split].
  - intros Hv. now rewrite Hr, Hv.
  - intros Hv.
    assert (Hr' : r = match timeseries.norm_methods key with
                      | None =>
                          Raise (ValueError
                                   (timeseries.unknown_normalization_msg s))
                      | Some method =>
                          norm_factor <- method valid_flux ;;
                          Ok (divided norm_factor)
                      end).
    { rewrite Hr. destruct valid_flux; [contradiction | reflexivity]. }
    clear Hr. repeat split.
    + intros Hkey%norm_methods_none. now rewrite Hr', Hkey.
    + intros Hkey. now rewrite Hr', Hkey.
    + intros Hkey. destruct (norm_min_nonempty Hv) as [m Hm].
      exists m. split; [exact Hm |]. rewrite Hr', Hkey.
      cbn [timeseries.norm_methods String.eqb Ascii.eqb Bool.eqb].
      now rewrite Hm.
    + intros Hkey. destruct (norm_max_nonempty Hv) as [m Hm].
      exists m. split; [exact Hm |]. rewrite Hr', Hkey.
      cbn [timeseries.norm_methods String.eqb Ascii.eqb Bool.eqb].
      now rewrite Hm.
    + intros Hkey. now rewrite Hr', Hkey.
  - intros time flux flux_err period period_derivative reference_epoch
           num_bins num_cycles phases Hp Hl.
    unfold timeseries.bin_phase_folded_data. rewrite Hp. cbn [bind].
    now rewrite Hl.
Qed.

Lemma C6_normalization_factor_unchecked_witness :
  timeseries.apply_normalization (timeseries.PyStr "Mean")
                                 [(Fin 0.5, Fin 0, Fin 1)]
  = Ok [(Fin 0.5, fdiv (Fin 0) (Np.mean [Fin 0]),
         fdiv (Fin 1) (Np.mean [Fin 0]))].
Proof.
  assert (Hs : "Mean"%string <> EmptyString) by discriminate.
  assert (Hne : [(Fin 0.5, Fin 0, Fin 1)] <> []) by discriminate.
  destruct (@C6_normalization_factor_unchecked "Mean" [(Fin 0.5, Fin 0, Fin 1)]
              Hs Hne)
    as (_ & Hvalid & _).
  assert (Hv : List.filter isfinite
                 (map timeseries.col1 [(Fin 0.5, Fin 0, Fin 1)]) <> [])
    by discriminate.
  destruct (Hvalid Hv) as (_ & _ & _ & _ & Hmean).
  exact (Hmean eq_refl).
Defined.

(** A single observation of flux 0 and error 1, one bin. *)
Lemma single_zero_flux_bin :
  binned 1 (observations [Fin (folded_phase 1 (0 - 0))] [Fin 0] [Fin 1])
  = [(Fin 0.5, Fin 0, Fin 1)].
Proof.
  rewrite Rminus_diag, folded_phase_0 by lra.
  unfold binned, bin_stat, members, observations. cbn [seq map combine List.filter].
  unfold in_bin, valid, obs_phase, obs_flux, obs_err, midpoint, edge.
  cbn [fst snd fle flt isfinite INR]. Rdecide. cbn [andb].
  unfold weighted_mean, weighted_error, weight, obs_flux, obs_err.
  cbn [fst snd map real Rsum fold_right].
  repeat f_equal; try lra.
  replace (1 / (1 / (1 * 1) + 0))%R with 1%R by lra. apply sqrt_1.
Qed.

(** Counterexample to C6: all binned fluxes are zero, the mean is zero, and
    the call returns a curve of [nan] and [inf] instead of raising. *)
Lemma C6_zero_factor_not_rejected :
  timeseries.bin_phase_folded_data [Fin 0] [Fin 0] [Fin 1]
    (NpFloat64 (Fin 1)) (PyFloat (Fin 0)) (Some (Fin 0)) 1 1
    (timeseries.PyStr "mean")
  = Ok {| timeseries.phase := [Fin 0.5];
          timeseries.flux := [NaN];
          timeseries.flux_err := [PInf] |}.
Proof.
  unfold timeseries.bin_phase_folded_data.
  change [Fin 0] with (map Fin [0%R]) at 1.
  rewrite (@phase_fold_finite [0%R] (NpFloat64 (Fin 1)) (PyFloat (Fin 0))
             1%R 0%R) by (try reflexivity; lra).
  cbn [bind map].
  rewrite bin_loop_spec by (try reflexivity; lia).
  change (Z.to_nat 1) with 1%nat. rewrite single_zero_flux_bin. cbn [bind].
  rewrite apply_normalization_truthy by discriminate.
  cbn [map timeseries.col1 fst snd List.filter isfinite].
  assert (Hmean : Np.mean [Fin 0] = Fin 0).
  { unfold Np.mean, Np.sum. cbn [fold_left fadd List.length INR fdiv].
    Rdecide. f_equal. lra. }
  change (timeseries.norm_methods (timeseries.lower "mean"))
    with (Some (fun a : list float => Ok (Np.mean a))).
  cbn [bind]. rewrite Hmean.
  cbn [map timeseries.col0 timeseries.col1 timeseries.col2 fst snd fdiv].
  Rdecide.
  reflexivity.
Qed.

(** ** The period catalog (C10) *)

Section Catalog.

Lemma load_catalog_per_day (files : result (list (result bls.DataFrame)))
    (df : bls.DataFrame) :
  bls.load_catalog files = Ok df ->
  forall r, In r df -> bls.per_day r = fdiv (bls.per_min r) (Fin 1440).
Proof.
  unfold bls.load_catalog. intros H r Hr.
  destruct files as [e | fs]; cbn [bind] in H; [discriminate |].
  destruct (Np.for_each _ fs) as [e | dfs]; cbn [bind] in H; [discriminate |].
  destruct (bls.concat dfs) as [e | rows]; cbn [bind] in H; [discriminate |].
  injection H as <-. apply in_map_iff in Hr as (r0 & <- & _). reflexivity.
Qed.

Lemma loaded_per_day (_catalog : option bls.DataFrame) (df : bls.DataFrame) :
  loaded _catalog -> _catalog = Some df ->
  forall r, In r df -> bls.per_day r = fdiv (bls.per_min r) (Fin 1440).
Proof.
  intros Hl ->. destruct Hl as [files Hfiles].
  now apply (load_catalog_per_day files).
Qed.

(** What [get_catalog] returns was loaded, and so is the cache it leaves. *)
Lemma get_catalog_loaded (files : result (list (result bls.DataFrame)))
    (_catalog cache' : option bls.DataFrame) (df : bls.DataFrame) :
  loaded _catalog ->
  bls.get_catalog files _catalog = (Ok df, cache') ->
  cache' = Some df /\ loaded cache'.
Proof.
  unfold bls.get_catalog. intros Hl H.
  destruct _catalog as [df0 |].
  - injection H as <- <-. now split.
  - destruct (bls.load_catalog files) as [e | df1] eqn:Hload; [discriminate |].
    injection H as <- <-. split; [reflexivity |]. now exists files.
Qed.

Lemma loc_rows (df : bls.DataFrame) (source_id : Z) :
  match bls.loc df source_id with
  | bls.Series r => In r df /\ bls.gid r = source_id
  | bls.Frame rows => forall r, In r rows -> In r df /\ bls.gid r = source_id
  end.
Proof.
  unfold bls.loc.
  assert (H : forall r, In r (List.filter (bls.has_gid source_id) df) ->
                        In r df /\ bls.gid r = source_id).
  { intros r Hr. apply filter_In in Hr as [Hin Hg]. split; [exact Hin |].
    now apply Z.eqb_eq. }
  destruct (List.filter (bls.has_gid source_id) df) as [| r [| r' rows]];
    [exact H | | exact H].
  apply H. now left.
Qed.

Lemma for_each_overwrite (g : bls.row -> float)
    (fs : list (result bls.DataFrame)) :
  Np.for_each (fun read_csv => read_csv)
    (map (fun f => match f with
                   | Raise e => Raise e
                   | Ok df => Ok (map (fun r => bls.set_per_day r (g r)) df)
                   end) fs)
  = match Np.for_each (fun read_csv => read_csv) fs with
    | Raise e => Raise e
    | Ok dfs => Ok (map (map (fun r => bls.set_per_day r (g r))) dfs)
    end.
Proof.
  induction fs as [| f fs IH]; [reflexivity |].
  cbn [map Np.for_each]. destruct f as [e | df]; cbn [bind]; [reflexivity |].
  rewrite IH. now destruct (Np.for_each _ fs).
Qed.

(** The values stored in the [per_day] column do not reach the catalog. *)
Lemma load_catalog_overwrite (g : bls.row -> float)
    (files : result (list (result bls.DataFrame))) :
  bls.load_catalog (overwrite_per_day g files) = bls.load_catalog files.
Proof.
  unfold bls.load_catalog, overwrite_per_day.
  destruct files as [e | fs]; cbn [bind]; [reflexivity |].
  rewrite for_each_overwrite.
  destruct (Np.for_each _ fs) as [e | dfs]; cbn [bind]; [reflexivity |].
  destruct dfs as [| d dfs]; [reflexivity |].
  cbn [map bls.concat bind]. f_equal.
  change (map (fun r => bls.set_per_day r (g r)) d
          :: map (map (fun r => bls.set_per_day r (g r))) dfs)
    with (map (map (fun r => bls.set_per_day r (g r))) (d :: dfs)).
  generalize (d :: dfs) as l. intros l.
  rewrite !concat_map, map_map. f_equal.
  apply map_ext. intros x. rewrite map_map. now apply map_ext.
Qed.

End Catalog.

(** C10.  Whatever [get_bls_stats] returns for a source of the catalog -- one
    row, or all the rows of the source when it is listed several times -- has
    the [gid] asked for and [per_day = per_min / 1440], and the cache stays a
    loaded catalog.  The [per_day] values stored in the files are never used:
    other values there give the same results.  [read_bin_lightcurve] of
    [io.py] folds with that [per_day], hence with [per_min / 1440]. *)
Theorem C10_per_day_from_per_min
    (result_files : result (list (result bls.DataFrame))) (source_id : Z)
    (_catalog : option bls.DataFrame) :
  loaded _catalog ->
  (forall stats cache',
     bls.get_bls_stats result_files source_id _catalog
     = (Ok (Some stats), cache') ->
     loaded cache' /\
     match stats with
     | bls.Series r =>
         bls.gid r = source_id /\
         bls.per_day r = fdiv (bls.per_min r) (Fin 1440)
     | bls.Frame rows =>
         forall r, In r rows ->
           bls.gid r = source_id /\
           bls.per_day r = fdiv (bls.per_min r) (Fin 1440)
     end) /\
  (forall g,
     bls.get_bls_stats (overwrite_per_day g result_files) source_id _catalog
     = bls.get_bls_stats result_files source_id _catalog) /\
  (forall (Table : Type) (read_csv : Z -> result Table)
          (extract : Table -> result lightcurve.lc_data) frame_case
          num_bins num_cycles normalization lc r cache',
     io.read_lightcurve read_csv extract source_id = Ok (Some lc) ->
     bls.get_bls_stats result_files source_id _catalog
     = (Ok (Some (bls.Series r)), cache') ->
     io.read_bin_lightcurve read_csv extract result_files frame_case
       source_id num_bins num_cycles normalization _catalog
     = (binned_data <-
          timeseries.bin_phase_folded_data
            (lightcurve.time lc) (lightcurve.flux lc) (lightcurve.flux_err lc)
            (NpFloat64 (fdiv (bls.per_min r) (Fin 1440))) (PyFloat (Fin 0))
            (Some (bls.epo r)) num_bins num_cycles normalization ;;
        Ok (Some binned_data), cache')).
Proof.
  intros Hl.
  assert (Hstats : forall stats cache',
     bls.get_bls_stats result_files source_id _catalog
     = (Ok (Some stats), cache') ->
     loaded cache' /\
     match stats with
     | bls.Series r =>
         bls.gid r = source_id /\
         bls.per_day r = fdiv (bls.per_min r) (Fin 1440)
     | bls.Frame rows =>
         forall r, In r rows ->
           bls.gid r = source_id /\
           bls.per_day r = fdiv (bls.per_min r) (Fin 1440)
     end).
  { intros stats cache'. unfold bls.get_bls_stats.
    destruct (bls.get_catalog result_files _catalog) as [[e | df] c] eqn:Hcat;
      [discriminate |].
    destruct (get_catalog_loaded result_files _catalog Hl Hcat) as [Hc Hlc].
    destruct (bls.in_index source_id df); [| discriminate].
    intros [= <- <-]. split; [exact Hlc |].
    pose proof (loaded_per_day Hlc Hc) as Hpd.
    pose proof (loc_rows df source_id) as Hrows.
    destruct (bls.loc df source_id) as [r | rows].
    - destruct Hrows as [Hin Hg]. split; [exact Hg | now apply Hpd].
    - intros r Hr. destruct (Hrows r Hr) as [Hin Hg].
      split; [exact Hg | now apply Hpd]. }
  split; [exact Hstats | split].
  - intros g. unfold bls.get_bls_stats, bls.get_catalog.
    now rewrite load_catalog_overwrite.
  - intros Table read_csv extract frame_case num_bins num_cycles normalization
           lc r cache' Hlc Hbls.
    destruct (Hstats _ _ Hbls) as [_ [_ Hpd]].
    unfold io.read_bin_lightcurve. rewrite Hlc, Hbls. now rewrite Hpd.
Qed.

Lemma C10_per_day_from_per_min_witness :
  let stored := {| bls.gid := 7; bls.pow := Fin 1; bls.snr := Fin 9;
                   bls.wid := Fin 3; bls.per_day := Fin 99;
                   bls.per_min := Fin 2880; bls.q := Fin 0;
                   bls.phi0 := Fin 0; bls.dphi := Fin 0;
                   bls.epo := Fin 58000 |} in
  exists r cache',
    bls.get_bls_stats (Ok [Ok [stored]]) 7 None
    = (Ok (Some (bls.Series r)), cache') /\
    bls.per_day r = fdiv (Fin 2880) (Fin 1440).
Proof.
  intros stored.
  destruct (@C10_per_day_from_per_min (Ok [Ok [stored]]) 7 None I)
    as [Hstats _].
  eexists. eexists. split; [reflexivity |].
  destruct (Hstats _ _ eq_refl) as [_ [_ Hpd]]. exact Hpd.
Defined.

(** ** Missing data in the reducer (C7) *)

Section Missing.

Variable Table : Type.
Variable read_csv : Z -> result Table.
Variable extract : Table -> result lightcurve.lc_data.
Variable result_files : result (list (result bls.DataFrame)).

(** A source that is not in the catalog has no statistics: [get_bls_stats]
    returns [None]. *)
Lemma get_bls_stats_absent (source_id : Z) (_catalog cache' : option bls.DataFrame)
    (df : bls.DataFrame) :
  bls.get_catalog result_files _catalog = (Ok df, cache') ->
  (forall r, In r df -> bls.gid r <> source_id) ->
  bls.get_bls_stats result_files source_id _catalog = (Ok None, cache').
Proof.
  intros Hcat Habs. unfold bls.get_bls_stats. rewrite Hcat.
  assert (Hidx : bls.in_index source_id df = false).
  { unfold bls.in_index. apply not_true_is_false. intros H.
    apply existsb_exists in H as (r & Hin & Hg).
    apply Z.eqb_eq in Hg. now apply (Habs r Hin). }
  now rewrite Hidx.
Qed.

(** Both copies of the reducer return [None] when the light curve is there
    and the catalog has no period (and none is passed). *)
Lemma read_bin_lightcurve_no_period frame_case frame_case'
    (source_id num_bins num_cycles : Z) (normalization : timeseries.norm_arg)
    (reference_epoch : option float) (_catalog cache' : option bls.DataFrame)
    (df : Table) (lc : lightcurve.lc_data) :
  read_csv source_id = Ok df -> extract df = Ok lc ->
  bls.get_bls_stats result_files source_id _catalog = (Ok None, cache') ->
  io.read_bin_lightcurve read_csv extract result_files frame_case source_id
    num_bins num_cycles normalization _catalog = (Ok None, cache') /\
  io_checkpoint.read_bin_lightcurve read_csv extract result_files frame_case'
    source_id num_bins num_cycles normalization None reference_epoch _catalog
  = (Ok None, cache').
Proof.
  intros Hcsv Hext Hbls.
  unfold io.read_bin_lightcurve, io.read_lightcurve,
    io_checkpoint.read_bin_lightcurve, io_checkpoint.read_lightcurve.
  rewrite Hcsv. cbn [bind]. rewrite Hext. cbn [bind]. now rewrite Hbls.
Qed.

End Missing.

(** C7 at the failing input.  When the light-curve file of the source is
    missing, [pd.read_csv] raises [FileNotFoundError]; [read_lightcurve] of
    [io.py] does not catch it, so [read_bin_lightcurve] of [io.py] raises,
    and its test [lc_data is None] is never reached.  The copy in
    [io-checkpoint.py] catches the exception and returns [None]. *)
Theorem C7_missing_light_curve_raises (Table : Type)
    (read_csv : Z -> result Table)
    (extract : Table -> result lightcurve.lc_data)
    (result_files : result (list (result bls.DataFrame)))
    frame_case frame_case'
    (source_id num_bins num_cycles : Z) (normalization : timeseries.norm_arg)
    (period : option scalar) (reference_epoch : option float)
    (_catalog : option bls.DataFrame) :
  read_csv source_id = Raise FileNotFoundError ->
  io.read_bin_lightcurve read_csv extract result_files frame_case source_id
    num_bins num_cycles normalization _catalog
  = (Raise FileNotFoundError, _catalog) /\
  io_checkpoint.read_bin_lightcurve read_csv extract result_files frame_case'
    source_id num_bins num_cycles normalization period reference_epoch _catalog
  = (Ok None, _catalog).
Proof.
  intros Hcsv.
  unfold io.read_bin_lightcurve, io.read_lightcurve,
    io_checkpoint.read_bin_lightcurve, io_checkpoint.read_lightcurve.
  now rewrite Hcsv.
Qed.

Lemma C7_missing_light_curve_raises_witness :
  io.read_bin_lightcurve (fun _ : Z => @Raise unit FileNotFoundError)
    (fun _ => Raise IndexError) (Ok []) (fun _ _ _ _ _ => Raise IndexError)
    42 500 3 timeseries.PyFalse None
  = (Raise FileNotFoundError, None) /\
  io_checkpoint.read_bin_lightcurve (fun _ : Z => @Raise unit FileNotFoundError)
    (fun _ => Raise IndexError) (Ok []) (fun _ _ _ _ _ => Raise IndexError)
    42 500 3 timeseries.PyFalse None None None
  = (Ok None, None).
Proof.
  apply (@C7_missing_light_curve_raises unit
           (fun _ : Z => @Raise unit FileNotFoundError)
           (fun _ => Raise IndexError) (Ok [])
           (fun _ _ _ _ _ => Raise IndexError)
           (fun _ _ _ _ _ => Raise IndexError)
           42 500 3 timeseries.PyFalse None None None eq_refl).
Defined.

(** ** A band without observations (C8) *)

Section EmptyBand.
Import timeseries.

Lemma phase_fold_epoch_ok (time : list float) (period : scalar) (e : float) :
  period <> PyFloat (Fin 0) ->
  exists phases,
    phase_fold time period (PyFloat (Fin 0)) (Some e) = Ok phases /\
    List.length phases = List.length time.
Proof.
  intros Hp.
  assert (H : exists c, scalar_truediv
                          (scalar_mul (PyFloat (Fin 0.5)) (PyFloat (Fin 0)))
                          period = Ok c).
  { destruct period as [x | x]; [| eexists; reflexivity].
    destruct x as [r | | |]; try (eexists; reflexivity).
    cbn [scalar_mul scalar_truediv].
    destruct (Reqb r 0) eqn:Hr; [| eexists; reflexivity].
    apply Reqb_true in Hr. now subst r. }
  destruct H as [c Hc]. unfold phase_fold. cbn [bind]. rewrite Hc. cbn [bind].
  eexists. split; [reflexivity |]. now rewrite !length_map.
Qed.

Lemma replicate_cycles_ok (num_cycles : Z) (rows : list row)
    (P : float -> float -> Prop) :
  rows <> [] ->
  (num_cycles = 1 \/ num_cycles = 2 \/ num_cycles = 3)%Z ->
  Forall (fun r => P (col1 r) (col2 r)) rows ->
  exists rows',
    replicate_cycles num_cycles rows = Ok rows' /\
    rows' <> [] /\
    List.length rows' = (List.length rows * Z.to_nat num_cycles)%nat /\
    Forall (fun r => P (col1 r) (col2 r)) rows'.
Proof.
  intros Hne Hk HP.
  assert (Hshift : forall g : float -> float,
            Forall (fun r => P (col1 r) (col2 r))
                   (map (fun r => (g (col0 r), col1 r, col2 r)) rows)).
  { intros g. apply Forall_map. exact HP. }
  destruct rows as [| r rows]; [contradiction |].
  destruct Hk as [-> | [-> | ->]].
  - exists (r :: rows). repeat split; trivial.
    change (Z.to_nat 1) with 1%nat. lia.
  - eexists. split; [reflexivity |]. split; [discriminate |]. split.
    + rewrite length_app, length_map. change (Z.to_nat 2) with 2%nat. lia.
    + apply Forall_app.
      split; [apply (Hshift (fun p => fsub p (Fin 1))) | exact HP].
  - eexists. split; [reflexivity |]. split; [discriminate |]. split.
    + rewrite !length_app, !length_map. change (Z.to_nat 3) with 3%nat. lia.
    + apply Forall_app.
      split; [apply (Hshift (fun p => fsub p (Fin 1))) |].
      apply Forall_app.
      split; [exact HP | apply (Hshift (fun p => fadd p (Fin 1)))].
Qed.

Lemma binned_nil_nan (n : nat) :
  Forall (fun r => col1 r = NaN /\ col2 r = NaN) (binned n []).
Proof.
  unfold binned. apply Forall_map, Forall_forall. intros i _.
  unfold bin_stat, members. cbn [List.filter]. now split.
Qed.

(** Without normalization and with a known epoch the call returns, and for
    empty arrays every flux and flux error is [nan]. *)
Lemma bin_phase_folded_data_unnormalized (time flux flux_err : list float)
    (period : scalar) (e : float) (num_bins num_cycles : Z)
    (normalization : norm_arg) :
  List.length flux = List.length time ->
  List.length flux_err = List.length time ->
  period <> PyFloat (Fin 0) ->
  (0 < num_bins)%Z ->
  truthy normalization = false ->
  (num_cycles = 1 \/ num_cycles = 2 \/ num_cycles = 3)%Z ->
  exists out,
    bin_phase_folded_data time flux flux_err period (PyFloat (Fin 0)) (Some e)
                          num_bins num_cycles normalization = Ok out /\
    Z.of_nat (List.length (timeseries.phase out)) = (num_bins * num_cycles)%Z /\
    List.length (timeseries.flux out) = List.length (timeseries.phase out) /\
    List.length (timeseries.flux_err out) = List.length (timeseries.phase out) /\
    (time = [] ->
     Forall (fun x => x = NaN) (timeseries.flux out) /\
     Forall (fun x => x = NaN) (timeseries.flux_err out)).
Proof.
  intros Hf He Hp Hn Hnorm Hk.
  destruct (phase_fold_epoch_ok time e Hp) as (phases & Hfold & Hlen).
  unfold bin_phase_folded_data. rewrite Hfold. cbn [bind].
  rewrite bin_loop_spec by (try lia; congruence). cbn [bind].
  unfold apply_normalization. rewrite Hnorm. cbn [bind].
  set (l := observations phases flux flux_err).
  set (n := Z.to_nat num_bins).
  assert (Hne : binned n l <> []) by (apply binned_nonempty; lia).
  assert (Hnan : time = [] ->
                 Forall (fun r => col1 r = NaN /\ col2 r = NaN) (binned n l)).
  { intros ->. destruct phases; [| discriminate]. apply binned_nil_nan. }
  assert (Hrep : forall P : float -> float -> Prop,
            Forall (fun r => P (col1 r) (col2 r)) (binned n l) ->
            exists rows',
              replicate_cycles num_cycles (binned n l) = Ok rows' /\
              rows' <> [] /\
              List.length rows' = (n * Z.to_nat num_cycles)%nat /\
              Forall (fun r => P (col1 r) (col2 r)) rows').
  { intros P HP.
    destruct (replicate_cycles_ok P Hne Hk HP) as (rows' & H1 & H2 & H3 & H4).
    exists rows'. repeat split; trivial. now rewrite H3, binned_length. }
  destruct (Hrep (fun _ _ => True)) as (rows' & Hrows' & Hne' & Hlen' & _).
  { apply Forall_forall. trivial. }
  rewrite Hrows'. cbn [bind]. rewrite (as_dict_curve Hne').
  exists (curve rows'). split; [reflexivity |].
  unfold curve. cbn [timeseries.phase timeseries.flux timeseries.flux_err].
  rewrite !length_map.
  split; [| split; [reflexivity | split; [reflexivity |]]].
  - rewrite Hlen'. subst n. destruct Hk as [-> | [-> | ->]]; lia.
  - intros Ht.
    destruct (Hrep (fun a b => a = NaN /\ b = NaN) (Hnan Ht))
      as (rows'' & Hrows'' & _ & _ & Hall).
    rewrite Hrows' in Hrows''. injection Hrows'' as <-.
    split; apply Forall_map; (eapply Forall_impl; [| exact Hall]);
      intros r [H1 H2]; assumption.
Qed.

End EmptyBand.

Section Bands.
Import timeseries.

Lemma getitem_mask_ok (A : Type) (a : list A) (mask : list bool) :
  List.length a = List.length mask ->
  Np.getitem_mask a mask = Ok (Np.compress mask a).
Proof.
  intros H. unfold Np.getitem_mask. now rewrite H, Nat.eqb_refl.
Qed.

Lemma compress_length_eq (A B : Type) (mask : list bool) (a : list A)
    (b : list B) :
  List.length a = List.length mask -> List.length b = List.length mask ->
  List.length (Np.compress mask a) = List.length (Np.compress mask b).
Proof.
  revert a b. induction mask as [| m mask IH]; intros [| x a] [| y b];
    simpl; intros Ha Hb; try discriminate; [reflexivity |].
  injection Ha as Ha. injection Hb as Hb.
  destruct m; simpl; [f_equal |]; now apply IH.
Qed.

Lemma compress_eq_mask_absent (A : Type) (labels : list string)
    (band : string) (a : list A) :
  (forall s, In s labels -> s <> band) ->
  Np.compress (lightcurve.eq_mask labels band) a = [].
Proof.
  revert a. induction labels as [| s labels IH]; intros a H; [reflexivity |].
  destruct a as [| x a]; [reflexivity |].
  cbn [lightcurve.eq_mask map Np.compress].
  rewrite (proj2 (String.eqb_neq s band) (H s (or_introl eq_refl))).
  apply IH. intros s' Hs'. apply H. now right.
Qed.

(** The two binning calls of the reducer, without normalization. *)
Lemma bin_bands_unnormalized (lc : lightcurve.lc_data) (period : scalar) (e : float)
    (num_bins num_cycles : Z) (normalization : norm_arg) :
  List.length (lightcurve.time lc) = List.length (lightcurve.filter lc) ->
  List.length (lightcurve.flux lc) = List.length (lightcurve.filter lc) ->
  List.length (lightcurve.flux_err lc) = List.length (lightcurve.filter lc) ->
  period <> PyFloat (Fin 0) ->
  (0 < num_bins)%Z ->
  truthy normalization = false ->
  (num_cycles = 1 \/ num_cycles = 2 \/ num_cycles = 3)%Z ->
  exists binned_c binned_o,
    io_checkpoint.bin_bands lc period (Some e) num_bins num_cycles normalization
    = Ok [("c"%string, binned_c); ("o"%string, binned_o)] /\
    forall band out,
      In (band, out) [("c"%string, binned_c); ("o"%string, binned_o)] ->
      Z.of_nat (List.length (phase out)) = (num_bins * num_cycles)%Z /\
      List.length (flux out) = List.length (phase out) /\
      List.length (flux_err out) = List.length (phase out) /\
      ((forall s, In s (lightcurve.filter lc) -> s <> band) ->
       Forall (fun x => x = NaN) (flux out) /\
       Forall (fun x => x = NaN) (flux_err out)).
Proof.
  intros Ht Hf He Hp Hn Hnorm Hk.
  assert (Hband : forall band,
    exists out,
      (time_b <- Np.getitem_mask (lightcurve.time lc)
                   (lightcurve.eq_mask (lightcurve.filter lc) band) ;;
       flux_b <- Np.getitem_mask (lightcurve.flux lc)
                   (lightcurve.eq_mask (lightcurve.filter lc) band) ;;
       flux_err_b <- Np.getitem_mask (lightcurve.flux_err lc)
                       (lightcurve.eq_mask (lightcurve.filter lc) band) ;;
       bin_phase_folded_data time_b flux_b flux_err_b period (PyFloat (Fin 0))
         (Some e) num_bins num_cycles normalization) = Ok out /\
      Z.of_nat (List.length (phase out)) = (num_bins * num_cycles)%Z /\
      List.length (flux out) = List.length (phase out) /\
      List.length (flux_err out) = List.length (phase out) /\
      ((forall s, In s (lightcurve.filter lc) -> s <> band) ->
       Forall (fun x => x = NaN) (flux out) /\
       Forall (fun x => x = NaN) (flux_err out))).
  { intros band.
    set (mask := lightcurve.eq_mask (lightcurve.filter lc) band).
    assert (Hm : List.length mask = List.length (lightcurve.filter lc))
      by apply length_map.
    rewrite !getitem_mask_ok by congruence. cbn [bind].
    destruct (@bin_phase_folded_data_unnormalized
                (Np.compress mask (lightcurve.time lc))
                (Np.compress mask (lightcurve.flux lc))
                (Np.compress mask (lightcurve.flux_err lc))
                period e num_bins num_cycles normalization)
      as (out & Hout & H1 & H2 & H3 & H4); trivial;
      try (apply compress_length_eq; congruence).
    exists out. repeat split; trivial.
    - apply H4. now apply compress_eq_mask_absent.
    - apply H4. now apply compress_eq_mask_absent. }
  destruct (Hband "c"%string) as (bc & Hc & Pc).
  destruct (Hband "o"%string) as (bo & Ho & Po).
  exists bc, bo. split.
  - unfold io_checkpoint.bin_bands.
    destruct (Np.getitem_mask (lightcurve.time lc) _) as [x | tc];
      cbn [bind] in Hc |- *; [discriminate |].
    destruct (Np.getitem_mask (lightcurve.flux lc) _) as [x | fc];
      cbn [bind] in Hc |- *; [discriminate |].
    destruct (Np.getitem_mask (lightcurve.flux_err lc) _) as [x | ec];
      cbn [bind] in Hc |- *; [discriminate |].
    rewrite Hc. cbn [bind].
    destruct (Np.getitem_mask (lightcurve.time lc) _) as [x | to];
      cbn [bind] in Ho |- *; [discriminate |].
    destruct (Np.getitem_mask (lightcurve.flux lc) _) as [x | fo];
      cbn [bind] in Ho |- *; [discriminate |].
    destruct (Np.getitem_mask (lightcurve.flux_err lc) _) as [x | eo];
      cbn [bind] in Ho |- *; [discriminate |].
    now rewrite Ho.
  - intros band out [[= <- <-] | [[= <- <-] | []]]; assumption.
Qed.

End Bands.

(** Counterexample to C8: the source has observations in filter [o] only and
    normalization is requested; the empty band [c] has no finite flux, its
    binning raises, and the reducer returns no mapping at all. *)
Lemma C8_empty_band_normalized_raises :
  let stored := {| bls.gid := 7; bls.pow := Fin 1; bls.snr := Fin 9;
                   bls.wid := Fin 3; bls.per_day := Fin 2;
                   bls.per_min := Fin 2880; bls.q := Fin 0;
                   bls.phi0 := Fin 0; bls.dphi := Fin 0;
                   bls.epo := Fin 58000 |} in
  let lc := {| lightcurve.time := [Fin 58001];
               lightcurve.flux := [Fin 10];
               lightcurve.flux_err := [Fin 1];
               lightcurve.filter := ["o"%string];
               lightcurve.ra := Fin 10; lightcurve.dec := Fin 20 |} in
  fst (io_checkpoint.read_bin_lightcurve
         (fun _ : Z => Ok tt) (fun _ : unit => Ok lc) (Ok [Ok [stored]])
         (fun _ _ _ _ _ => Raise IndexError)
         7 2 3 (timeseries.PyStr "median") None None None)
  = Raise (ValueError timeseries.no_valid_flux_msg).
Proof. reflexivity. Qed.

(** C8, as the code has it.  The light curve is read, its arrays have one
    length, one of the bands [c], [o] has no observation, normalization is
    off, there is at least one bin, [num_cycles] is 1, 2 or 3, and period and
    epoch are known: from the single catalog row of the source, or passed
    explicitly (the period not a Python zero) when the catalog has no row.
    Then the reducer returns the mapping with both labels [c] and [o], and
    the curve of the empty band has [num_bins * num_cycles] entries with
    every flux and flux error [nan]. *)
Theorem C8_empty_band_nan_curve (Table : Type) (read_csv : Z -> result Table)
    (extract : Table -> result lightcurve.lc_data)
    (result_files : result (list (result bls.DataFrame))) frame_case
    (source_id num_bins num_cycles : Z) (normalization : timeseries.norm_arg)
    (period : option scalar) (reference_epoch : option float)
    (_catalog cache' : option bls.DataFrame)
    (df : Table) (lc : lightcurve.lc_data) (band : string)
    (bls_data : option bls.loc_result) :
  read_csv source_id = Ok df -> extract df = Ok lc ->
  List.length (lightcurve.time lc) = List.length (lightcurve.filter lc) ->
  List.length (lightcurve.flux lc) = List.length (lightcurve.filter lc) ->
  List.length (lightcurve.flux_err lc) = List.length (lightcurve.filter lc) ->
  (forall s, In s (lightcurve.filter lc) -> s <> band) ->
  timeseries.truthy normalization = false ->
  (0 < num_bins)%Z ->
  (num_cycles = 1 \/ num_cycles = 2 \/ num_cycles = 3)%Z ->
  bls.get_bls_stats result_files source_id _catalog = (Ok bls_data, cache') ->
  match bls_data with
  | Some (bls.Series _) => True
  | Some (bls.Frame _) => False
  | None => exists p e, period = Some p /\ p <> PyFloat (Fin 0) /\
                        reference_epoch = Some e
  end ->
  exists binned_c binned_o,
    io_checkpoint.read_bin_lightcurve read_csv extract result_files frame_case
      source_id num_bins num_cycles normalization period reference_epoch
      _catalog
    = (Ok (Some [("c"%string, binned_c); ("o"%string, binned_o)]), cache') /\
    forall out,
      In (band, out) [("c"%string, binned_c); ("o"%string, binned_o)] ->
      Z.of_nat (List.length (timeseries.phase out))
      = (num_bins * num_cycles)%Z /\
      List.length (timeseries.flux out)
      = List.length (timeseries.phase out) /\
      List.length (timeseries.flux_err out)
      = List.length (timeseries.phase out) /\
      Forall (fun x => x = NaN) (timeseries.flux out) /\
      Forall (fun x => x = NaN) (timeseries.flux_err out).
Proof.
  intros Hcsv Hext Ht Hf He Hband Hnorm Hn Hk Hbls Hper.
  assert (Hbands : forall p e, p <> PyFloat (Fin 0) ->
    exists binned_c binned_o,
      io_checkpoint.bin_bands lc p (Some e) num_bins num_cycles normalization
      = Ok [("c"%string, binned_c); ("o"%string, binned_o)] /\
      forall out,
        In (band, out) [("c"%string, binned_c); ("o"%string, binned_o)] ->
        Z.of_nat (List.length (timeseries.phase out))
        = (num_bins * num_cycles)%Z /\
        List.length (timeseries.flux out)
        = List.length (timeseries.phase out) /\
        List.length (timeseries.flux_err out)
        = List.length (timeseries.phase out) /\
        Forall (fun x => x = NaN) (timeseries.flux out) /\
        Forall (fun x => x = NaN) (timeseries.flux_err out)).
  { intros p e Hp.
    destruct (@bin_bands_unnormalized lc p e num_bins num_cycles normalization)
      as (bc & bo & Hb & Hgood); trivial.
    exists bc, bo. split; [exact Hb |].
    intros out Hin. destruct (Hgood band out Hin) as (H1 & H2 & H3 & H4).
    destruct (H4 Hband) as [H5 H6]. now repeat split. }
  unfold io_checkpoint.read_bin_lightcurve, io_checkpoint.read_lightcurve.
  rewrite Hcsv, Hext. cbn [bind]. rewrite Hbls.
  destruct bls_data as [[r | rows] |].
  - destruct (Hbands (NpFloat64 (bls.per_day r)) (bls.epo r))
      as (bc & bo & Hb & Hgood); [discriminate |].
    exists bc, bo. rewrite Hb. now split.
  - destruct Hper.
  - destruct Hper as (p & e & -> & Hp & ->).
    destruct (Hbands p e Hp) as (bc & bo & Hb & Hgood).
    exists bc, bo. rewrite Hb. now split.
Qed.

Lemma C8_empty_band_nan_curve_witness :
  let stored := {| bls.gid := 7; bls.pow := Fin 1; bls.snr := Fin 9;
                   bls.wid := Fin 3; bls.per_day := Fin 2;
                   bls.per_min := Fin 2880; bls.q := Fin 0;
                   bls.phi0 := Fin 0; bls.dphi := Fin 0;
                   bls.epo := Fin 58000 |} in
  let lc := {| lightcurve.time := [Fin 58001];
               lightcurve.flux := [Fin 10];
               lightcurve.flux_err := [Fin 1];
               lightcurve.filter := ["o"%string];
               lightcurve.ra := Fin 10; lightcurve.dec := Fin 20 |} in
  exists binned_c binned_o cache',
    io_checkpoint.read_bin_lightcurve
      (fun _ : Z => Ok tt) (fun _ : unit => Ok lc) (Ok [Ok [stored]])
      (fun _ _ _ _ _ => Raise IndexError)
      7 2 3 timeseries.PyFalse None None None
    = (Ok (Some [("c"%string, binned_c); ("o"%string, binned_o)]), cache') /\
    List.length (timeseries.flux binned_c) = 6%nat /\
    Forall (fun x => x = NaN) (timeseries.flux binned_c) /\
    Forall (fun x => x = NaN) (timeseries.flux_err binned_c).
Proof.
  intros stored lc.
  assert (Habsent : forall s, In s (lightcurve.filter lc) -> s <> "c"%string).
  { intros s [<- | []]. discriminate. }
  destruct (@C8_empty_band_nan_curve unit
              (fun _ : Z => Ok tt) (fun _ : unit => Ok lc) (Ok [Ok [stored]])
              (fun _ _ _ _ _ => Raise IndexError)
              7 2 3 timeseries.PyFalse None None None _ tt lc "c"%string _
              eq_refl eq_refl eq_refl eq_refl eq_refl Habsent eq_refl
              eq_refl (or_intror (or_intror eq_refl)) eq_refl I)
    as (bc & bo & Hrun & Hgood).
  exists bc, bo. eexists. split; [exact Hrun |].
  destruct (Hgood bc (or_introl eq_refl)) as (H1 & H2 & _ & H4 & H5).
  split; [| now split].
  rewrite H2. apply Nat2Z.inj. rewrite H1. reflexivity.
Defined.

(** * Further properties of the code *)

(** ** [phase_fold] with a period derivative *)

Section PhaseFoldMore.
Open Scope R_scope.
Import timeseries.

(** The constant [0.5 * period_derivative / period] for finite values and a
    non-zero period. *)
Lemma half_pdot_finite (period period_derivative : scalar) (p q : R) :
  value period = Fin p -> p <> 0 -> value period_derivative = Fin q ->
  exists c, scalar_truediv (scalar_mul (PyFloat (Fin 0.5)) period_derivative)
                           period = Ok c /\
            value c = Fin (0.5 * q / p).
Proof.
  intros Hp Hp0 Hq.
  destruct period as [x | x], period_derivative as [y | y];
    simpl in Hp, Hq; subst x y; simpl; rewrite (Reqb_neq Hp0);
    eexists; (split; [reflexivity |]); reflexivity.
Qed.

Lemma phase_fold_quadratic (time : list R) (period period_derivative : scalar)
    (p q t0 : R) :
  value period = Fin p -> p <> 0 -> value period_derivative = Fin q ->
  phase_fold (map Fin time) period period_derivative (Some (Fin t0))
  = Ok (map (fun t => Fin (folded_phase p
                             ((t - t0) - 0.5 * q / p * ((t - t0) * (t - t0)))))
            time).
Proof.
  intros Hp Hp0 Hq. unfold phase_fold. cbn [bind].
  destruct (half_pdot_finite period period_derivative Hp Hp0 Hq) as [c [-> Hc]].
  cbn [bind]. rewrite Hc, Hp. f_equal. rewrite !map_map.
  apply map_ext. intros t. simpl. rewrite (Reqb_neq Hp0).
  unfold folded_phase.
  replace (t + - t0 + - (0.5 * q / p * ((t + - t0) * (t + - t0))))
    with (t - t0 - 0.5 * q / p * ((t - t0) * (t - t0))) by lra.
  simpl. now rewrite (Reqb_neq Hp0).
Qed.

Lemma folded_phase_range (p d : R) : p <> 0 -> 0 <= folded_phase p d < 1.
Proof.
  intros Hp. destruct (Rlt_le_dec 0 p) as [H | H].
  - now apply folded_phase_pos_range.
  - apply folded_phase_neg_range. lra.
Qed.


Lemma fold_Rmin_shift (ts : list R) (t s : R) :
  fold_left Rmin (map (fun u => u + s) ts) (t + s) = fold_left Rmin ts t + s.
Proof.
  revert t. induction ts as [| u ts IH]; intros t; cbn [map fold_left];
    [reflexivity |].
  rewrite <- IH. f_equal. unfold Rmin.
  destruct (Rle_dec (t + s) (u + s)), (Rle_dec t u); lra.
Qed.

End PhaseFoldMore.

(** X1.  For finite times, a finite non-zero period of either sign and any
    finite period derivative, [phase_fold] returns one phase per time, each
    the floored remainder of [dt - 0.5 * (Pdot / P) * dt^2] over the period,
    and each in [[0, 1)]. *)
Theorem phase_fold_range_with_derivative (time : list R)
    (period period_derivative : scalar) (p q : R) (reference_epoch : option R) :
  value period = Fin p -> p <> 0%R ->
  value period_derivative = Fin q ->
  (reference_epoch = None -> time <> []) ->
  exists (t0 : R) (phases : list R),
    match reference_epoch with
    | Some e => t0 = e
    | None => In t0 time /\ forall t, In t time -> (t0 <= t)%R
    end /\
    timeseries.phase_fold (map Fin time) period period_derivative
                          (option_map Fin reference_epoch)
    = Ok (map Fin phases) /\
    phases = map (fun t => folded_phase p
                    ((t - t0) - 0.5 * q / p * ((t - t0) * (t - t0)))%R) time /\
    List.length phases = List.length time /\
    Forall (fun phi => (0 <= phi < 1)%R) phases.
Proof.
  intros Hp Hp0 Hq Href.
  assert (Hmain : forall t0 : R,
    exists phases : list R,
      timeseries.phase_fold (map Fin time) period period_derivative
                            (Some (Fin t0)) = Ok (map Fin phases) /\
      phases = map (fun t => folded_phase p
                      ((t - t0) - 0.5 * q / p * ((t - t0) * (t - t0)))%R) time /\
      List.length phases = List.length time /\
      Forall (fun phi => (0 <= phi < 1)%R) phases).
  { intros t0. eexists. split; [| split; [reflexivity | split]].
    - rewrite (@phase_fold_quadratic time period period_derivative p q t0
                 Hp Hp0 Hq).
      now rewrite map_map.
    - apply length_map.
    - apply Forall_map, Forall_forall. intros t _.
      now apply folded_phase_range. }
  destruct reference_epoch as [e |].
  - exists e. destruct (Hmain e) as (phases & H). exists phases.
    split; [reflexivity | exact H].
  - destruct time as [| t ts]; [now contradiction Href |].
    exists (fold_left Rmin ts t).
    destruct (Hmain (fold_left Rmin ts t)) as (phases & H1 & H2).
    exists phases. split; [| split; [| exact H2]].
    + split; [apply fold_Rmin_In | intros u; apply fold_Rmin_lower].
    + cbn [option_map map]. rewrite phase_fold_default_epoch, fold_fminimum_Fin.
      exact H1.
Qed.

Lemma phase_fold_range_with_derivative_witness :
  exists (t0 : R) (phases : list R),
    (In t0 [3; 1; 2.5]%R /\ forall t, In t [3; 1; 2.5]%R -> (t0 <= t)%R) /\
    timeseries.phase_fold (map Fin [3; 1; 2.5]%R) (PyFloat (Fin (-2)))
                          (NpFloat64 (Fin 0.001)) None
    = Ok (map Fin phases) /\
    List.length phases = 3%nat /\
    Forall (fun phi => (0 <= phi < 1)%R) phases.
Proof.
  destruct (@phase_fold_range_with_derivative [3; 1; 2.5]%R
              (PyFloat (Fin (-2))) (NpFloat64 (Fin 0.001)) (-2)%R 0.001%R None)
    as (t0 & phases & H1 & H2 & _ & H4 & H5);
    [reflexivity | lra | reflexivity | discriminate |].
  exists t0, phases. repeat split; trivial; apply H1.
Defined.

(** X2.  Phases depend on time differences only: adding one constant to
    every (finite) time and to the epoch -- or to every time when the epoch
    defaults to the minimum -- gives the same result, for every period and
    derivative. *)
Theorem phase_fold_translation (time : list R)
    (period period_derivative : scalar) (reference_epoch : option R) (s : R) :
  timeseries.phase_fold (map (fun t => Fin (t + s)) time) period
    period_derivative (option_map (fun e => Fin (e + s)) reference_epoch)
  = timeseries.phase_fold (map Fin time) period period_derivative
      (option_map Fin reference_epoch).
Proof.
  assert (Hsome : forall e : R,
    timeseries.phase_fold (map (fun t => Fin (t + s)) time) period
      period_derivative (Some (Fin (e + s)))
    = timeseries.phase_fold (map Fin time) period period_derivative
        (Some (Fin e))).
  { intros e. unfold timeseries.phase_fold. cbn [bind].
    destruct (scalar_truediv _ period) as [x | c]; cbn [bind]; [reflexivity |].
    f_equal. rewrite !map_map. apply map_ext. intros t.
    assert (Hdt : fsub (Fin (t + s)) (Fin (e + s)) = fsub (Fin t) (Fin e)).
    { simpl. f_equal. lra. }
    now rewrite Hdt. }
  destruct reference_epoch as [e |]; [apply Hsome |].
  destruct time as [| t ts]; [reflexivity |].
  cbn [option_map map]. rewrite !phase_fold_default_epoch.
  replace (map (fun t0 => Fin (t0 + s)) ts)
    with (map Fin (map (fun u => u + s)%R ts)) by now rewrite map_map.
  rewrite !fold_fminimum_Fin, fold_Rmin_shift.
  rewrite map_map. apply (Hsome (fold_left Rmin ts t)).
Qed.



(** ** A [nan] time stamp *)

Section NanTime.
Import timeseries.

Lemma fold_fminimum_from_nan (l : list float) : fold_left fminimum l NaN = NaN.
Proof. induction l as [| y l IH]; [reflexivity | exact IH]. Qed.

Lemma fminimum_nan_r (x : float) : fminimum x NaN = NaN.
Proof. now destruct x. Qed.

(** [np.min] propagates [nan]. *)
Lemma fold_fminimum_nan (l : list float) (x : float) :
  In NaN (x :: l) -> fold_left fminimum l x = NaN.
Proof.
  revert x. induction l as [| y l IH]; intros x [-> | Hin]; cbn [fold_left].
  - reflexivity.
  - destruct Hin.
  - apply fold_fminimum_from_nan.
  - destruct Hin as [-> | Hin].
    + rewrite fminimum_nan_r. apply fold_fminimum_from_nan.
    + apply IH. now right.
Qed.

Lemma phase_fold_nan_epoch (time : list float)
    (period period_derivative : scalar) :
  phase_fold time period period_derivative (Some NaN)
  = (c <- scalar_truediv (scalar_mul (PyFloat (Fin 0.5)) period_derivative)
                         period ;;
     Ok (map (fun _ => NaN) time)).
Proof.
  unfold phase_fold. cbn [bind].
  destruct (scalar_truediv _ period) as [x | c]; cbn [bind]; [reflexivity |].
  f_equal. rewrite map_map. apply map_ext. intros t.
  assert (Hdt : fsub t NaN = NaN) by now destruct t.
  now rewrite Hdt.
Qed.

(** Phases that are all [nan] populate no bin, whatever the other arrays. *)
Lemma bin_loop_nan_phases (phases flux flux_err : list float) (num_bins : Z) :
  (forall p, In p phases -> p = NaN) -> (0 <= num_bins)%Z ->
  bin_loop phases flux flux_err num_bins = Ok (binned (Z.to_nat num_bins) []).
Proof.
  intros Hnan Hn. unfold bin_loop. rewrite (linspace_edges Hn). cbn [bind].
  set (n := Z.to_nat num_bins).
  rewrite (centers_of_edges n).
  unfold Np.enumerate. rewrite length_map, length_seq, combine_map_r.
  unfold binned.
  rewrite (@for_each_ok (nat * float) row _
             (fun ic => (snd ic, NaN, NaN))).
  - rewrite map_map. apply f_equal, map_ext. intros i. reflexivity.
  - intros [i c] _. unfold bin_body.
    assert (Hmask : Np.any (bin_mask phases (nth i
                      (map (fun j => Fin (edge n j)) (seq 0 (S n))) NaN)
                      (nth (i + 1)
                         (map (fun j => Fin (edge n j)) (seq 0 (S n))) NaN))
                    = false).
    { unfold bin_mask. rewrite any_map. apply not_true_is_false. intros H.
      apply existsb_exists in H as (ph & Hin & Hph).
      rewrite (Hnan ph Hin) in Hph. cbn [flt] in Hph.
      rewrite andb_false_r in Hph. discriminate. }
    now rewrite Hmask.
Qed.

(** From the rows of the loop to the returned curve, without normalization. *)
Lemma bin_phase_folded_data_from_rows (time flux flux_err : list float)
    (period period_derivative : scalar) (reference_epoch : option float)
    (num_bins num_cycles : Z) (normalization : norm_arg)
    (phases : list float) (rows : list row) (P : float -> float -> Prop) :
  phase_fold time period period_derivative reference_epoch = Ok phases ->
  bin_loop phases flux flux_err num_bins = Ok rows ->
  rows <> [] ->
  truthy normalization = false ->
  (num_cycles = 1 \/ num_cycles = 2 \/ num_cycles = 3)%Z ->
  Forall (fun r => P (col1 r) (col2 r)) rows ->
  exists rows',
    replicate_cycles num_cycles rows = Ok rows' /\
    bin_phase_folded_data time flux flux_err period period_derivative
      reference_epoch num_bins num_cycles normalization = Ok (curve rows') /\
    List.length rows' = (List.length rows * Z.to_nat num_cycles)%nat /\
    Forall (fun r => P (col1 r) (col2 r)) rows'.
Proof.
  intros Hfold Hloop Hne Hnorm Hk HP.
  destruct (replicate_cycles_ok P Hne Hk HP) as (rows' & H1 & H2 & H3 & H4).
  exists rows'. split; [exact H1 |]. split; [| now split].
  unfold bin_phase_folded_data. rewrite Hfold. cbn [bind]. rewrite Hloop.
  cbn [bind]. unfold apply_normalization. rewrite Hnorm. cbn [bind].
  rewrite H1. cbn [bind]. now apply as_dict_curve.
Qed.

End NanTime.

(** X4.  One [nan] among the times, with the epoch left to default to
    [np.min(time)], makes the epoch [nan] and with it every phase: no
    observation falls in any bin.  Without normalization the call returns a
    curve of [num_bins * num_cycles] entries whose flux and flux error are
    all [nan] (the other arrays are not even indexed); with normalization it
    raises the "No valid flux values" [ValueError]. *)
Theorem nan_time_blanks_the_curve (time flux flux_err : list float)
    (period period_derivative : scalar) (num_bins num_cycles : Z)
    (normalization : timeseries.norm_arg) :
  In NaN time ->
  period <> PyFloat (Fin 0) ->
  (0 < num_bins)%Z ->
  (num_cycles = 1 \/ num_cycles = 2 \/ num_cycles = 3)%Z ->
  timeseries.phase_fold time period period_derivative None
  = Ok (map (fun _ => NaN) time) /\
  (timeseries.truthy normalization = false ->
   exists out,
     timeseries.bin_phase_folded_data time flux flux_err period
       period_derivative None num_bins num_cycles normalization = Ok out /\
     Z.of_nat (List.length (timeseries.flux out)) = (num_bins * num_cycles)%Z /\
     Forall (fun x => x = NaN) (timeseries.flux out) /\
     Forall (fun x => x = NaN) (timeseries.flux_err out)) /\
  (timeseries.truthy normalization = true ->
   timeseries.bin_phase_folded_data time flux flux_err period
     period_derivative None num_bins num_cycles normalization
   = Raise (ValueError timeseries.no_valid_flux_msg)).
Proof.
  intros Hin Hp Hn Hk.
  assert (Hfold : timeseries.phase_fold time period period_derivative None
                  = Ok (map (fun _ => NaN) time)).
  { destruct time as [| t ts]; [destruct Hin |].
    rewrite phase_fold_default_epoch, (fold_fminimum_nan Hin).
    rewrite phase_fold_nan_epoch.
    destruct period_derivative as [y | y], period as [x | x];
      try reflexivity.
    destruct x as [r | | |]; try reflexivity.
    cbn [scalar_mul scalar_truediv].
    destruct (Reqb r 0) eqn:Hr; [| reflexivity].
    apply Reqb_true in Hr. now subst r. }
  assert (Hloop : timeseries.bin_loop (map (fun _ => NaN) time) flux flux_err
                    num_bins = Ok (binned (Z.to_nat num_bins) [])).
  { apply bin_loop_nan_phases; [| lia].
    intros ph Hph. now apply in_map_iff in Hph as (t & <- & _). }
  assert (Hne : binned (Z.to_nat num_bins) [] <> [])
    by (apply binned_nonempty; lia).
  split; [exact Hfold | split].
  - intros Hnorm.
    destruct (@bin_phase_folded_data_from_rows time flux flux_err period
                period_derivative None num_bins num_cycles normalization
                _ _ (fun a b => a = NaN /\ b = NaN) Hfold Hloop Hne Hnorm Hk
                (binned_nil_nan _))
      as (rows' & _ & Hout & Hlen & Hall).
    exists (curve rows'). split; [exact Hout |].
    unfold curve. cbn [timeseries.flux timeseries.flux_err].
    rewrite length_map, Hlen, binned_length. split; [| split].
    + destruct Hk as [-> | [-> | ->]]; lia.
    + apply Forall_map. eapply Forall_impl; [| exact Hall]. now intros r [H _].
    + apply Forall_map. eapply Forall_impl; [| exact Hall]. now intros r [_ H].
  - intros Hnorm. unfold timeseries.bin_phase_folded_data.
    rewrite Hfold. cbn [bind]. rewrite Hloop. cbn [bind].
    unfold timeseries.apply_normalization. rewrite Hnorm.
    destruct (binned (Z.to_nat num_bins) []) as [| r rows] eqn:Hb;
      [contradiction |].
    cbn [timeseries.column bind].
    assert (Hgen : forall l : list timeseries.row,
              Forall (fun r => timeseries.col1 r = NaN /\
                               timeseries.col2 r = NaN) l ->
              List.filter isfinite (map timeseries.col1 l) = []).
    { induction 1 as [| r0 l0 [H0 _] _ IH]; [reflexivity |].
      cbn [map List.filter]. rewrite H0. exact IH. }
    pose proof (binned_nil_nan (Z.to_nat num_bins)) as Hall.
    rewrite Hb in Hall. now rewrite (Hgen _ Hall).
Qed.

Lemma nan_time_blanks_the_curve_witness :
  timeseries.phase_fold [Fin 1; NaN; Fin 3] (NpFloat64 (Fin 2))
                        (PyFloat (Fin 0)) None
  = Ok [NaN; NaN; NaN].
Proof.
  apply (@nan_time_blanks_the_curve [Fin 1; NaN; Fin 3] [] []
           (NpFloat64 (Fin 2)) (PyFloat (Fin 0)) 4 3 timeseries.PyFalse).
  - right. now left.
  - discriminate.
  - reflexivity.
  - right. now right.
Defined.

(** ** The bins partition the phases of [[0, 1)] *)

Section Partition.
Open Scope R_scope.
Import timeseries.

Lemma bin_mask_one (x lo hi : R) :
  bin_mask [Fin x] (Fin lo) (Fin hi) = [true] <-> lo <= x < hi.
Proof.
  unfold bin_mask. cbn [map fge fle flt]. split.
  - intros [= H]. apply andb_true_iff in H as [H1 H2].
    split; [now apply Rleb_true | now apply Rltb_true].
  - intros [H1 H2].
    now rewrite (proj2 (Rleb_true lo x) H1), (proj2 (Rltb_true x hi) H2).
Qed.

(** The bin of a phase: [floor(x * n)]. *)
Lemma bin_of_phase (n : nat) (x : R) :
  (0 < n)%nat -> 0 <= x < 1 ->
  exists i, (i < n)%nat /\ edge n i <= x < edge n (S i).
Proof.
  intros Hn [Hx0 Hx1].
  assert (Hn' : 0 < INR n) by (apply lt_0_INR; lia).
  destruct (Zfloor_bound (x * INR n)) as [Hlo Hhi].
  assert (H0 : (0 <= Zfloor (x * INR n))%Z).
  { apply Zfloor_lub. simpl. nra. }
  assert (Hi : IZR (Zfloor (x * INR n)) = INR (Z.to_nat (Zfloor (x * INR n)))).
  { now rewrite (INR_IZR_INZ (Z.to_nat (Zfloor (x * INR n)))), Z2Nat.id. }
  exists (Z.to_nat (Zfloor (x * INR n))). split.
  - apply INR_lt. rewrite <- Hi. nra.
  - unfold edge. rewrite S_INR, <- Hi. split.
    + apply Rmult_le_reg_r with (INR n); [exact Hn' |].
      replace (IZR (Zfloor (x * INR n)) / INR n * INR n)
        with (IZR (Zfloor (x * INR n))) by (field; lra).
      exact Hlo.
    + apply Rmult_lt_reg_r with (INR n); [exact Hn' |].
      replace ((IZR (Zfloor (x * INR n)) + 1) / INR n * INR n)
        with (IZR (Zfloor (x * INR n)) + 1) by (field; lra).
      exact Hhi.
Qed.

Lemma bin_of_phase_unique (n i j : nat) (x : R) :
  (0 < n)%nat ->
  edge n i <= x < edge n (S i) -> edge n j <= x < edge n (S j) -> i = j.
Proof.
  intros Hn [Hi1 Hi2] [Hj1 Hj2].
  assert (Hn' : 0 < INR n) by (apply lt_0_INR; lia).
  unfold edge in *.
  assert (Hij : INR i < INR (S j)).
  { apply Rmult_lt_reg_r with (/ INR n);
      [now apply Rinv_0_lt_compat | unfold Rdiv in *; lra]. }
  assert (Hji : INR j < INR (S i)).
  { apply Rmult_lt_reg_r with (/ INR n);
      [now apply Rinv_0_lt_compat | unfold Rdiv in *; lra]. }
  apply INR_lt in Hij, Hji. lia.
Qed.

Lemma edge_range (n i : nat) : (0 < n)%nat -> (i <= n)%nat -> 0 <= edge n i <= 1.
Proof.
  intros Hn Hi. split; [| now apply edge_le_1].
  unfold edge. assert (0 < INR n) by (apply lt_0_INR; lia).
  apply Rmult_le_reg_r with (INR n); [assumption |].
  replace (INR i / INR n * INR n) with (INR i) by (field; lra).
  rewrite Rmult_0_l. apply pos_INR.
Qed.

End Partition.

(** X5.  An observation is counted in a bin exactly when its phase is finite
    and in [[0, 1)], and then in one bin only: with the edges of
    [np.linspace(0, 1, num_bins + 1)], a phase [0 <= x < 1] passes the test
    [phase_min <= x < phase_max] of exactly one of the [num_bins] bins, and a
    phase that is negative, at least 1, infinite or [nan] passes none. *)
Theorem each_phase_in_one_bin (num_bins : Z) (bin_edges : list float) :
  (0 < num_bins)%Z ->
  Np.linspace01 (num_bins + 1) = Ok bin_edges ->
  let n := Z.to_nat num_bins in
  let mask := fun (p : float) (i : nat) =>
    timeseries.bin_mask [p] (nth i bin_edges NaN) (nth (i + 1) bin_edges NaN) in
  (forall x, (0 <= x < 1)%R ->
     exists i, (i < n)%nat /\ mask (Fin x) i = [true] /\
       forall j, (j < n)%nat -> mask (Fin x) j = [true] -> j = i) /\
  (forall p i, (i < n)%nat -> mask p i = [true] ->
     exists x, p = Fin x /\ (0 <= x < 1)%R).
Proof.
  intros Hn Hedges n mask.
  rewrite linspace_edges in Hedges by lia.
  assert (Hedges' : map (fun j => Fin (edge n j)) (seq 0 (S n)) = bin_edges)
    by (unfold n; congruence).
  clear Hedges. rename Hedges' into Hedges.
  assert (Hn' : (0 < n)%nat) by (unfold n; lia).
  assert (Hmask : forall p i, (i < n)%nat ->
            mask p i = timeseries.bin_mask [p] (Fin (edge n i))
                                           (Fin (edge n (S i)))).
  { intros p i Hi. unfold mask. rewrite <- Hedges.
    rewrite !nth_map_seq by lia. now rewrite Nat.add_1_r. }
  split.
  - intros x Hx. destruct (bin_of_phase Hn' Hx) as (i & Hi & Hin).
    exists i. split; [exact Hi |]. split.
    + rewrite Hmask by exact Hi. now apply bin_mask_one.
    + intros j Hj Hjm. rewrite Hmask in Hjm by exact Hj.
      apply bin_mask_one in Hjm. now apply (bin_of_phase_unique Hn' Hjm Hin).
  - intros p i Hi Hm. rewrite Hmask in Hm by exact Hi.
    destruct p as [x | | |]; try discriminate.
    exists x. split; [reflexivity |].
    apply bin_mask_one in Hm.
    pose proof (@edge_range n i Hn' ltac:(lia)).
    pose proof (@edge_range n (S i) Hn' ltac:(lia)). lra.
Qed.

Lemma each_phase_in_one_bin_witness :
  exists i, (i < 4)%nat /\
    timeseries.bin_mask [Fin 0.6]
      (nth i (map (fun j => Fin (edge 4 j)) (seq 0 5)) NaN)
      (nth (i + 1) (map (fun j => Fin (edge 4 j)) (seq 0 5)) NaN)
    = [true].
Proof.
  destruct (@each_phase_in_one_bin 4 (map (fun j => Fin (edge 4 j)) (seq 0 5))
              eq_refl (linspace_edges (num_bins := 4) ltac:(lia)))
    as [Hin _].
  destruct (Hin 0.6%R ltac:(lra)) as (i & Hi & Hm & _).
  exists i. split; [exact Hi | exact Hm].
Defined.

(** ** Bounds on the statistics of a bin *)

Section Bounds.
Open Scope R_scope.
Import timeseries.

Lemma weighted_sum_lower (m : list obs) (a : R) :
  Forall (fun o => valid o = true) m ->
  (forall o, In o m -> a <= real (obs_flux o)) ->
  a * Rsum (map weight m) <= Rsum (map (fun o => real (obs_flux o) * weight o) m).
Proof.
  induction 1 as [| o l Ho _ IH]; intros Ha; simpl; [lra |].
  pose proof (weight_pos o Ho) as Hw.
  assert (H1 : a <= real (obs_flux o)) by (apply Ha; now left).
  assert (H2 : a * Rsum (map weight l)
               <= Rsum (map (fun o => real (obs_flux o) * weight o) l))
    by (apply IH; intros o' Ho'; apply Ha; now right).
  nra.
Qed.

Lemma weighted_sum_upper (m : list obs) (b : R) :
  Forall (fun o => valid o = true) m ->
  (forall o, In o m -> real (obs_flux o) <= b) ->
  Rsum (map (fun o => real (obs_flux o) * weight o) m) <= b * Rsum (map weight m).
Proof.
  induction 1 as [| o l Ho _ IH]; intros Hb; simpl; [lra |].
  pose proof (weight_pos o Ho) as Hw.
  assert (H1 : real (obs_flux o) <= b) by (apply Hb; now left).
  assert (H2 : Rsum (map (fun o => real (obs_flux o) * weight o) l)
               <= b * Rsum (map weight l))
    by (apply IH; intros o' Ho'; apply Hb; now right).
  nra.
Qed.

Lemma weight_le_sum (m : list obs) (o : obs) :
  Forall (fun o => valid o = true) m -> In o m ->
  weight o <= Rsum (map weight m).
Proof.
  induction 1 as [| o' l Ho' Hl IH]; intros Hin; [destruct Hin |].
  simpl. pose proof (weight_pos o' Ho') as Hw.
  assert (H0 : 0 <= Rsum (map weight l)).
  { clear IH Hin. induction Hl as [| x l' Hx _ IH]; simpl; [lra |].
    pose proof (weight_pos x Hx). lra. }
  destruct Hin as [-> | Hin]; [lra |].
  specialize (IH Hin). lra.
Qed.

Lemma weighted_mean_bounds (m : list obs) (a b : R) :
  m <> [] -> Forall (fun o => valid o = true) m ->
  (forall o, In o m -> a <= real (obs_flux o) <= b) ->
  a <= weighted_mean m <= b.
Proof.
  intros Hne Hall Hab. unfold weighted_mean.
  pose proof (Rsum_weight_pos Hne Hall) as HW.
  assert (Hlo := @weighted_sum_lower m a Hall
                   (fun o Ho => proj1 (Hab o Ho))).
  assert (Hhi := @weighted_sum_upper m b Hall
                   (fun o Ho => proj2 (Hab o Ho))).
  set (W := Rsum (map weight m)) in *.
  set (S := Rsum (map (fun o => real (obs_flux o) * weight o) m)) in *.
  split.
  - apply Rmult_le_reg_r with W; [exact HW |].
    replace (S / W * W) with S by (field; lra). exact Hlo.
  - apply Rmult_le_reg_r with W; [exact HW |].
    replace (S / W * W) with S by (field; lra). exact Hhi.
Qed.

Lemma weighted_error_bounds (m : list obs) :
  m <> [] -> Forall (fun o => valid o = true) m ->
  0 < weighted_error m /\
  forall o, In o m -> weighted_error m <= real (obs_err o).
Proof.
  intros Hne Hall. unfold weighted_error.
  pose proof (Rsum_weight_pos Hne Hall) as HW.
  set (W := Rsum (map weight m)) in *.
  assert (HiW : 0 < 1 / W) by (apply Rdiv_lt_0_compat; lra).
  split; [now apply sqrt_lt_R0 |].
  intros o Ho.
  pose proof (weight_le_sum o Hall Ho) as Hle. fold W in Hle.
  assert (Hv : valid o = true) by (rewrite Forall_forall in Hall; now apply Hall).
  destruct (valid_inv o Hv) as (p & f & e & -> & He).
  unfold weight, obs_err in *. cbn [snd real] in *.
  rewrite <- (sqrt_square e) at 1 by lra.
  apply sqrt_le_1_alt.
  assert (Hee : 0 < e * e) by nra.
  apply Rmult_le_reg_r with W; [exact HW |].
  replace (1 / W * W) with 1 by (field; lra).
  apply Rmult_le_reg_r with (/ (e * e)); [now apply Rinv_0_lt_compat |].
  replace (e * e * W * / (e * e)) with W by (field; lra).
  unfold Rdiv in Hle. lra.
Qed.

End Bounds.

(** X6.  In exact arithmetic, in every bin with at least one valid
    observation the binned flux is a finite number between the smallest and
    the largest contributing flux, and the binned error is finite, positive
    and not larger than the error of any contributing observation.  (The
    bounds are those of the formulas: on doubles [flux_err**2] can underflow
    or overflow, which this does not cover.) *)
Theorem bin_statistics_bounds (phases flux flux_err : list float)
    (num_bins : Z) :
  List.length flux = List.length phases ->
  List.length flux_err = List.length phases ->
  (0 < num_bins)%Z ->
  let n := Z.to_nat num_bins in
  let l := observations phases flux flux_err in
  exists rows : list timeseries.row,
    timeseries.bin_loop phases flux flux_err num_bins = Ok rows /\
    forall i, (i < n)%nat ->
      let m := members (Fin (edge n i)) (Fin (edge n (S i))) l in
      m <> [] ->
      exists v s : R,
        nth i rows (NaN, NaN, NaN) = (Fin (midpoint n i), Fin v, Fin s) /\
        (forall a b, (forall o, In o m -> (a <= real (obs_flux o) <= b)%R) ->
                     (a <= v <= b)%R) /\
        (0 < s)%R /\
        (forall o, In o m -> (s <= real (obs_err o))%R).
Proof.
  intros Hf He Hn n l.
  exists (binned n l). split; [apply bin_loop_spec; trivial; lia |].
  intros i Hi m Hm.
  exists (weighted_mean m), (weighted_error m).
  pose proof (members_valid (Fin (edge n i)) (Fin (edge n (S i))) l) as Hall.
  fold m in Hall.
  split; [| split].
  - rewrite binned_nth by exact Hi. now apply bin_stat_members.
  - intros a b Hab. now apply weighted_mean_bounds.
  - now apply weighted_error_bounds.
Qed.

Lemma bin_statistics_bounds_witness :
  exists rows : list timeseries.row,
    timeseries.bin_loop [Fin 0.1; Fin 0.2] [Fin 10; Fin 20] [Fin 1; Fin 2] 1
    = Ok rows /\
    exists v s : R,
      nth 0 rows (NaN, NaN, NaN) = (Fin (midpoint 1 0), Fin v, Fin s) /\
      (10 <= v <= 20)%R /\ (0 < s <= 1)%R.
Proof.
  destruct (@bin_statistics_bounds [Fin 0.1; Fin 0.2] [Fin 10; Fin 20]
              [Fin 1; Fin 2] 1 eq_refl eq_refl eq_refl)
    as (rows & Hrows & Hbins).
  exists rows. split; [exact Hrows |].
  assert (Hm : members (Fin (edge 1 0)) (Fin (edge 1 1))
                 (observations [Fin 0.1; Fin 0.2] [Fin 10; Fin 20]
                    [Fin 1; Fin 2])
               = [(Fin 0.1, (Fin 10, Fin 1)); (Fin 0.2, (Fin 20, Fin 2))]).
  { unfold members, observations, in_bin, valid, edge, obs_phase, obs_flux,
      obs_err. simpl. Rdecide. reflexivity. }
  destruct (Hbins 0%nat (Nat.lt_0_succ 0)) as (v & s & Hrow & Hv & Hs & Hle).
  { change (Z.to_nat 1) with 1%nat. rewrite Hm. discriminate. }
  change (Z.to_nat 1) with 1%nat in *. rewrite Hm in *.
  exists v, s. split; [exact Hrow |]. split.
  - apply Hv. intros o [<- | [<- | []]]; cbn; lra.
  - split; [exact Hs |].
    apply (Hle (Fin 0.1, (Fin 10, Fin 1))). now left.
Defined.

(** ** Equal errors *)

Section EqualErrors.
Open Scope R_scope.

Lemma Rsum_const_weight (m : list obs) (c : R) :
  (forall o, In o m -> weight o = c) ->
  Rsum (map weight m) = c * INR (List.length m) /\
  Rsum (map (fun o => real (obs_flux o) * weight o) m)
  = c * Rsum (map (fun o => real (obs_flux o)) m).
Proof.
  induction m as [| o m IH]; intros Hc.
  - simpl. split; lra.
  - destruct IH as [IH1 IH2]; [intros o' Ho'; apply Hc; now right |].
    cbn [map Rsum fold_right List.length]. rewrite S_INR.
    fold (Rsum (map weight m)).
    fold (Rsum (map (fun o => real (obs_flux o) * weight o) m)).
    fold (Rsum (map (fun o => real (obs_flux o)) m)).
    rewrite IH1, IH2, (Hc o (or_introl eq_refl)). split; lra.
Qed.

Lemma equal_errors_statistics (m : list obs) (e : R) :
  m <> [] -> Forall (fun o => valid o = true) m ->
  (forall o, In o m -> obs_err o = Fin e) ->
  weighted_mean m
  = Rsum (map (fun o => real (obs_flux o)) m) / INR (List.length m) /\
  weighted_error m = e / sqrt (INR (List.length m)).
Proof.
  intros Hne Hall He.
  assert (Hpos : 0 < e).
  { destruct m as [| o m]; [contradiction |].
    inversion Hall as [| ? ? Ho _]; subst.
    destruct (valid_inv o Ho) as (p & f & e' & -> & He').
    specialize (He _ (or_introl eq_refl)). unfold obs_err in He.
    cbn in He. injection He as <-. exact He'. }
  assert (Hw : forall o, In o m -> weight o = 1 / (e * e)).
  { intros o Ho. unfold weight. now rewrite (He o Ho). }
  destruct (Rsum_const_weight m Hw) as [H1 H2].
  assert (HN : 0 < INR (List.length m)).
  { destruct m; [contradiction |]. apply lt_0_INR. simpl. lia. }
  assert (Hee : 0 < e * e) by nra.
  unfold weighted_mean, weighted_error. rewrite H1, H2. split.
  - field. split; lra.
  - replace (1 / (1 / (e * e) * INR (List.length m)))
      with (e * e / INR (List.length m)) by (field; split; lra).
    rewrite sqrt_div by lra. now rewrite sqrt_square by lra.
Qed.

End EqualErrors.

(** X7.  In exact arithmetic, when all valid observations of a bin carry the
    same error [e], the binned flux is the plain arithmetic mean of their
    fluxes and the binned error is [e / sqrt(k)], [k] the number of those
    observations.  (An identity of the formulas: on doubles [flux_err**2] can
    underflow or overflow, which this does not cover.) *)
Theorem equal_errors_plain_mean (phases flux flux_err : list float)
    (num_bins : Z) :
  List.length flux = List.length phases ->
  List.length flux_err = List.length phases ->
  (0 < num_bins)%Z ->
  let n := Z.to_nat num_bins in
  let l := observations phases flux flux_err in
  exists rows : list timeseries.row,
    timeseries.bin_loop phases flux flux_err num_bins = Ok rows /\
    forall i e, (i < n)%nat ->
      let m := members (Fin (edge n i)) (Fin (edge n (S i))) l in
      m <> [] ->
      (forall o, In o m -> obs_err o = Fin e) ->
      nth i rows (NaN, NaN, NaN)
      = (Fin (midpoint n i),
         Fin (Rsum (map (fun o => real (obs_flux o)) m) / INR (List.length m)),
         Fin (e / sqrt (INR (List.length m)))).
Proof.
  intros Hf He Hn n l.
  exists (binned n l). split; [apply bin_loop_spec; trivial; lia |].
  intros i e Hi m Hm Herr.
  pose proof (members_valid (Fin (edge n i)) (Fin (edge n (S i))) l) as Hall.
  fold m in Hall.
  destruct (equal_errors_statistics Hm Hall Herr) as [H1 H2].
  rewrite binned_nth by exact Hi.
  rewrite bin_stat_members by exact Hm. fold m. now rewrite H1, H2.
Qed.

Lemma equal_errors_plain_mean_witness :
  exists rows : list timeseries.row,
    timeseries.bin_loop [Fin 0.1; Fin 0.2] [Fin 10; Fin 20] [Fin 3; Fin 3] 1
    = Ok rows /\
    nth 0 rows (NaN, NaN, NaN)
    = (Fin (midpoint 1 0), Fin ((10 + (20 + 0)) / INR 2), Fin (3 / sqrt (INR 2))).
Proof.
  destruct (@equal_errors_plain_mean [Fin 0.1; Fin 0.2] [Fin 10; Fin 20]
              [Fin 3; Fin 3] 1 eq_refl eq_refl eq_refl)
    as (rows & Hrows & Hbins).
  exists rows. split; [exact Hrows |].
  assert (Hm : members (Fin (edge 1 0)) (Fin (edge 1 1))
                 (observations [Fin 0.1; Fin 0.2] [Fin 10; Fin 20]
                    [Fin 3; Fin 3])
               = [(Fin 0.1, (Fin 10, Fin 3)); (Fin 0.2, (Fin 20, Fin 3))]).
  { unfold members, observations, in_bin, valid, edge, obs_phase, obs_flux,
      obs_err. simpl. Rdecide. reflexivity. }
  change (Z.to_nat 1) with 1%nat in Hbins.
  specialize (Hbins 0%nat 3%R (Nat.lt_0_succ 0)). rewrite Hm in Hbins.
  apply Hbins; [discriminate |].
  intros o [<- | [<- | []]]; reflexivity.
Defined.

(** ** The order of the observations *)

Section Order.
Open Scope R_scope.
Import timeseries.

Lemma Permutation_filter' (A : Type) (f : A -> bool) (l l' : list A) :
  Permutation l l' -> Permutation (List.filter f l) (List.filter f l').
Proof.
  induction 1 as [| x l l' _ IH | x y l | l l' l'' _ IH1 _ IH2]; simpl.
  - constructor.
  - destruct (f x); [now constructor | exact IH].
  - destruct (f x), (f y); try apply Permutation_refl. apply perm_swap.
  - now apply perm_trans with (List.filter f l').
Qed.

Lemma Rsum_Permutation (l l' : list R) :
  Permutation l l' -> Rsum l = Rsum l'.
Proof.
  induction 1 as [| x l l' _ IH | x y l | l l' l'' _ IH1 _ IH2]; simpl;
    unfold Rsum in *; lra.
Qed.

Lemma bin_stat_Permutation (lo hi c : float) (l l' : list obs) :
  Permutation l l' -> bin_stat lo hi c l = bin_stat lo hi c l'.
Proof.
  intros Hp. unfold bin_stat.
  assert (Hm : Permutation (members lo hi l) (members lo hi l'))
    by now apply Permutation_filter'.
  assert (Hmean : weighted_mean (members lo hi l)
                  = weighted_mean (members lo hi l')).
  { unfold weighted_mean. f_equal; apply Rsum_Permutation;
      now apply Permutation_map. }
  assert (Herr : weighted_error (members lo hi l)
                 = weighted_error (members lo hi l')).
  { unfold weighted_error. do 2 f_equal. apply Rsum_Permutation.
    now apply Permutation_map. }
  destruct (members lo hi l) as [| o m] eqn:E1,
           (members lo hi l') as [| o' m'] eqn:E2.
  - reflexivity.
  - apply Permutation_nil in Hm. discriminate.
  - apply Permutation_sym, Permutation_nil in Hm. discriminate.
  - now rewrite Hmean, Herr.
Qed.

End Order.

(** X8.  The binned rows do not depend on the order of the observations:
    reordering the (time-aligned) observations, the same way in the three
    arrays, gives the same result of the loop. *)
Theorem bin_loop_order_irrelevant (l l' : list obs) (num_bins : Z) :
  Permutation l l' ->
  timeseries.bin_loop (map obs_phase l) (map obs_flux l) (map obs_err l)
                      num_bins
  = timeseries.bin_loop (map obs_phase l') (map obs_flux l') (map obs_err l')
                        num_bins.
Proof.
  intros Hp. destruct (Z.le_gt_cases 0 num_bins) as [Hn | Hn].
  - rewrite !bin_loop_obs by exact Hn. f_equal. unfold binned.
    apply map_ext. intros i. now apply bin_stat_Permutation.
  - rewrite !bin_loop_no_bins by lia. reflexivity.
Qed.

Lemma bin_loop_order_irrelevant_witness :
  timeseries.bin_loop [Fin 0.1; Fin 0.7] [Fin 10; Fin 20] [Fin 1; Fin 2] 3
  = timeseries.bin_loop [Fin 0.7; Fin 0.1] [Fin 20; Fin 10] [Fin 2; Fin 1] 3.
Proof.
  apply (@bin_loop_order_irrelevant
           [(Fin 0.1, (Fin 10, Fin 1)); (Fin 0.7, (Fin 20, Fin 2))]
           [(Fin 0.7, (Fin 20, Fin 2)); (Fin 0.1, (Fin 10, Fin 1))] 3).
  apply perm_swap.
Defined.

(** ** No bins, and arrays of different lengths *)

Section Degenerate.
Import timeseries.

Lemma for_each_raise (A B : Type) (body : A -> result B) (l : list A)
    (e : exn) :
  (forall x, In x l -> body x = Raise e \/ exists y, body x = Ok y) ->
  (exists x, In x l /\ body x = Raise e) ->
  Np.for_each body l = Raise e.
Proof.
  induction l as [| x l IH]; intros Hall (x0 & Hin & Hx0); [destruct Hin |].
  cbn [Np.for_each].
  destruct (Hall x (or_introl eq_refl)) as [Hx | [y Hx]]; rewrite Hx;
    cbn [bind]; [reflexivity |].
  rewrite IH; [reflexivity | |].
  - intros x' Hx'. apply Hall. now right.
  - destruct Hin as [-> | Hin]; [congruence |]. now exists x0.
Qed.

(** The body of the loop raises nothing but [IndexError], and raises it when
    the bin holds a phase and an array has another length than the phases. *)
Lemma bin_body_misaligned (phases flux flux_err bin_edges : list float)
    (ic : nat * float) :
  List.length flux <> List.length phases \/
  List.length flux_err <> List.length phases ->
  (bin_body phases flux flux_err bin_edges ic = Raise IndexError \/
   exists y, bin_body phases flux flux_err bin_edges ic = Ok y) /\
  (Np.any (bin_mask phases (nth (fst ic) bin_edges NaN)
                    (nth (fst ic + 1) bin_edges NaN)) = true ->
   bin_body phases flux flux_err bin_edges ic = Raise IndexError).
Proof.
  intros Hlen. destruct ic as [i c]. unfold bin_body. cbn [fst].
  set (mask := bin_mask phases (nth i bin_edges NaN)
                        (nth (i + 1) bin_edges NaN)).
  assert (Hmask : List.length mask = List.length phases)
    by apply length_map.
  destruct (Np.any mask); cbn [negb].
  2:{ split; [right; eexists; reflexivity | discriminate]. }
  assert (H : (bin_flux <- Np.getitem_mask flux mask ;;
               bin_flux_err <- Np.getitem_mask flux_err mask ;;
               (let valid := valid_mask bin_flux bin_flux_err in
                if negb (Np.any valid) then Ok (c, NaN, NaN)
                else
                  let bin_flux0 := Np.compress valid bin_flux in
                  let bin_flux_err0 := Np.compress valid bin_flux_err in
                  let weights :=
                    map (fun e => fdiv (Fin 1) (fsquare e)) bin_flux_err0 in
                  let weighted_mean :=
                    fdiv (Np.sum (Np.zip_with fmul bin_flux0 weights))
                         (Np.sum weights) in
                  let weighted_error :=
                    fsqrt (fdiv (Fin 1) (Np.sum weights)) in
                  Ok (c, weighted_mean, weighted_error)))
              = Raise IndexError).
  { unfold Np.getitem_mask. rewrite !Hmask.
    destruct (Nat.eqb_spec (List.length flux) (List.length phases)) as [E1 | N1];
      cbn [bind]; [| reflexivity].
    destruct (Nat.eqb_spec (List.length flux_err) (List.length phases))
      as [E2 | N2]; cbn [bind]; [| reflexivity].
    destruct Hlen; contradiction. }
  split; [left; exact H | intros _; exact H].
Qed.

End Degenerate.

(** X9.  With [num_bins <= 0] the call never returns a curve: every call
    raises.  When the fold succeeds, normalization is off and [num_cycles]
    is 1, 2 or 3, it is the [IndexError] of indexing a column of the empty
    array for [num_bins] 0 or -1, and the [ValueError] of [np.linspace] for
    [num_bins < -1]. *)
Theorem no_bins_never_returns (time flux flux_err : list float)
    (period period_derivative : scalar) (reference_epoch : option float)
    (num_bins num_cycles : Z) (normalization : timeseries.norm_arg) :
  (num_bins <= 0)%Z ->
  let r := timeseries.bin_phase_folded_data time flux flux_err period
             period_derivative reference_epoch num_bins num_cycles
             normalization in
  raises r /\
  (forall phases,
     timeseries.phase_fold time period period_derivative reference_epoch
     = Ok phases ->
     timeseries.truthy normalization = false ->
     (num_cycles = 1 \/ num_cycles = 2 \/ num_cycles = 3)%Z ->
     r = if (num_bins + 1 <? 0)%Z
         then Raise (ValueError (Np.negative_samples_msg (num_bins + 1)))
         else Raise IndexError).
Proof.
  intros Hn r. split.
  - destruct (bin_phase_folded_data_cases time flux flux_err period
                period_derivative reference_epoch num_bins normalization)
      as [[e He] | [rows [Hlen Hrun]]].
    + unfold r. now rewrite He.
    + unfold r. rewrite Hrun.
      destruct rows as [| x rows]; [| simpl in Hlen; lia].
      unfold timeseries.replicate_cycles.
      destruct (num_cycles =? 1)%Z; [exact I |].
      destruct (num_cycles =? 2)%Z; [exact I |].
      destruct (num_cycles =? 3)%Z; exact I.
  - intros phases Hfold Hnorm Hk. unfold r, timeseries.bin_phase_folded_data.
    rewrite Hfold. cbn [bind]. rewrite bin_loop_no_bins by exact Hn.
    destruct (num_bins + 1 <? 0)%Z; cbn [bind]; [reflexivity |].
    unfold timeseries.apply_normalization. rewrite Hnorm. cbn [bind].
    destruct Hk as [-> | [-> | ->]]; reflexivity.
Qed.

Lemma no_bins_never_returns_witness :
  timeseries.bin_phase_folded_data [Fin 1] [Fin 2] [Fin 3] (NpFloat64 (Fin 1))
    (PyFloat (Fin 0)) (Some (Fin 0)) 0 3 timeseries.PyFalse
  = Raise IndexError.
Proof.
  destruct (@no_bins_never_returns [Fin 1] [Fin 2] [Fin 3] (NpFloat64 (Fin 1))
              (PyFloat (Fin 0)) (Some (Fin 0)) 0 3 timeseries.PyFalse
              ltac:(lia)) as [_ H].
  exact (H _ eq_refl eq_refl (or_intror (or_intror eq_refl))).
Defined.

(** X10.  Arrays of different lengths are only noticed through a populated
    bin.  When [flux] or [flux_err] has another length than [time] and some
    phase is finite and in [[0, 1)], the call raises [IndexError], whatever
    [normalization] and [num_cycles] are. *)
Theorem misaligned_arrays_raise (time flux flux_err : list float)
    (period period_derivative : scalar) (reference_epoch : option float)
    (num_bins num_cycles : Z) (normalization : timeseries.norm_arg)
    (phases : list float) (x : R) :
  timeseries.phase_fold time period period_derivative reference_epoch
  = Ok phases ->
  List.length flux <> List.length time \/
  List.length flux_err <> List.length time ->
  In (Fin x) phases -> (0 <= x < 1)%R ->
  (0 < num_bins)%Z ->
  timeseries.bin_phase_folded_data time flux flux_err period period_derivative
    reference_epoch num_bins num_cycles normalization
  = Raise IndexError.
Proof.
  intros Hfold Hlen Hin Hx Hn.
  pose proof (phase_fold_length _ _ _ _ Hfold) as Hpl.
  assert (Hlen' : List.length flux <> List.length phases \/
                  List.length flux_err <> List.length phases)
    by (rewrite Hpl; exact Hlen).
  unfold timeseries.bin_phase_folded_data. rewrite Hfold. cbn [bind].
  assert (Hloop : timeseries.bin_loop phases flux flux_err num_bins
                  = Raise IndexError).
  { unfold timeseries.bin_loop. rewrite linspace_edges by lia. cbn [bind].
    set (n := Z.to_nat num_bins).
    rewrite (centers_of_edges n).
    unfold Np.enumerate. rewrite length_map, length_seq, combine_map_r.
    assert (Hn' : (0 < n)%nat) by (unfold n; lia).
    destruct (bin_of_phase Hn' Hx) as (i & Hi & Hbin).
    apply for_each_raise.
    - intros ic _. now apply bin_body_misaligned.
    - exists (i, Fin (midpoint n i)). split.
      + apply in_map_iff. exists i. split; [reflexivity |].
        apply in_seq. lia.
      + apply bin_body_misaligned; [exact Hlen' |]. cbn [fst].
        rewrite !nth_map_seq by lia. rewrite Nat.add_1_r.
        unfold timeseries.bin_mask. rewrite any_map.
        apply existsb_exists. exists (Fin x). split; [exact Hin |].
        destruct Hbin as [H1 H2]. cbn [fge fle flt].
        now rewrite (proj2 (Rleb_true _ _) H1), (proj2 (Rltb_true _ _) H2). }
  now rewrite Hloop.
Qed.

Lemma misaligned_arrays_raise_witness :
  timeseries.bin_phase_folded_data [Fin 0.5] [] [Fin 1] (NpFloat64 (Fin 1))
    (PyFloat (Fin 0)) (Some (Fin 0)) 2 3 timeseries.PyFalse
  = Raise IndexError.
Proof.
  apply (@misaligned_arrays_raise [Fin 0.5] [] [Fin 1] (NpFloat64 (Fin 1))
           (PyFloat (Fin 0)) (Some (Fin 0)) 2 3 timeseries.PyFalse
           [Fin (folded_phase 1 (0.5 - 0))] (folded_phase 1 (0.5 - 0))).
  - change [Fin 0.5] with (map Fin [0.5%R]).
    rewrite (@phase_fold_finite [0.5%R] (NpFloat64 (Fin 1)) (PyFloat (Fin 0))
               1%R 0%R); try reflexivity. lra.
  - left. discriminate.
  - now left.
  - apply folded_phase_pos_range. lra.
  - reflexivity.
Defined.

(** ** The phase grid of the returned curve *)

Section PhaseGrid.
Open Scope R_scope.
Import timeseries.

Lemma for_each_Forall2 (A B : Type) (body : A -> result B) (l : list A)
    (r : list B) :
  Np.for_each body l = Ok r -> Forall2 (fun x y => body x = Ok y) l r.
Proof.
  revert r. induction l as [| x l IH]; simpl; intros r H.
  - injection H as <-. constructor.
  - destruct (body x) as [e | y] eqn:Hx; cbn [bind] in H; [discriminate |].
    destruct (Np.for_each body l) as [e | ys]; cbn [bind] in H;
      [discriminate |].
    injection H as <-. constructor; [exact Hx | now apply IH].
Qed.

(** Whatever the data, a row carries the centre it was computed for. *)
Lemma bin_body_center (phases flux flux_err bin_edges : list float)
    (ic : nat * float) (y : row) :
  bin_body phases flux flux_err bin_edges ic = Ok y -> col0 y = snd ic.
Proof.
  destruct ic as [i c]. unfold bin_body.
  destruct (Np.any (bin_mask _ _ _)); cbn [negb]; [| now intros [= <-]].
  destruct (Np.getitem_mask flux _) as [e | bf]; cbn [bind]; [discriminate |].
  destruct (Np.getitem_mask flux_err _) as [e | be]; cbn [bind];
    [discriminate |].
  destruct (Np.any (valid_mask bf be)); cbn [negb]; now intros [= <-].
Qed.

Lemma bin_loop_centers (phases flux flux_err : list float) (num_bins : Z)
    (rows : list row) :
  bin_loop phases flux flux_err num_bins = Ok rows ->
  map col0 rows
  = map (fun i => Fin (midpoint (Z.to_nat num_bins) i))
        (seq 0 (Z.to_nat num_bins)).
Proof.
  destruct (Z.le_gt_cases 0 num_bins) as [Hn | Hn].
  - unfold bin_loop. rewrite (linspace_edges Hn). cbn [bind].
    set (n := Z.to_nat num_bins). rewrite (centers_of_edges n).
    unfold Np.enumerate. rewrite length_map, length_seq, combine_map_r.
    intros H%for_each_Forall2.
    remember (map (fun x => (x, Fin (midpoint n x))) (seq 0 n)) as l eqn:El.
    assert (Hs : map snd l = map (fun i => Fin (midpoint n i)) (seq 0 n))
      by (subst l; now rewrite map_map).
    rewrite <- Hs. clear El Hs.
    induction H as [| ic y l r Hy _ IH]; [reflexivity |].
    cbn [map]. now rewrite IH, (bin_body_center _ _ _ _ _ Hy).
  - rewrite bin_loop_no_bins by lia.
    destruct (num_bins + 1 <? 0)%Z; [discriminate |].
    intros [= <-]. now replace (Z.to_nat num_bins) with 0%nat by lia.
Qed.

Lemma apply_normalization_centers (normalization : norm_arg)
    (rows rows' : list row) :
  apply_normalization normalization rows = Ok rows' ->
  map col0 rows' = map col0 rows.
Proof.
  intros H. destruct (apply_normalization_shape _ _ H) as [-> | [nf ->]];
    [reflexivity | now rewrite map_map].
Qed.

Lemma seq_from (a len : nat) : seq a len = map (fun i => (a + i)%nat) (seq 0 len).
Proof.
  revert a. induction len as [| len IH]; intros a; [reflexivity |].
  cbn [seq map]. rewrite Nat.add_0_r. f_equal.
  rewrite (IH (S a)), <- seq_shift, map_map.
  apply map_ext. intros i. lia.
Qed.

Lemma grid_block (n : nat) (b : nat) (shift : R) :
  (0 < n)%nat ->
  map (fun j => Fin ((2 * INR j + 1) / (2 * INR n) - shift)) (seq (b * n) n)
  = map (fun i => Fin (midpoint n i + INR b - shift)) (seq 0 n).
Proof.
  intros Hn. rewrite (seq_from (b * n) n), map_map.
  apply map_ext. intros i. f_equal.
  rewrite midpoint_formula by exact Hn. rewrite plus_INR, mult_INR.
  assert (0 < INR n) by (apply lt_0_INR; lia). field. lra.
Qed.

End PhaseGrid.

(** X11.  The phases of a returned curve depend on [num_bins] and
    [num_cycles] only, never on the data, the period or the normalization:
    they are the uniform grid [(2 j + 1) / (2 num_bins)], [j = 0, 1, ...], of
    step [1 / num_bins], shifted down by one cycle when [num_cycles] is 2 or
    3 -- so the step stays [1 / num_bins] across the cycle boundaries. *)
Theorem returned_phases_are_the_grid (time flux flux_err : list float)
    (period period_derivative : scalar) (reference_epoch : option float)
    (num_bins num_cycles : Z) (normalization : timeseries.norm_arg)
    (out : timeseries.binned_curve) :
  timeseries.bin_phase_folded_data time flux flux_err period period_derivative
    reference_epoch num_bins num_cycles normalization = Ok out ->
  timeseries.phase out = phase_grid (Z.to_nat num_bins) num_cycles.
Proof.
  unfold timeseries.bin_phase_folded_data.
  destruct (timeseries.phase_fold _ _ _ _) as [e | phases]; cbn [bind];
    [discriminate |].
  destruct (timeseries.bin_loop _ _ _ _) as [e | rows0] eqn:Hloop; cbn [bind];
    [discriminate |].
  destruct (timeseries.apply_normalization _ _) as [e | rows] eqn:Hnorm;
    cbn [bind]; [discriminate |].
  pose proof (bin_loop_centers _ _ _ _ Hloop) as Hc0.
  pose proof (apply_normalization_centers _ _ Hnorm) as Hc.
  rewrite Hc0 in Hc. clear Hc0 Hloop Hnorm rows0.
  set (n := Z.to_nat num_bins) in *.
  destruct rows as [| r rows'].
  { unfold timeseries.replicate_cycles.
    destruct (num_cycles =? 1)%Z; [discriminate |].
    destruct (num_cycles =? 2)%Z; [discriminate |].
    destruct (num_cycles =? 3)%Z; discriminate. }
  set (rows := r :: rows') in *.
  assert (Hn : (0 < n)%nat).
  { destruct n; [discriminate | lia]. }
  assert (Hminus : map (fun x : timeseries.row =>
                          fsub (timeseries.col0 x) (Fin 1)) rows
                   = map (fun i => Fin (midpoint n i + INR 0 - 1)%R) (seq 0 n)).
  { rewrite <- (map_map timeseries.col0 (fun p => fsub p (Fin 1))), Hc, map_map.
    apply map_ext. intros i. simpl. f_equal. lra. }
  assert (Hzero : map timeseries.col0 rows
                  = map (fun i => Fin (midpoint n i + INR 1 - 1)%R) (seq 0 n)).
  { rewrite Hc. apply map_ext. intros i. simpl. f_equal. lra. }
  assert (Hplus : map (fun x : timeseries.row =>
                         fadd (timeseries.col0 x) (Fin 1)) rows
                  = map (fun i => Fin (midpoint n i + INR 2 - 1)%R) (seq 0 n)).
  { rewrite <- (map_map timeseries.col0 (fun p => fadd p (Fin 1))), Hc, map_map.
    apply map_ext. intros i. simpl. f_equal. lra. }
  assert (Hne : rows <> []) by discriminate.
  assert (Hsub : timeseries.phase_isub (Fin 1) rows
                 = Ok (map (fun x => (fsub (timeseries.col0 x) (Fin 1),
                                      timeseries.col1 x, timeseries.col2 x))
                           rows)) by reflexivity.
  assert (Hadd : timeseries.phase_iadd (Fin 1) rows
                 = Ok (map (fun x => (fadd (timeseries.col0 x) (Fin 1),
                                      timeseries.col1 x, timeseries.col2 x))
                           rows)) by reflexivity.
  assert (Happ : forall a b : list timeseries.row, a ++ rows ++ b <> []).
  { intros a b H. apply app_eq_nil in H as [_ H].
    apply app_eq_nil in H as [H _]. contradiction. }
  clearbody rows.
  pose proof (@grid_block n 0 1 Hn) as G0. cbn [Nat.mul] in G0.
  unfold timeseries.replicate_cycles, phase_grid.
  destruct (Z.eqb_spec num_cycles 1) as [-> | K1].
  - cbn [bind]. rewrite (as_dict_curve Hne). intros [= <-].
    unfold curve. cbn [timeseries.phase].
    change (Z.to_nat 1 * n)%nat with (1 * n)%nat. rewrite Nat.mul_1_l.
    rewrite Hc. apply map_ext. intros i.
    rewrite midpoint_formula by exact Hn. f_equal. lra.
  - destruct (Z.eqb_spec num_cycles 2) as [-> | K2].
    + rewrite Hsub. cbn [bind].
      rewrite as_dict_curve
        by (rewrite <- (app_nil_r rows) at 2; apply Happ).
      intros [= <-]. unfold curve. cbn [timeseries.phase].
      rewrite map_app, map_map. cbn [timeseries.col0 fst].
      replace (Z.to_nat 2 * n)%nat with (n + n)%nat by lia.
      rewrite seq_app, map_app.
      rewrite G0.
      replace (0 + n)%nat with (1 * n)%nat by lia.
      rewrite (@grid_block n 1 1 Hn).
      now rewrite Hminus, Hzero.
    + destruct (Z.eqb_spec num_cycles 3) as [-> | K3]; [| discriminate].
      rewrite Hsub. cbn [bind]. rewrite Hadd. cbn [bind].
      rewrite as_dict_curve by apply Happ.
      intros [= <-]. unfold curve. cbn [timeseries.phase].
      rewrite !map_app, !map_map. cbn [timeseries.col0 fst].
      replace (Z.to_nat 3 * n)%nat with (n + (n + n))%nat by lia.
      rewrite !seq_app, !map_app.
      rewrite G0.
      replace (0 + n)%nat with (1 * n)%nat by lia.
      rewrite (@grid_block n 1 1 Hn).
      replace (1 * n + n)%nat with (2 * n)%nat by lia.
      rewrite (@grid_block n 2 1 Hn).
      now rewrite Hminus, Hzero, Hplus.
Qed.

Lemma returned_phases_are_the_grid_witness :
  exists out,
    timeseries.bin_phase_folded_data [] [] [] (NpFloat64 (Fin 1))
      (PyFloat (Fin 0)) (Some (Fin 0)) 2 3 timeseries.PyFalse = Ok out /\
    timeseries.phase out = phase_grid 2 3.
Proof.
  eexists. split; [reflexivity |].
  apply (@returned_phases_are_the_grid [] [] [] (NpFloat64 (Fin 1))
           (PyFloat (Fin 0)) (Some (Fin 0)) 2 3 timeseries.PyFalse).
  reflexivity.
Defined.

(** ** What normalization achieves *)

Section NormalizationMore.
Open Scope R_scope.
Import timeseries.

Lemma filter_isfinite_values (a : list float) :
  List.filter isfinite a = map Fin (finite_values a).
Proof.
  unfold finite_values. induction a as [| x a IH]; [reflexivity |].
  destruct x; cbn [List.filter isfinite map real]; try exact IH.
  f_equal. exact IH.
Qed.

Lemma isfinite_scaled (x : float) (c : R) :
  c <> 0 -> isfinite (fdiv x (Fin c)) = isfinite x.
Proof.
  intros Hc. destruct x; cbn [fdiv isfinite]; rewrite ?(Reqb_neq Hc);
    try reflexivity; now destruct (Rltb c 0).
Qed.

Lemma finite_values_scaled (a : list float) (c : R) :
  c <> 0 ->
  finite_values (map (fun x => fdiv x (Fin c)) a)
  = map (fun v => v / c) (finite_values a).
Proof.
  intros Hc. unfold finite_values.
  induction a as [| x a IH]; [reflexivity |].
  cbn [map List.filter]. rewrite (isfinite_scaled x Hc).
  destruct x; cbn [isfinite]; try exact IH.
  cbn [map]. rewrite IH. f_equal. cbn [fdiv]. now rewrite (Reqb_neq Hc).
Qed.

Lemma Rsum_scaled (l : list R) (c : R) :
  Rsum (map (fun v => v / c) l) = Rsum l / c.
Proof.
  induction l as [| x l IH]; simpl; [unfold Rdiv; lra |].
  fold (Rsum (map (fun v => v / c) l)) (Rsum l). rewrite IH.
  unfold Rdiv. lra.
Qed.

Lemma code_mean (l : list R) :
  l <> [] -> Np.mean (map Fin l) = Fin (Rmean l).
Proof.
  intros Hne. unfold Np.mean, Rmean. rewrite sum_Fin, length_map.
  assert (0 < INR (List.length l)).
  { destruct l; [contradiction |]. apply lt_0_INR. simpl. lia. }
  cbn [fdiv]. now rewrite Reqb_neq by lra.
Qed.

(** A successful normalization divides by the statistic of the key. *)
Lemma apply_normalization_inv (s : string) (rows rows' : list row) :
  apply_normalization (PyStr s) rows = Ok rows' ->
  s <> EmptyString ->
  exists method norm_factor,
    norm_methods (lower s) = Some method /\
    List.filter isfinite (map col1 rows) <> [] /\
    method (List.filter isfinite (map col1 rows)) = Ok norm_factor /\
    rows' = map (fun r => (col0 r, fdiv (col1 r) norm_factor,
                           fdiv (col2 r) norm_factor)) rows.
Proof.
  intros H Hs.
  assert (Hne : rows <> []).
  { intros ->. unfold apply_normalization, truthy in H.
    rewrite (proj2 (String.eqb_neq s EmptyString) Hs) in H. discriminate. }
  rewrite apply_normalization_truthy in H by assumption.
  destruct (List.filter isfinite (map col1 rows)) as [| v vf] eqn:Hvf;
    [discriminate |].
  destruct (norm_methods (lower s)) as [method |]; [| discriminate].
  destruct (method (v :: vf)) as [e | norm_factor] eqn:Hm; cbn [bind] in H;
    [discriminate |].
  injection H as <-. exists method, norm_factor.
  repeat split; trivial. discriminate.
Qed.

Lemma lower_nonempty (s key : string) :
  lower s = key -> key <> EmptyString -> s <> EmptyString.
Proof. intros <- Hk ->. now apply Hk. Qed.

End NormalizationMore.

(** X12.  Normalization by the mean does what it is for: when the mean of
    the finite binned fluxes is not zero, the mean of the finite fluxes after
    normalization is exactly 1, the same bins are finite, and the phases are
    unchanged. *)
Theorem mean_normalization_gives_unit_mean (s : string)
    (rows rows' : list timeseries.row) :
  timeseries.lower s = "mean"%string ->
  timeseries.apply_normalization (timeseries.PyStr s) rows = Ok rows' ->
  Np.mean (List.filter isfinite (map timeseries.col1 rows)) <> Fin 0 ->
  Np.mean (List.filter isfinite (map timeseries.col1 rows')) = Fin 1 /\
  map timeseries.col0 rows' = map timeseries.col0 rows /\
  map (fun r => isfinite (timeseries.col1 r)) rows'
  = map (fun r => isfinite (timeseries.col1 r)) rows.
Proof.
  intros Hkey Hnorm Hnz.
  assert (Hs : s <> EmptyString)
    by (apply (lower_nonempty Hkey); discriminate).
  destruct (@apply_normalization_inv s rows rows' Hnorm Hs)
    as (method & nf & Hm & Hvf & Hnf & ->).
  rewrite Hkey in Hm. injection Hm as <-. injection Hnf as <-.
  rewrite filter_isfinite_values in Hvf, Hnz.
  rewrite (filter_isfinite_values (map timeseries.col1 rows)).
  set (fv := finite_values (map timeseries.col1 rows)) in *.
  assert (Hfv : fv <> []) by (intros E; apply Hvf; now rewrite E).
  rewrite (code_mean Hfv) in Hnz. rewrite (code_mean Hfv).
  assert (Hc : Rmean fv <> 0%R) by (intros E; apply Hnz; now rewrite E).
  split; [| split].
  - rewrite filter_isfinite_values, !map_map. cbn [timeseries.col1 fst snd].
    rewrite <- (map_map timeseries.col1 (fun x => fdiv x (Fin (Rmean fv)))).
    rewrite (finite_values_scaled _ Hc). fold fv.
    assert (Hne' : map (fun v => (v / Rmean fv)%R) fv <> [])
      by (destruct fv; [contradiction | discriminate]).
    rewrite (code_mean Hne'). f_equal.
    unfold Rmean at 1. rewrite Rsum_scaled, length_map.
    unfold Rmean in *.
    assert (0 < INR (List.length fv))%R.
    { destruct fv; [contradiction |]. apply lt_0_INR. simpl. lia. }
    field. split; [lra |].
    intros E. apply Hc. rewrite E. unfold Rdiv. lra.
  - now rewrite map_map.
  - rewrite map_map. apply map_ext. intros r. cbn [timeseries.col1 fst snd].
    now apply isfinite_scaled.
Qed.

Lemma mean_normalization_gives_unit_mean_witness :
  Np.mean (List.filter isfinite
             (map timeseries.col1
                [(Fin 0.25, fdiv (Fin 2) (Np.mean [Fin 2; Fin 6]),
                  fdiv (Fin 1) (Np.mean [Fin 2; Fin 6]));
                 (Fin 0.75, fdiv (Fin 6) (Np.mean [Fin 2; Fin 6]),
                  fdiv (Fin 1) (Np.mean [Fin 2; Fin 6]))]))
  = Fin 1.
Proof.
  apply (@mean_normalization_gives_unit_mean "Mean"
           [(Fin 0.25, Fin 2, Fin 1); (Fin 0.75, Fin 6, Fin 1)] _
           eq_refl eq_refl).
  cbn [map timeseries.col1 fst snd List.filter isfinite].
  unfold Np.mean, Np.sum. cbn [fold_left fadd List.length INR fdiv].
  Rdecide. intros [= H]. lra.
Defined.

Section MedianNormalization.
Open Scope R_scope.
Import timeseries.

Variable c : R.
Hypothesis c_pos : 0 < c.

Let scale (x : float) : float := fdiv x (Fin c).

Lemma scale_Fin (v : R) : scale (Fin v) = Fin (v / c).
Proof. unfold scale. cbn [fdiv]. now rewrite Reqb_neq by lra. Qed.

Lemma fle_scale (x y : float) :
  isfinite x = true -> isfinite y = true ->
  fle (scale x) (scale y) = fle x y.
Proof.
  destruct x as [a | | |], y as [b | | |]; try discriminate. intros _ _.
  rewrite !scale_Fin. cbn [fle].
  destruct (Rle_dec a b) as [H | H].
  - rewrite (proj2 (Rleb_true a b) H). apply Rleb_true.
    apply Rmult_le_reg_r with c; [exact c_pos |].
    replace (a / c * c) with a by (field; lra).
    replace (b / c * c) with b by (field; lra). exact H.
  - assert (Hba : b < a) by lra.
    rewrite (proj2 (Rleb_false a b) Hba). apply Rleb_false.
    apply Rmult_lt_reg_r with c; [exact c_pos |].
    replace (a / c * c) with a by (field; lra).
    replace (b / c * c) with b by (field; lra). exact Hba.
Qed.

Lemma insert_sorted_scale (x : float) (s : list float) :
  isfinite x = true -> Forall (fun y => isfinite y = true) s ->
  Np.insert_sorted (scale x) (map scale s) = map scale (Np.insert_sorted x s).
Proof.
  intros Hx Hs. induction Hs as [| y s Hy _ IH]; [reflexivity |].
  cbn [map Np.insert_sorted]. rewrite (fle_scale x y Hx Hy).
  destruct (fle x y); cbn [map]; [reflexivity | now rewrite IH].
Qed.

Lemma insert_sorted_finite (x : float) (s : list float) :
  isfinite x = true -> Forall (fun y => isfinite y = true) s ->
  Forall (fun y => isfinite y = true) (Np.insert_sorted x s).
Proof.
  intros Hx Hs. induction Hs as [| y s Hy Hs IH]; cbn [Np.insert_sorted].
  - now constructor.
  - destruct (fle x y); constructor; trivial. now constructor.
Qed.

Lemma sort_finite (a : list float) :
  Forall (fun y => isfinite y = true) a ->
  Forall (fun y => isfinite y = true) (Np.sort a).
Proof.
  unfold Np.sort. induction 1 as [| x a Hx _ IH]; cbn [fold_right];
    [constructor | now apply insert_sorted_finite].
Qed.

Lemma sort_scale (a : list float) :
  Forall (fun y => isfinite y = true) a ->
  Np.sort (map scale a) = map scale (Np.sort a).
Proof.
  intros Ha. unfold Np.sort.
  induction Ha as [| x a Hx Ha IH]; [reflexivity |].
  cbn [map fold_right]. rewrite IH.
  apply insert_sorted_scale; [exact Hx | now apply sort_finite].
Qed.

Lemma nth_scale (i : nat) (s : list float) :
  nth i (map scale s) NaN = scale (nth i s NaN).
Proof. change NaN with (scale NaN) at 1. apply map_nth. Qed.

Lemma nth_finite_or_nan (i : nat) (s : list float) :
  Forall (fun y => isfinite y = true) s ->
  (exists v, nth i s NaN = Fin v) \/ nth i s NaN = NaN.
Proof.
  intros Hs. destruct (Nat.lt_ge_cases i (List.length s)) as [Hi | Hi].
  - left. rewrite Forall_forall in Hs.
    specialize (Hs (nth i s NaN) (nth_In s NaN Hi)).
    destruct (nth i s NaN) as [v | | |]; try discriminate. now exists v.
  - right. now apply nth_overflow.
Qed.

Lemma median_scale (a : list float) :
  Forall (fun y => isfinite y = true) a ->
  Np.median (map scale a) = scale (Np.median a).
Proof.
  intros Ha. unfold Np.median. rewrite length_map, (sort_scale Ha).
  rewrite !nth_scale.
  destruct (Nat.even (List.length a)); [| reflexivity].
  pose proof (sort_finite Ha) as Hs.
  destruct (nth_finite_or_nan (List.length a / 2 - 1) Hs) as [[u ->] | ->],
           (nth_finite_or_nan (List.length a / 2) Hs) as [[v ->] | ->];
    rewrite ?scale_Fin; try reflexivity.
  cbn [fadd fdiv]. rewrite Reqb_neq by lra. rewrite scale_Fin.
  f_equal. field. lra.
Qed.

End MedianNormalization.

(** X13.  Normalization by the median: when the median of the finite binned
    fluxes is positive, the median of the finite fluxes after normalization
    is exactly 1 and the phases are unchanged. *)
Theorem median_normalization_gives_unit_median (s : string)
    (rows rows' : list timeseries.row) (c : R) :
  timeseries.lower s = "median"%string ->
  timeseries.apply_normalization (timeseries.PyStr s) rows = Ok rows' ->
  Np.median (List.filter isfinite (map timeseries.col1 rows)) = Fin c ->
  (0 < c)%R ->
  Np.median (List.filter isfinite (map timeseries.col1 rows')) = Fin 1 /\
  map timeseries.col0 rows' = map timeseries.col0 rows.
Proof.
  intros Hkey Hnorm Hmed Hc.
  assert (Hs : s <> EmptyString)
    by (apply (lower_nonempty Hkey); discriminate).
  destruct (@apply_normalization_inv s rows rows' Hnorm Hs)
    as (method & nf & Hm & Hvf & Hnf & ->).
  rewrite Hkey in Hm. injection Hm as <-. injection Hnf as <-.
  rewrite Hmed. split; [| now rewrite map_map].
  assert (Hc0 : c <> 0%R) by lra.
  assert (Hfilter : List.filter isfinite
                      (map timeseries.col1
                         (map (fun r => (timeseries.col0 r,
                                         fdiv (timeseries.col1 r) (Fin c),
                                         fdiv (timeseries.col2 r) (Fin c)))
                              rows))
                    = map (fun x => fdiv x (Fin c))
                          (List.filter isfinite (map timeseries.col1 rows))).
  { rewrite map_map. cbn [timeseries.col1 fst snd].
    rewrite <- (map_map timeseries.col1 (fun x => fdiv x (Fin c))).
    generalize (map timeseries.col1 rows) as a.
    induction a as [| x a IH]; [reflexivity |].
    cbn [map List.filter]. rewrite (isfinite_scaled x Hc0).
    destruct (isfinite x); cbn [map]; now rewrite IH. }
  rewrite Hfilter, (median_scale Hc).
  - rewrite Hmed. cbn [fdiv]. rewrite (Reqb_neq Hc0). f_equal. now field.
  - apply Forall_forall. intros x Hx. now apply filter_In in Hx as [_ Hx].
Qed.

Lemma median_normalization_gives_unit_median_witness :
  Np.median (List.filter isfinite
               (map timeseries.col1
                  [(Fin 0.5, fdiv (Fin 4) (Np.median [Fin 4]),
                    fdiv (Fin 1) (Np.median [Fin 4]))]))
  = Fin 1.
Proof.
  apply (@median_normalization_gives_unit_median "MEDIAN"
           [(Fin 0.5, Fin 4, Fin 1)] _ 4%R eq_refl eq_refl eq_refl).
  lra.
Defined.

(** X14.  The normalization key is read case-insensitively: a string whose
    lowercase form is one of [median], [min], [max], [mean] gives exactly the
    result of that lowercase key. *)
Theorem normalization_key_case_insensitive (s : string)
    (binned_lc : list timeseries.row) :
  timeseries.norm_methods (timeseries.lower s) <> None ->
  timeseries.apply_normalization (timeseries.PyStr s) binned_lc
  = timeseries.apply_normalization (timeseries.PyStr (timeseries.lower s))
                                   binned_lc.
Proof.
  intros Hkey.
  assert (Hcases : timeseries.lower s = "median"%string \/
                   timeseries.lower s = "min"%string \/
                   timeseries.lower s = "max"%string \/
                   timeseries.lower s = "mean"%string).
  { destruct (String.eqb_spec (timeseries.lower s) "median"); [tauto |].
    destruct (String.eqb_spec (timeseries.lower s) "min"); [tauto |].
    destruct (String.eqb_spec (timeseries.lower s) "max"); [tauto |].
    destruct (String.eqb_spec (timeseries.lower s) "mean"); [tauto |].
    exfalso. apply Hkey. now apply norm_methods_none. }
  assert (Hidem : timeseries.lower (timeseries.lower s) = timeseries.lower s).
  { destruct Hcases as [E | [E | [E | E]]]; rewrite E; reflexivity. }
  assert (Hs : s <> EmptyString).
  { intros ->. destruct Hcases as [E | [E | [E | E]]]; discriminate. }
  assert (Hs' : timeseries.lower s <> EmptyString).
  { destruct Hcases as [E | [E | [E | E]]]; rewrite E; discriminate. }
  destruct binned_lc as [| r rows].
  - unfold timeseries.apply_normalization, timeseries.truthy.
    rewrite (proj2 (String.eqb_neq _ _) Hs), (proj2 (String.eqb_neq _ _) Hs').
    reflexivity.
  - rewrite !apply_normalization_truthy by (trivial; discriminate).
    rewrite Hidem.
    destruct (List.filter isfinite (map timeseries.col1 (r :: rows)));
      [reflexivity |].
    destruct (timeseries.norm_methods (timeseries.lower s));
      [reflexivity | contradiction].
Qed.

Lemma normalization_key_case_insensitive_witness :
  timeseries.apply_normalization (timeseries.PyStr "MeDiAn")
                                 [(Fin 0.5, Fin 4, Fin 1)]
  = timeseries.apply_normalization (timeseries.PyStr "median")
                                   [(Fin 0.5, Fin 4, Fin 1)].
Proof.
  apply (@normalization_key_case_insensitive "MeDiAn"
           [(Fin 0.5, Fin 4, Fin 1)]).
  discriminate.
Defined.

(** ** The catalog: cache, failures and lookups *)

Section CatalogMore.

(** X15.  The catalog is loaded once.  After a lookup that found the cache
    empty and loaded the files successfully, the cache holds the loaded
    frame, and every later lookup answers from it: it returns what a lookup
    in the first files returns and never sees other files. *)
Theorem catalog_is_loaded_once
    (files files' : result (list (result bls.DataFrame)))
    (source_id source_id' : Z) (stats : option bls.loc_result)
    (cache : option bls.DataFrame) :
  bls.get_bls_stats files source_id None = (Ok stats, cache) ->
  exists df,
    bls.load_catalog files = Ok df /\ cache = Some df /\
    bls.get_bls_stats files' source_id' cache
    = bls.get_bls_stats files source_id' None /\
    bls.get_period files' source_id' cache
    = bls.get_period files source_id' None.
Proof.
  unfold bls.get_bls_stats, bls.get_period, bls.get_catalog.
  destruct (bls.load_catalog files) as [e | df]; [discriminate |].
  intros H. exists df. split; [reflexivity |].
  assert (Hc : cache = Some df).
  { destruct (bls.in_index source_id df); now injection H as _ <-. }
  subst cache. repeat split.
Qed.

Lemma catalog_is_loaded_once_witness :
  let stored := {| bls.gid := 7; bls.pow := Fin 1; bls.snr := Fin 9;
                   bls.wid := Fin 3; bls.per_day := Fin 2;
                   bls.per_min := Fin 2880; bls.q := Fin 0;
                   bls.phi0 := Fin 0; bls.dphi := Fin 0;
                   bls.epo := Fin 58000 |} in
  exists df,
    bls.load_catalog (Ok [Ok [stored]]) = Ok df /\
    bls.get_bls_stats (Ok []) 7 (Some df)
    = bls.get_bls_stats (Ok [Ok [stored]]) 7 None.
Proof.
  intros stored.
  destruct (@catalog_is_loaded_once (Ok [Ok [stored]]) (Ok []) 8 7 None _
              eq_refl) as (df & H1 & H2 & H3 & _).
  exists df. split; [exact H1 |]. injection H2 as <-. exact H3.
Defined.

Lemma for_each_first_failure (e : exn) (dfs : list bls.DataFrame)
    (rest : list (result bls.DataFrame)) :
  Np.for_each (fun read_csv : result bls.DataFrame => read_csv)
              (map Ok dfs ++ Raise e :: rest)
  = Raise e.
Proof.
  induction dfs as [| d dfs IH]; [reflexivity |].
  cbn [map app Np.for_each bind]. now rewrite IH.
Qed.

(** X16.  A catalog that cannot be loaded is not reported as an absent
    source.  When listing the files raises, when there is no [.result] file
    ([pd.concat] of nothing raises [ValueError]) or when reading one file
    raises, every lookup raises that exception, for every source, and the
    cache stays empty so that the next lookup loads again. *)
Theorem catalog_failure_raises
    (files : result (list (result bls.DataFrame))) (source_id : Z) (e : exn) :
  files = Raise e \/
  (files = Ok [] /\ e = ValueError bls.no_objects_msg) \/
  (exists dfs rest, files = Ok (map Ok dfs ++ Raise e :: rest)) ->
  bls.load_catalog files = Raise e /\
  bls.get_bls_stats files source_id None = (Raise e, None) /\
  bls.get_period files source_id None = (Raise e, None).
Proof.
  intros H.
  assert (Hload : bls.load_catalog files = Raise e).
  { destruct H as [-> | [[-> ->] | (dfs & rest & ->)]]; try reflexivity.
    unfold bls.load_catalog. cbn [bind]. now rewrite for_each_first_failure. }
  split; [exact Hload |].
  unfold bls.get_bls_stats, bls.get_period, bls.get_catalog.
  now rewrite Hload.
Qed.

Lemma catalog_failure_raises_witness :
  bls.get_bls_stats (Ok []) 7 None
  = (Raise (ValueError bls.no_objects_msg), None).
Proof.
  apply (@catalog_failure_raises (Ok []) 7 (ValueError bls.no_objects_msg)).
  right. left. now split.
Defined.

Lemma in_index_iff (source_id : Z) (df : bls.DataFrame) :
  bls.in_index source_id df = true <->
  exists r, In r df /\ bls.gid r = source_id.
Proof.
  unfold bls.in_index. rewrite existsb_exists.
  split; intros (r & Hin & Hg); exists r; (split; [exact Hin |]);
    unfold bls.has_gid in *; now apply Z.eqb_eq.
Qed.

Lemma load_catalog_ok (dfs : list bls.DataFrame) :
  dfs <> [] ->
  bls.load_catalog (Ok (map Ok dfs))
  = Ok (map (fun r => bls.set_per_day r (fdiv (bls.per_min r) (Fin 1440)))
            (List.concat dfs)).
Proof.
  intros Hne. unfold bls.load_catalog. cbn [bind].
  assert (H : Np.for_each (fun read_csv : result bls.DataFrame => read_csv)
                (map Ok dfs) = Ok dfs).
  { clear Hne. induction dfs as [| d dfs IH]; [reflexivity |].
    cbn [map Np.for_each bind]. now rewrite IH. }
  rewrite H. cbn [bind].
  destruct dfs; [contradiction | reflexivity].
Qed.

(** X17.  Lookup after load.  When every file is read, a row of any file is
    found under its [gid]: the lookup returns it with only [per_day]
    replaced by [per_min / 1440] -- as the single row when the [gid] occurs
    once in all files, among the rows of that [gid] otherwise -- and a
    source listed in no file gets [None] without an exception. *)
Theorem catalog_lookup_finds_every_row (dfs : list bls.DataFrame)
    (source_id : Z) :
  dfs <> [] ->
  let files := Ok (map Ok dfs) in
  let recomputed := fun r =>
    bls.set_per_day r (fdiv (bls.per_min r) (Fin 1440)) in
  let matching :=
    List.filter (bls.has_gid source_id) (List.concat dfs) in
  exists df,
    bls.load_catalog files = Ok df /\
    List.length df = List.length (List.concat dfs) /\
    (matching = [] ->
     bls.get_bls_stats files source_id None = (Ok None, Some df)) /\
    (forall r, matching = [r] ->
     bls.get_bls_stats files source_id None
     = (Ok (Some (bls.Series (recomputed r))), Some df)) /\
    (forall r r' rest, matching = r :: r' :: rest ->
     bls.get_bls_stats files source_id None
     = (Ok (Some (bls.Frame (map recomputed matching))), Some df)).
Proof.
  intros Hne files recomputed matching.
  exists (map recomputed (List.concat dfs)).
  assert (Hload : bls.load_catalog files
                  = Ok (map recomputed (List.concat dfs)))
    by now apply load_catalog_ok.
  assert (Hfilter : List.filter (bls.has_gid source_id)
                      (map recomputed (List.concat dfs))
                    = map recomputed matching).
  { unfold matching. generalize (List.concat dfs) as l.
    induction l as [| r l IH]; [reflexivity |].
    cbn [map List.filter].
    replace (bls.has_gid source_id (recomputed r))
      with (bls.has_gid source_id r) by reflexivity.
    destruct (bls.has_gid source_id r); cbn [map]; now rewrite IH. }
  assert (Hidx : bls.in_index source_id (map recomputed (List.concat dfs))
                 = negb (match matching with [] => true | _ => false end)).
  { unfold bls.in_index.
    destruct (existsb _ _) eqn:Hex.
    - apply existsb_true_filter in Hex. rewrite Hfilter in Hex.
      destruct matching; [contradiction | reflexivity].
    - apply existsb_false_filter in Hex. rewrite Hfilter in Hex.
      destruct matching; [reflexivity | discriminate]. }
  split; [exact Hload | split; [apply length_map |]].
  unfold bls.get_bls_stats, bls.get_catalog. rewrite Hload, Hidx.
  unfold bls.loc. rewrite Hfilter.
  split; [| split].
  - now intros ->.
  - now intros r ->.
  - now intros r r' rest ->.
Qed.

Lemma catalog_lookup_finds_every_row_witness :
  let stored := {| bls.gid := 7; bls.pow := Fin 1; bls.snr := Fin 9;
                   bls.wid := Fin 3; bls.per_day := Fin 2;
                   bls.per_min := Fin 2880; bls.q := Fin 0;
                   bls.phi0 := Fin 0; bls.dphi := Fin 0;
                   bls.epo := Fin 58000 |} in
  exists df,
    bls.get_bls_stats (Ok (map Ok [[stored]])) 7 None
    = (Ok (Some (bls.Series
                   (bls.set_per_day stored (fdiv (Fin 2880) (Fin 1440))))),
       Some df) /\
    bls.get_bls_stats (Ok (map Ok [[stored]])) 8 None = (Ok None, Some df).
Proof.
  intros stored.
  destruct (@catalog_lookup_finds_every_row [[stored]] 7 ltac:(discriminate))
    as (df & Hload & _ & _ & Hone & _).
  destruct (@catalog_lookup_finds_every_row [[stored]] 8 ltac:(discriminate))
    as (df' & Hload' & _ & Hnone & _).
  rewrite Hload in Hload'. injection Hload' as <-.
  exists df. split; [exact (Hone stored eq_refl) | exact (Hnone eq_refl)].
Defined.

(** X18.  [get_period] agrees with [get_bls_stats]: it returns [None] for
    exactly the same sources, and otherwise the [per_min] of the rows that
    [get_bls_stats] returns, of which the [per_day] is that value over 1440
    (the cache is left in the same state). *)
Theorem get_period_matches_get_bls_stats
    (files : result (list (result bls.DataFrame))) (source_id : Z)
    (_catalog : option bls.DataFrame) :
  loaded _catalog ->
  match bls.get_bls_stats files source_id _catalog with
  | (Raise e, cache) =>
      bls.get_period files source_id _catalog = (Raise e, cache)
  | (Ok None, cache) =>
      bls.get_period files source_id _catalog = (Ok None, cache)
  | (Ok (Some (bls.Series r)), cache) =>
      bls.get_period files source_id _catalog
      = (Ok (Some [bls.per_min r]), cache) /\
      bls.per_day r = fdiv (bls.per_min r) (Fin 1440)
  | (Ok (Some (bls.Frame rows)), cache) =>
      bls.get_period files source_id _catalog
      = (Ok (Some (map bls.per_min rows)), cache) /\
      forall r, In r rows -> bls.per_day r = fdiv (bls.per_min r) (Fin 1440)
  end.
Proof.
  intros Hl. unfold bls.get_bls_stats, bls.get_period.
  destruct (bls.get_catalog files _catalog) as [[e | df] cache] eqn:Hcat;
    [reflexivity |].
  destruct (get_catalog_loaded files _catalog Hl Hcat) as [Hc Hlc].
  pose proof (loaded_per_day Hlc Hc) as Hpd.
  destruct (bls.in_index source_id df); [| reflexivity].
  pose proof (loc_rows df source_id) as Hrows.
  unfold bls.loc in *.
  destruct (List.filter (bls.has_gid source_id) df) as [| r [| r' rows]].
  - split; [reflexivity |]. intros r [].
  - split; [reflexivity |]. apply Hpd, Hrows.
  - split; [reflexivity |]. intros x Hx. apply Hpd. now apply Hrows.
Qed.

End CatalogMore.

Lemma get_period_matches_get_bls_stats_witness :
  let stored := {| bls.gid := 7; bls.pow := Fin 1; bls.snr := Fin 9;
                   bls.wid := Fin 3; bls.per_day := Fin 2;
                   bls.per_min := Fin 2880; bls.q := Fin 0;
                   bls.phi0 := Fin 0; bls.dphi := Fin 0;
                   bls.epo := Fin 58000 |} in
  fst (bls.get_period (Ok [Ok [stored]]) 7 None) = Ok (Some [Fin 2880]).
Proof.
  intros stored.
  pose proof (@get_period_matches_get_bls_stats (Ok [Ok [stored]]) 7 None I)
    as H.
  cbv beta iota delta [bls.get_bls_stats bls.get_catalog bls.load_catalog] in H.
  now destruct H as [-> _].
Defined.

(** ** The reducers: files, catalog rows and bands *)

Section ReducersMore.

Variable Table : Type.
Variable read_csv : Z -> result Table.
Variable extract : Table -> result lightcurve.lc_data.
Variable result_files : result (list (result bls.DataFrame)).

(** X19.  In [io-checkpoint.py] a catalog entry overrides the caller: when
    the catalog has an entry for the source, the [period] and
    [reference_epoch] passed to [read_bin_lightcurve] have no effect on
    what it returns or raises. *)
Theorem catalog_entry_overrides_arguments frame_case
    (source_id num_bins num_cycles : Z) (normalization : timeseries.norm_arg)
    (period period' : option scalar) (reference_epoch reference_epoch' : option float)
    (_catalog cache' : option bls.DataFrame) (stats : bls.loc_result) :
  bls.get_bls_stats result_files source_id _catalog = (Ok (Some stats), cache') ->
  io_checkpoint.read_bin_lightcurve read_csv extract result_files frame_case
    source_id num_bins num_cycles normalization period reference_epoch _catalog
  = io_checkpoint.read_bin_lightcurve read_csv extract result_files frame_case
      source_id num_bins num_cycles normalization period' reference_epoch'
      _catalog.
Proof.
  intros Hbls. unfold io_checkpoint.read_bin_lightcurve.
  destruct (io_checkpoint.read_lightcurve read_csv extract source_id)
    as [e | [lc |]]; try reflexivity.
  rewrite Hbls. now destruct stats.
Qed.

(** X20.  The two copies of [read_lightcurve] differ only on a missing or
    empty file.  The copy in [io-checkpoint.py] returns [None] exactly when
    [pd.read_csv] raises [FileNotFoundError] or [EmptyDataError]; the copy
    in [io.py] never returns [None]; and whenever [pd.read_csv] does
    anything else, the two copies return or raise the same. *)
Theorem read_lightcurve_copies_agree (source_id : Z) :
  io.read_lightcurve read_csv extract source_id <> Ok None /\
  (io_checkpoint.read_lightcurve read_csv extract source_id = Ok None <->
   read_csv source_id = Raise FileNotFoundError \/
   read_csv source_id = Raise EmptyDataError) /\
  (io_checkpoint.read_lightcurve read_csv extract source_id <> Ok None ->
   io_checkpoint.read_lightcurve read_csv extract source_id
   = io.read_lightcurve read_csv extract source_id).
Proof.
  unfold io.read_lightcurve, io_checkpoint.read_lightcurve.
  destruct (read_csv source_id) as [e | df]; cbn [bind].
  - split; [discriminate |].
    destruct e; (split; [split; [intros H | intros [H | H]] | intros H]);
      try discriminate; try reflexivity; try (now left); try (now right);
      try (now contradiction H).
  - destruct (extract df) as [e | lc]; cbn [bind];
      (split; [discriminate |]);
      (split; [split; [discriminate | intros [H | H]; discriminate] |]);
      reflexivity.
Qed.

Lemma compress_known_band (A : Type) (labels : list string) (band : string)
    (a : list A) :
  band = "c"%string \/ band = "o"%string ->
  Np.compress (lightcurve.eq_mask (List.filter known_band labels) band)
              (Np.compress (map known_band labels) a)
  = Np.compress (lightcurve.eq_mask labels band) a.
Proof.
  intros Hband. revert a.
  induction labels as [| s labels IH]; intros [| x a]; try reflexivity.
  - cbn [map Np.compress].
    now destruct (lightcurve.eq_mask (List.filter known_band (s :: labels)) band).
  - cbn [List.filter map Np.compress lightcurve.eq_mask].
    destruct (known_band s) eqn:Hk.
    + cbn [map Np.compress lightcurve.eq_mask].
      fold (lightcurve.eq_mask (List.filter known_band labels) band).
      fold (lightcurve.eq_mask labels band).
      rewrite IH. reflexivity.
    + assert (Hs : String.eqb s band = false).
      { unfold known_band in Hk. apply orb_false_iff in Hk as [Hc Ho].
        now destruct Hband as [-> | ->]. }
      rewrite Hs. fold (lightcurve.eq_mask labels band). apply IH.
Qed.

Lemma compress_known_length (A : Type) (labels : list string) (a : list A) :
  List.length a = List.length labels ->
  List.length (Np.compress (map known_band labels) a)
  = List.length (List.filter known_band labels).
Proof.
  revert a. induction labels as [| s labels IH]; intros [| x a] H;
    try discriminate; [reflexivity |].
  injection H as H. cbn [map Np.compress List.filter].
  destruct (known_band s); cbn [List.length]; [f_equal |]; now apply IH.
Qed.

Lemma getitem_known_band (A : Type) (labels : list string) (band : string)
    (a : list A) :
  List.length a = List.length labels ->
  band = "c"%string \/ band = "o"%string ->
  Np.getitem_mask (Np.compress (map known_band labels) a)
                  (lightcurve.eq_mask (List.filter known_band labels) band)
  = Np.getitem_mask a (lightcurve.eq_mask labels band).
Proof.
  intros Hlen Hband.
  rewrite !getitem_mask_ok.
  - now rewrite compress_known_band.
  - unfold lightcurve.eq_mask. now rewrite length_map.
  - unfold lightcurve.eq_mask. rewrite length_map.
    now apply compress_known_length.
Qed.

(** X21.  Observations of other filters are ignored.  For a light curve
    whose arrays have one entry per observation, the two band curves that
    the reducer of [io-checkpoint.py] computes are those of the light curve
    without the observations whose filter label is neither [c] nor [o]:
    such observations change nothing in what is returned or raised. *)
Theorem other_filters_are_ignored (lc : lightcurve.lc_data) (period : scalar)
    (reference_epoch : option float) (num_bins num_cycles : Z)
    (normalization : timeseries.norm_arg) :
  List.length (lightcurve.time lc) = List.length (lightcurve.filter lc) ->
  List.length (lightcurve.flux lc) = List.length (lightcurve.filter lc) ->
  List.length (lightcurve.flux_err lc) = List.length (lightcurve.filter lc) ->
  io_checkpoint.bin_bands (only_known_bands lc) period reference_epoch
    num_bins num_cycles normalization
  = io_checkpoint.bin_bands lc period reference_epoch
      num_bins num_cycles normalization.
Proof.
  intros Ht Hf He. unfold io_checkpoint.bin_bands.
  cbn [only_known_bands lightcurve.time lightcurve.flux lightcurve.flux_err
       lightcurve.filter].
  rewrite !getitem_known_band by (assumption || (now left) || (now right)).
  reflexivity.
Qed.

(** X22.  A period passed by the caller without a reference epoch does not
    survive an empty band.  In [io-checkpoint.py], for a source that the
    catalog does not list, with [period] given and [reference_epoch] left
    at [None], a light curve with no observation in filter [c] or none in
    filter [o] makes [read_bin_lightcurve] raise: [phase_fold] takes
    [np.min] of the empty array of times.  With no [c] observation the
    exception is that [ValueError]; with no [o] observation it is that
    [ValueError] unless binning the [c] band raised before. *)
Theorem empty_band_without_epoch_raises frame_case
    (source_id num_bins num_cycles : Z) (normalization : timeseries.norm_arg)
    (period : scalar) (_catalog cache' : option bls.DataFrame)
    (df : Table) (lc : lightcurve.lc_data) (band : string) :
  read_csv source_id = Ok df -> extract df = Ok lc ->
  List.length (lightcurve.time lc) = List.length (lightcurve.filter lc) ->
  List.length (lightcurve.flux lc) = List.length (lightcurve.filter lc) ->
  List.length (lightcurve.flux_err lc) = List.length (lightcurve.filter lc) ->
  bls.get_bls_stats result_files source_id _catalog = (Ok None, cache') ->
  band = "c"%string \/ band = "o"%string ->
  (forall s, In s (lightcurve.filter lc) -> s <> band) ->
  exists e,
    io_checkpoint.read_bin_lightcurve read_csv extract result_files frame_case
      source_id num_bins num_cycles normalization (Some period) None _catalog
    = (Raise e, cache') /\
    (band = "c"%string -> e = ValueError Np.empty_min_msg) /\
    (e = ValueError Np.empty_min_msg \/
     exists time_c flux_c flux_err_c,
       timeseries.bin_phase_folded_data time_c flux_c flux_err_c period
         (PyFloat (Fin 0)) None num_bins num_cycles normalization
       = Raise e).
Proof.
  intros Hcsv Hext Ht Hf He Hbls Hband Habs.
  unfold io_checkpoint.read_bin_lightcurve, io_checkpoint.read_lightcurve.
  rewrite Hcsv. cbn [bind]. rewrite Hext. cbn [bind]. rewrite Hbls.
  unfold io_checkpoint.bin_bands.
  assert (Hlen : forall (a : list float) b,
            List.length a = List.length (lightcurve.filter lc) ->
            List.length a
            = List.length (lightcurve.eq_mask (lightcurve.filter lc) b)).
  { intros a b Ha. unfold lightcurve.eq_mask. now rewrite length_map. }
  rewrite !getitem_mask_ok by now apply Hlen.
  cbn [bind].
  destruct Hband as [-> | ->].
  - rewrite !(compress_eq_mask_absent _ _ Habs).
    exists (ValueError Np.empty_min_msg).
    split; [reflexivity | split; [reflexivity | now left]].
  - destruct (timeseries.bin_phase_folded_data
                (Np.compress (lightcurve.eq_mask (lightcurve.filter lc) "c")
                             (lightcurve.time lc)) _ _ period _ None
                num_bins num_cycles normalization) as [e | binned_c] eqn:Hc.
    + exists e. cbn [bind].
      split; [reflexivity | split; [discriminate |]].
      right. eauto.
    + cbn [bind]. rewrite !(compress_eq_mask_absent _ _ Habs).
      exists (ValueError Np.empty_min_msg).
      split; [reflexivity | split; [reflexivity | now left]].
Qed.

End ReducersMore.

Lemma catalog_entry_overrides_arguments_witness :
  let stored := {| bls.gid := 7; bls.pow := Fin 1; bls.snr := Fin 9;
                   bls.wid := Fin 3; bls.per_day := Fin 2;
                   bls.per_min := Fin 2880; bls.q := Fin 0;
                   bls.phi0 := Fin 0; bls.dphi := Fin 0;
                   bls.epo := Fin 58000 |} in
  let lc := {| lightcurve.time := []; lightcurve.flux := [];
               lightcurve.flux_err := []; lightcurve.filter := [];
               lightcurve.ra := Fin 0; lightcurve.dec := Fin 0 |} in
  io_checkpoint.read_bin_lightcurve (fun _ : Z => Ok tt) (fun _ => Ok lc)
    (Ok [Ok [stored]]) (fun _ _ _ _ _ => Raise IndexError)
    7 500 3 timeseries.PyFalse (Some (PyFloat (Fin 1))) None None
  = io_checkpoint.read_bin_lightcurve (fun _ : Z => Ok tt) (fun _ => Ok lc)
      (Ok [Ok [stored]]) (fun _ _ _ _ _ => Raise IndexError)
      7 500 3 timeseries.PyFalse None (Some (Fin 5)) None.
Proof.
  intros stored lc.
  eapply (@catalog_entry_overrides_arguments unit (fun _ : Z => Ok tt)
            (fun _ => Ok lc) (Ok [Ok [stored]])).
  reflexivity.
Defined.

Lemma read_lightcurve_copies_agree_witness :
  io_checkpoint.read_lightcurve (fun _ : Z => @Raise unit EmptyDataError)
    (fun _ => Raise IndexError) 42 = Ok None.
Proof.
  apply (proj1 (proj2 (@read_lightcurve_copies_agree unit
                         (fun _ : Z => Raise EmptyDataError)
                         (fun _ => Raise IndexError) 42))).
  now right.
Defined.

Lemma other_filters_are_ignored_witness :
  let lc := {| lightcurve.time := [Fin 1; Fin 2];
               lightcurve.flux := [Fin 3; Fin 4];
               lightcurve.flux_err := [Fin 1; Fin 1];
               lightcurve.filter := ["c"%string; "x"%string];
               lightcurve.ra := Fin 0; lightcurve.dec := Fin 0 |} in
  io_checkpoint.bin_bands (only_known_bands lc) (PyFloat (Fin 1))
    (Some (Fin 0)) 2 1 timeseries.PyFalse
  = io_checkpoint.bin_bands lc (PyFloat (Fin 1)) (Some (Fin 0)) 2 1
      timeseries.PyFalse.
Proof.
  intros lc. apply other_filters_are_ignored; reflexivity.
Defined.

Lemma empty_band_without_epoch_raises_witness :
  let lc := {| lightcurve.time := [Fin 1]; lightcurve.flux := [Fin 3];
               lightcurve.flux_err := [Fin 1];
               lightcurve.filter := ["o"%string];
               lightcurve.ra := Fin 0; lightcurve.dec := Fin 0 |} in
  exists e,
    io_checkpoint.read_bin_lightcurve (fun _ : Z => Ok tt) (fun _ => Ok lc)
      (Ok [Ok []]) (fun _ _ _ _ _ => Raise IndexError)
      42 500 3 timeseries.PyFalse (Some (PyFloat (Fin 1))) None None
    = (Raise e, Some []) /\
    e = ValueError Np.empty_min_msg.
Proof.
  intros lc.
  destruct (@empty_band_without_epoch_raises unit (fun _ : Z => Ok tt)
              (fun _ => Ok lc) (Ok [Ok []]) (fun _ _ _ _ _ => Raise IndexError)
              42 500 3 timeseries.PyFalse (PyFloat (Fin 1)) None (Some [])
              tt lc "c"%string eq_refl eq_refl eq_refl eq_refl eq_refl eq_refl
              (or_introl eq_refl))
    as (e & Hrun & Hc & _).
  - intros s [<- | []]. discriminate.
  - exists e. split; [exact Hrun | now apply Hc].
Defined.

(** ** The data paths of the two copies *)

Section PathsMore.

Variable Path : Type.
Variable of_string : string -> Path.
Variable joinpath : Path -> list string -> Path.
Variable hostname : string.

(** X23.  [paths.py] and [paths-checkpoint.py] on the same host.  The
    functions of [paths.py] never raise: off [hypernova] they print the
    message and return [None].  Whenever a function of [paths.py] returns a
    path, the function of the same name in [paths-checkpoint.py] returns
    the same path; and whenever that one raises, the function of [paths.py]
    has returned [None], which happens only on a host that is neither
    [hypernova] nor named [node...]. *)
Theorem paths_copies_agree_on_known_host (parts : list string)
    (source_id : Z) :
  let agree (old : option Path * list string) (new : result Path) :=
    (forall path, fst old = Some path -> new = Ok path /\ snd old = []) /\
    (fst old = None <-> hostname <> "hypernova"%string) /\
    (fst old = None ->
     snd old = [paths.not_recognized_msg hostname]) /\
    (forall e, new = Raise e ->
       fst old = None /\ e = paths_checkpoint.RuntimeError /\
       String.prefix "node" hostname = false) in
  agree (paths.data_path of_string joinpath hostname parts)
        (paths_checkpoint.data_path of_string joinpath hostname parts) /\
  agree (paths.bls_path of_string joinpath hostname parts)
        (paths_checkpoint.bls_path of_string joinpath hostname parts) /\
  agree (paths.lc_path of_string joinpath hostname source_id)
        (paths_checkpoint.lc_path of_string joinpath hostname source_id).
Proof.
  intros agree. unfold agree.
  unfold paths.lc_path, paths_checkpoint.lc_path,
    paths.data_path, paths.bls_path,
    paths_checkpoint.data_path, paths_checkpoint.bls_path,
    paths_checkpoint._get_hostname.
  destruct (String.eqb hostname "hypernova") eqn:Hh.
  - apply String.eqb_eq in Hh. cbn [bind fst snd].
    repeat split; try discriminate; try congruence;
      try (intros path H; now injection H as <-).
  - apply String.eqb_neq in Hh. cbn [fst snd].
    destruct (String.prefix "node" hostname); cbn [bind];
      repeat split; try discriminate; try congruence;
      try (intros e H; now injection H as <-).
Qed.

End PathsMore.

(** ** One band: the reducer of [io.py] against the one of [io-checkpoint.py] *)

Section OneBand.

Variable Table : Type.
Variable read_csv : Z -> result Table.
Variable extract : Table -> result lightcurve.lc_data.
Variable result_files : result (list (result bls.DataFrame)).

Lemma compress_eq_mask_all (A : Type) (labels : list string) (band : string)
    (a : list A) :
  (forall s, In s labels -> s = band) ->
  List.length a = List.length labels ->
  Np.compress (lightcurve.eq_mask labels band) a = a.
Proof.
  revert a. induction labels as [| s labels IH]; intros [| x a] H Hlen;
    try discriminate; [reflexivity |].
  injection Hlen as Hlen.
  cbn [lightcurve.eq_mask map Np.compress].
  rewrite (H s (or_introl eq_refl)), String.eqb_refl.
  fold (lightcurve.eq_mask labels band).
  f_equal. apply IH; [| exact Hlen]. intros s' Hs'. apply H. now right.
Qed.

(** X24.  A light curve observed in filter [c] only, for a source with one
    catalog row.  What [read_bin_lightcurve] of [io.py] returns for it is
    the [c] curve of [read_bin_lightcurve] of [io-checkpoint.py]: when the
    former raises, the latter raises the same exception, and when the
    former returns a curve, the latter returns that curve under the key
    [c], unless binning the empty [o] band raises.  Without normalization,
    with at least one bin and 1, 2 or 3 cycles, both return: the former the
    curve, the latter that curve under [c] and an all-[nan] curve under
    [o]. *)
Theorem single_band_curve_is_the_unsplit_curve frame_case frame_case'
    (source_id num_bins num_cycles : Z) (normalization : timeseries.norm_arg)
    (period : option scalar) (reference_epoch : option float)
    (_catalog cache' : option bls.DataFrame)
    (df : Table) (lc : lightcurve.lc_data) (bls_data : bls.row) :
  read_csv source_id = Ok df -> extract df = Ok lc ->
  List.length (lightcurve.time lc) = List.length (lightcurve.filter lc) ->
  List.length (lightcurve.flux lc) = List.length (lightcurve.filter lc) ->
  List.length (lightcurve.flux_err lc) = List.length (lightcurve.filter lc) ->
  (forall s, In s (lightcurve.filter lc) -> s = "c"%string) ->
  bls.get_bls_stats result_files source_id _catalog
  = (Ok (Some (bls.Series bls_data)), cache') ->
  let old :=
    io.read_bin_lightcurve read_csv extract result_files frame_case
      source_id num_bins num_cycles normalization _catalog in
  let new :=
    io_checkpoint.read_bin_lightcurve read_csv extract result_files
      frame_case' source_id num_bins num_cycles normalization
      period reference_epoch _catalog in
  (forall e, old = (Raise e, cache') -> new = (Raise e, cache')) /\
  (forall curve, old = (Ok (Some curve), cache') ->
     (exists e, new = (Raise e, cache')) \/
     (exists binned_o,
        new = (Ok (Some [("c"%string, curve); ("o"%string, binned_o)]),
               cache'))) /\
  old <> (Ok None, cache') /\
  (timeseries.truthy normalization = false ->
   (0 < num_bins)%Z ->
   (num_cycles = 1 \/ num_cycles = 2 \/ num_cycles = 3)%Z ->
   exists curve binned_o,
     old = (Ok (Some curve), cache') /\
     new = (Ok (Some [("c"%string, curve); ("o"%string, binned_o)]),
            cache') /\
     Forall (fun x => x = NaN) (timeseries.flux binned_o) /\
     Forall (fun x => x = NaN) (timeseries.flux_err binned_o)).
Proof.
  intros Hcsv Hext Ht Hf He Hall Hbls old new.
  assert (Hlen : forall (a : list float) b,
            List.length a = List.length (lightcurve.filter lc) ->
            List.length a
            = List.length (lightcurve.eq_mask (lightcurve.filter lc) b)).
  { intros a b Ha. unfold lightcurve.eq_mask. now rewrite length_map. }
  assert (Habs : forall s, In s (lightcurve.filter lc) -> s <> "o"%string).
  { intros s Hs. rewrite (Hall s Hs). discriminate. }
  set (whole :=
         timeseries.bin_phase_folded_data
           (lightcurve.time lc) (lightcurve.flux lc) (lightcurve.flux_err lc)
           (NpFloat64 (bls.per_day bls_data)) (PyFloat (Fin 0))
           (Some (bls.epo bls_data)) num_bins num_cycles normalization).
  set (empty :=
         timeseries.bin_phase_folded_data [] [] []
           (NpFloat64 (bls.per_day bls_data)) (PyFloat (Fin 0))
           (Some (bls.epo bls_data)) num_bins num_cycles normalization).
  assert (Hold : old = (binned_data <- whole ;; Ok (Some binned_data), cache')).
  { unfold old, io.read_bin_lightcurve, io.read_lightcurve.
    rewrite Hcsv. cbn [bind]. rewrite Hext. cbn [bind]. now rewrite Hbls. }
  assert (Hnew : new
    = (d <- (binned_c <- whole ;;
             binned_o <- empty ;;
             Ok [("c"%string, binned_c); ("o"%string, binned_o)]) ;;
       Ok (Some d), cache')).
  { unfold new, io_checkpoint.read_bin_lightcurve,
      io_checkpoint.read_lightcurve.
    rewrite Hcsv. cbn [bind]. rewrite Hext. cbn [bind]. rewrite Hbls.
    unfold io_checkpoint.bin_bands.
    rewrite !getitem_mask_ok by now apply Hlen.
    cbn [bind].
    rewrite !(compress_eq_mask_absent _ _ Habs).
    now rewrite !compress_eq_mask_all. }
  assert (Hret : timeseries.truthy normalization = false ->
                 (0 < num_bins)%Z ->
                 (num_cycles = 1 \/ num_cycles = 2 \/ num_cycles = 3)%Z ->
                 (exists curve, whole = Ok curve) /\
                 (exists binned_o,
                    empty = Ok binned_o /\
                    Forall (fun x => x = NaN) (timeseries.flux binned_o) /\
                    Forall (fun x => x = NaN)
                           (timeseries.flux_err binned_o))).
  { intros Hnorm Hn Hk. split.
    - destruct (@bin_phase_folded_data_unnormalized
                  (lightcurve.time lc) (lightcurve.flux lc)
                  (lightcurve.flux_err lc) (NpFloat64 (bls.per_day bls_data))
                  (bls.epo bls_data) num_bins num_cycles normalization)
        as (out & Hout & _); try assumption; try congruence; try discriminate.
      now exists out.
    - destruct (@bin_phase_folded_data_unnormalized [] [] []
                  (NpFloat64 (bls.per_day bls_data)) (bls.epo bls_data)
                  num_bins num_cycles normalization)
        as (out & Hout & _ & _ & _ & Hnan);
        try assumption; try reflexivity; try discriminate.
      exists out. split; [exact Hout | exact (Hnan eq_refl)]. }
  rewrite Hold, Hnew. clear Hold Hnew. clearbody whole empty.
  split; [| split; [| split]].
  - intros e H. destruct whole as [e0 | binned_c]; cbn [bind] in *;
      [| discriminate]. now injection H as <-.
  - intros curve H. destruct whole as [e0 | binned_c]; cbn [bind] in *;
      [discriminate |]. injection H as <-.
    destruct empty as [e' | binned_o]; cbn [bind].
    + left. now exists e'.
    + right. now exists binned_o.
  - destruct whole; cbn [bind]; discriminate.
  - intros Hnorm Hn Hk.
    destruct (Hret Hnorm Hn Hk) as [[curve ->] (binned_o & -> & Hf' & He')].
    exists curve, binned_o. cbn [bind]. now repeat split.
Qed.

End OneBand.

Lemma single_band_curve_is_the_unsplit_curve_witness :
  let stored := {| bls.gid := 7; bls.pow := Fin 1; bls.snr := Fin 9;
                   bls.wid := Fin 3; bls.per_day := Fin 2;
                   bls.per_min := Fin 2880; bls.q := Fin 0;
                   bls.phi0 := Fin 0; bls.dphi := Fin 0;
                   bls.epo := Fin 58000 |} in
  let lc := {| lightcurve.time := [Fin 58001; Fin 58002.5];
               lightcurve.flux := [Fin 3; Fin 4];
               lightcurve.flux_err := [Fin 1; Fin 1];
               lightcurve.filter := ["c"%string; "c"%string];
               lightcurve.ra := Fin 0; lightcurve.dec := Fin 0 |} in
  let cache' :=
    Some [bls.set_per_day stored (fdiv (Fin 2880) (Fin 1440))] in
  exists curve binned_o,
    io.read_bin_lightcurve (fun _ : Z => Ok tt) (fun _ => Ok lc)
      (Ok [Ok [stored]]) (fun _ _ _ _ _ => Raise IndexError)
      7 2 1 timeseries.PyFalse None
    = (Ok (Some curve), cache') /\
    io_checkpoint.read_bin_lightcurve (fun _ : Z => Ok tt) (fun _ => Ok lc)
      (Ok [Ok [stored]]) (fun _ _ _ _ _ => Raise IndexError)
      7 2 1 timeseries.PyFalse None None None
    = (Ok (Some [("c"%string, curve); ("o"%string, binned_o)]), cache') /\
    Forall (fun x => x = NaN) (timeseries.flux binned_o).
Proof.
  intros stored lc cache'.
  pose proof
    (@single_band_curve_is_the_unsplit_curve unit (fun _ : Z => Ok tt)
       (fun _ => Ok lc) (Ok [Ok [stored]])
       (fun _ _ _ _ _ => Raise IndexError) (fun _ _ _ _ _ => Raise IndexError)
       7 2 1 timeseries.PyFalse None None None cache' tt lc
       (bls.set_per_day stored (fdiv (Fin 2880) (Fin 1440)))
       eq_refl eq_refl eq_refl eq_refl eq_refl) as H.
  cbv zeta in H.
  destruct H as (_ & _ & _ & Hret).
  - intros s [<- | [<- | []]]; reflexivity.
  - reflexivity.
  - destruct Hret as (curve & binned_o & Hold & Hnew & Hnan & _);
      [reflexivity | lia | now left |].
    exists curve, binned_o. now repeat split.
Defined.
